(** * Voice-ai: the conversation turn pipeline, its adapter and its analytics

    A shallow embedding of the parts of the repository that carry
    behaviour:

    - [App.updateMetrics]            (the analytics aggregator's fold),
    - [geminiService]                ([transcribeAudio], [generateSpeech],
                                     [getBotResponse] with its tool loop,
                                     [resetChat]),
    - [VoiceBotView]                 (the turn pipeline: [stopPlayback],
                                     [processConversationTurn],
                                     [startRecording], [stopRecording],
                                     [processAudioInput], [playResponse],
                                     [handleSuggestionClick]),
    - [TranscribeView] and [TTSView] (the two single-purpose tools).

    Conventions of the embedding.

    - A JavaScript string is the list of its UTF-16 code units.
    - A JavaScript number is an IEEE 754 double.  The analytics aggregator
      is embedded twice.  [AppDouble] folds doubles, with the binary64
      operations of the standard library's [SpecFloat]: every statement
      about the value of the running average is made there.  [App] folds
      exact rationals ([Qc], canonical so that equality is Leibniz
      equality) and carries the statements that rounding has no part in:
      the guards, the counts, what a fold leaves unchanged.  The durations
      a turn measures are exact rationals; [Date.now()] is an integer
      number of milliseconds.
    - [async] functions run to completion against the collaborators they
      await; a promise that rejects is a [Throws] completion. *)

From Stdlib Require Import ZArith NArith QArith Qcanon List Bool Ascii String.
From Stdlib Require Import DecimalString Lia Lqa SpecFloat Qpower.
Import ListNotations.

Set Implicit Arguments.

(* ================================================================== *)
(** ** JavaScript strings *)
(* ================================================================== *)

Module Js.

(** A string value: its UTF-16 code units. *)
Definition jsstring : Type := list N.

(** The code units of an ASCII literal of the source. *)
Definition lit (s : string) : jsstring :=
  List.map N_of_ascii (list_ascii_of_string s).

Definition eqb (a b : jsstring) : bool :=
  if list_eq_dec N.eq_dec a b then true else false.

(** [!s] is [true] exactly for the empty string. *)
Definition falsy (s : jsstring) : bool :=
  match s with [] => true | _ :: _ => false end.

(** ECMAScript WhiteSpace and LineTerminator code points, the
    characters [String.prototype.trim] strips.  All of them sit in the
    basic plane, so the test is on single code units. *)
Definition isWhiteSpace (c : N) : bool :=
  ((c =? 0x0009) || (c =? 0x000A) || (c =? 0x000B) || (c =? 0x000C)
   || (c =? 0x000D) || (c =? 0x0020) || (c =? 0x00A0) || (c =? 0x1680)
   || ((0x2000 <=? c) && (c <=? 0x200A))
   || (c =? 0x2028) || (c =? 0x2029) || (c =? 0x202F) || (c =? 0x205F)
   || (c =? 0x3000) || (c =? 0xFEFF))%N.

Fixpoint trimStart (s : jsstring) : jsstring :=
  match s with
  | [] => []
  | c :: rest => if isWhiteSpace c then trimStart rest else s
  end.

Definition trimEnd (s : jsstring) : jsstring :=
  List.rev (trimStart (List.rev s)).

Definition trim (s : jsstring) : jsstring := trimEnd (trimStart s).

Fixpoint startsWith (s prefix : jsstring) : bool :=
  match prefix, s with
  | [], _ => true
  | _ :: _, [] => false
  | p :: prefix', c :: s' => (N.eqb p c && startsWith s' prefix')%bool
  end.

(** [s.includes(sub)]. *)
Fixpoint includes (s sub : jsstring) : bool :=
  (startsWith s sub
   || match s with [] => false | _ :: s' => includes s' sub end)%bool.

(** Reading an own property of a plain object by its key. *)
Fixpoint property {A : Type} (key : jsstring) (obj : list (jsstring * A))
  : option A :=
  match obj with
  | [] => None
  | (k, v) :: rest => if eqb k key then Some v else property key rest
  end.

(** The own property names of [Object.prototype] (ECMA-262, 20.1.3 and
    B.2.2): what every object literal inherits.  Their values are
    functions, and for [__proto__] the prototype itself. *)
Definition objectPrototypeKeys : list jsstring :=
  List.map lit
    [ "constructor"%string; "hasOwnProperty"%string; "isPrototypeOf"%string;
      "propertyIsEnumerable"%string; "toLocaleString"%string;
      "toString"%string; "valueOf"%string; "__proto__"%string;
      "__defineGetter__"%string; "__defineSetter__"%string;
      "__lookupGetter__"%string; "__lookupSetter__"%string ].

(** What [obj[key]] finds on an object literal: an own property, a member
    inherited from [Object.prototype], or nothing ([undefined]). *)
Inductive Lookup (A : Type) : Type :=
  | Own (a : A)
  | Inherited (key : jsstring)
  | Missing.
Arguments Own {A} a.
Arguments Inherited {A} key.
Arguments Missing {A}.

(** [obj[key]] on an object literal. *)
Definition get {A : Type} (key : jsstring) (obj : list (jsstring * A))
  : Lookup A :=
  match property key obj with
  | Some v => Own v
  | None =>
      if List.existsb (eqb key) objectPrototypeKeys then Inherited key
      else Missing
  end.

(** Empty or whitespace-only: every code unit is white space. *)
Definition blank (s : jsstring) : bool := List.forallb isWhiteSpace s.

(** [n.toString()] for an integer-valued number. *)
Definition toString (n : Z) : jsstring :=
  lit (NilZero.string_of_int (Z.to_int n)).

End Js.

(* ================================================================== *)
(** ** JavaScript numbers, as exact rationals *)
(* ================================================================== *)

Module Num.

Open Scope Qc_scope.

(** Truthiness of a number: every value but zero. *)
Definition truthy (x : Qc) : bool := negb (Qc_eq_bool x 0).

(** Truthiness of an optional number field: [undefined] is falsy. *)
Definition truthyOpt (x : option Qc) : bool :=
  match x with Some v => truthy v | None => false end.

(** [x || 0] on a number. *)
Definition orZero (x : Qc) : Qc := if truthy x then x else 0.

(** [x || 0] on an optional number field. *)
Definition orZeroOpt (x : option Qc) : Qc :=
  match x with Some v => orZero v | None => 0 end.

Definition ofNat (n : nat) : Qc := Q2Qc (inject_Z (Z.of_nat n)).

Definition sum (l : list Qc) : Qc := List.fold_right Qcplus 0 l.

(** The arithmetic mean of a list of values. *)
Definition mean (l : list Qc) : Qc := sum l / ofNat (List.length l).

End Num.

(* ================================================================== *)
(** ** types.ts *)
(* ================================================================== *)

(** [lastQueryLatency]'s object. *)
Record Latency : Type := mkLatency
  { stt : Qc; llm : Qc; tts : Qc; total : Qc }.

Record AnalyticsMetrics : Type := mkMetrics
  { totalQueries : Qc;
    avgResponseTime : Qc;
    backendCalls : Qc;
    lastQueryLatency : option Latency   (* [null] is [None] *) }.

(** [Partial<AnalyticsMetrics>]: every field may be missing. *)
Module Partial.
Record t : Type := mk
  { totalQueries : option Qc;
    avgResponseTime : option Qc;
    backendCalls : option Qc;
    lastQueryLatency : option Latency }.

(** The argument [{}]. *)
Definition empty : t := mk None None None None.
End Partial.

Inductive LoadingState : Type :=
  | idle | recording | transcribing | thinking | synthesizing | playing
  | error.

Definition LoadingState_eqb (a b : LoadingState) : bool :=
  match a, b with
  | idle, idle | recording, recording | transcribing, transcribing
  | thinking, thinking | synthesizing, synthesizing | playing, playing
  | error, error => true
  | _, _ => false
  end.

Inductive Role : Type := user | model.

Record Message : Type := mkMessage
  { id : Js.jsstring;
    role : Role;
    text : Js.jsstring;
    timestamp : Z;
    isToolUse : option bool   (* optional field *) }.

(* ================================================================== *)
(** ** App.tsx: the analytics aggregator *)
(* ================================================================== *)

Module App.

Open Scope Qc_scope.

(** The initial [useState] value of [metrics]. *)
Definition initialMetrics : AnalyticsMetrics := mkMetrics 0 0 0 None.

(** The updater that [updateMetrics] hands to [setMetrics]: the next
    state as a function of the previous one. *)
Definition updateMetrics (prev : AnalyticsMetrics) (newMetrics : Partial.t)
  : AnalyticsMetrics :=
  let totalQueries' :=
    Num.orZero (totalQueries prev)
    + Num.orZeroOpt (Partial.totalQueries newMetrics) in
  let avgResponseTime' :=
    match Partial.avgResponseTime newMetrics with
    | Some t =>
        if Num.truthy t && Num.truthyOpt (Partial.totalQueries newMetrics)
        then (avgResponseTime prev * totalQueries prev + t) / totalQueries'
        else avgResponseTime prev
    | None => avgResponseTime prev
    end in
  {| totalQueries := totalQueries';
     avgResponseTime := avgResponseTime';
     backendCalls :=
       backendCalls prev + Num.orZeroOpt (Partial.backendCalls newMetrics);
     lastQueryLatency :=
       match Partial.lastQueryLatency newMetrics with
       | Some l => Some l
       | None => lastQueryLatency prev
       end |}.

(** The state after a sequence of folds, oldest first. *)
Definition foldAll (start : AnalyticsMetrics) (folds : list Partial.t)
  : AnalyticsMetrics :=
  List.fold_left updateMetrics folds start.

(** A turn's fold whose total latency is exactly zero. *)
Definition zeroLatencyFold : Partial.t :=
  Partial.mk (Some 1) (Some 0) None None.

End App.

(* ================================================================== *)
(** ** JavaScript numbers, as IEEE 754 doubles *)
(* ================================================================== *)

Module Double.

(** binary64: 53 bits of precision, exponents below 1024.  The operations
    are the standard library's specification of floating-point arithmetic,
    rounding to nearest with ties to even. *)
Definition prec : Z := 53.
Definition emax : Z := 1024.

Definition number : Type := spec_float.

Definition add (x y : number) : number := SFadd prec emax x y.
Definition mul (x y : number) : number := SFmul prec emax x y.
Definition div (x y : number) : number := SFdiv prec emax x y.

Definition zero : number := S754_zero false.

(** The double nearest to an integer. *)
Definition ofZ (z : Z) : number := binary_normalize prec emax z 0 false.

Definition one : number := Eval vm_compute in ofZ 1.

(** Truthiness of a number: every value but [+0], [-0] and [NaN]. *)
Definition truthy (x : number) : bool :=
  match x with
  | S754_zero _ | S754_nan => false
  | S754_infinity _ | S754_finite _ _ _ => true
  end.

(** Truthiness of an optional number field: [undefined] is falsy. *)
Definition truthyOpt (x : option number) : bool :=
  match x with Some v => truthy v | None => false end.

(** [x || 0] on a number. *)
Definition orZero (x : number) : number := if truthy x then x else zero.

(** [x || 0] on an optional number field. *)
Definition orZeroOpt (x : option number) : number :=
  match x with Some v => orZero v | None => zero end.

(** The real number a double stands for; the infinities and [NaN] stand
    for none. *)
Definition value (x : number) : option Qc :=
  match x with
  | S754_zero _ => Some 0%Qc
  | S754_finite s m e =>
      Some (Q2Qc (inject_Z (cond_Zopp s (Z.pos m)) * (2 # 1) ^ e))
  | S754_infinity _ | S754_nan => None
  end.

Definition real (x : number) : Qc :=
  match value x with Some v => v | None => 0%Qc end.

(** A positive finite number. *)
Definition isPositive (x : number) : bool :=
  match x with S754_finite false _ _ => true | _ => false end.

Definition isFinite (x : number) : bool :=
  match x with S754_finite _ _ _ | S754_zero _ => true | _ => false end.

(** [v] is within the relative error [u] of [x], for [x] not negative. *)
Definition within (u x v : Qc) : bool :=
  Qle_bool ((1 - u) * x)%Qc v && Qle_bool v ((1 + u) * x)%Qc.

(** [result], obtained from [x] and [y], is within the relative error [u]
    of what [op] gives on the reals; all three are finite.  Rounding to
    nearest keeps every double operation that neither overflows nor
    underflows within [2^-53]. *)
Definition rounded (u : Qc) (op : Qc -> Qc -> Qc) (x y result : number)
  : bool :=
  match value x, value y, value result with
  | Some a, Some b, Some c => within u (op a b) c
  | _, _, _ => false
  end.

(** The unit roundoff of binary64, [2^-53]. *)
Definition unitRoundoff : Qc := Q2Qc (1 # 9007199254740992).

(** [result], obtained from [x] and [y], is exactly what [op] gives on the
    reals: all three are finite and nothing was rounded. *)
Definition unrounded (op : Qc -> Qc -> Qc) (x y result : number) : bool :=
  match value x, value y, value result with
  | Some a, Some b, Some c => Qc_eq_bool c (op a b)
  | _, _, _ => false
  end.

End Double.

(* ================================================================== *)
(** ** App.tsx: the analytics aggregator, on doubles *)
(* ================================================================== *)

Module AppDouble.

Import Double.

Record Latency : Type := mkLatency
  { stt : number; llm : number; tts : number; total : number }.

Record AnalyticsMetrics : Type := mkMetrics
  { totalQueries : number;
    avgResponseTime : number;
    backendCalls : number;
    lastQueryLatency : option Latency   (* [null] is [None] *) }.

(** [Partial<AnalyticsMetrics>]: every field may be missing. *)
Module Partial.
Record t : Type := mk
  { totalQueries : option number;
    avgResponseTime : option number;
    backendCalls : option number;
    lastQueryLatency : option Latency }.
End Partial.

(** The initial [useState] value of [metrics]. *)
Definition initialMetrics : AnalyticsMetrics := mkMetrics zero zero zero None.

(** The updater that [updateMetrics] hands to [setMetrics]. *)
Definition updateMetrics (prev : AnalyticsMetrics) (newMetrics : Partial.t)
  : AnalyticsMetrics :=
  let totalQueries' :=
    add (orZero (totalQueries prev))
        (orZeroOpt (Partial.totalQueries newMetrics)) in
  let avgResponseTime' :=
    match Partial.avgResponseTime newMetrics with
    | Some t =>
        if truthy t && truthyOpt (Partial.totalQueries newMetrics)
        then div (add (mul (avgResponseTime prev) (totalQueries prev)) t)
                 totalQueries'
        else avgResponseTime prev
    | None => avgResponseTime prev
    end in
  {| totalQueries := totalQueries';
     avgResponseTime := avgResponseTime';
     backendCalls :=
       add (backendCalls prev) (orZeroOpt (Partial.backendCalls newMetrics));
     lastQueryLatency :=
       match Partial.lastQueryLatency newMetrics with
       | Some l => Some l
       | None => lastQueryLatency prev
       end |}.

(** The state after a sequence of folds, oldest first. *)
Definition foldAll (start : AnalyticsMetrics) (folds : list Partial.t)
  : AnalyticsMetrics :=
  List.fold_left updateMetrics folds start.

(** The total latency a fold carries. *)
Definition totalOf (p : Partial.t) : number :=
  match Partial.avgResponseTime p with Some t => t | None => zero end.

(** The number of queries a fold counts. *)
Definition queriesOf (p : Partial.t) : number :=
  orZeroOpt (Partial.totalQueries p).

(** One completed turn's fold: [totalQueries: 1] and a positive
    [avgResponseTime] (the turn's total latency). *)
Definition unitPositive (p : Partial.t) : Prop :=
  Partial.totalQueries p = Some one /\ isPositive (totalOf p) = true.

(** A fold that carries a positive number of queries and a finite nonzero
    latency total. *)
Definition weighted (p : Partial.t) : Prop :=
  match Partial.totalQueries p, Partial.avgResponseTime p with
  | Some q, Some t =>
      isPositive q = true /\ isFinite t = true /\ truthy t = true
  | _, _ => False
  end.

(** None of the four operations of a fold rounds: the new count, the
    product of the old average and the old count, the sum with the new
    total, and the quotient. *)
Definition exactFold (prev : AnalyticsMetrics) (p : Partial.t) : bool :=
  let count := orZero (totalQueries prev) in
  let product := mul (avgResponseTime prev) (totalQueries prev) in
  let sum := add product (totalOf p) in
  let count' := add count (queriesOf p) in
  unrounded Qcplus count (queriesOf p) count'
  && unrounded Qcmult (avgResponseTime prev) (totalQueries prev) product
  && unrounded Qcplus product (totalOf p) sum
  && unrounded Qcdiv sum count' (div sum count').

(** No operation rounds in a whole sequence of folds. *)
Fixpoint exactFolds (start : AnalyticsMetrics) (folds : list Partial.t)
  : bool :=
  match folds with
  | [] => true
  | p :: rest => exactFold start p && exactFolds (updateMetrics start p) rest
  end.

(** The count of a fold is exact and each of its three other operations
    is within the relative error [u]. *)
Definition nearFold (u : Qc) (prev : AnalyticsMetrics) (p : Partial.t)
  : bool :=
  let count := orZero (totalQueries prev) in
  let product := mul (avgResponseTime prev) (totalQueries prev) in
  let sum := add product (totalOf p) in
  let count' := add count (queriesOf p) in
  unrounded Qcplus count (queriesOf p) count'
  && rounded u Qcmult (avgResponseTime prev) (totalQueries prev) product
  && rounded u Qcplus product (totalOf p) sum
  && rounded u Qcdiv sum count' (div sum count').

(** Every operation of a whole sequence of folds is within [u]. *)
Fixpoint nearFolds (u : Qc) (start : AnalyticsMetrics)
    (folds : list Partial.t) : bool :=
  match folds with
  | [] => true
  | p :: rest =>
      nearFold u start p && nearFolds u (updateMetrics start p) rest
  end.

(** The query counts and the totals of a sequence of folds, as reals. *)
Definition weights (folds : list Partial.t) : list Qc :=
  List.map (fun p => real (queriesOf p)) folds.

Definition totals (folds : list Partial.t) : list Qc :=
  List.map (fun p => real (totalOf p)) folds.

(** The fold of one turn that took a whole number of milliseconds. *)
Definition turn (millis : Z) : Partial.t :=
  Partial.mk (Some one) (Some (ofZ millis)) None None.

(** A fold that counts several queries at once. *)
Definition batch (queries millis : Z) : Partial.t :=
  Partial.mk (Some (ofZ queries)) (Some (ofZ millis)) None None.

(** Eight turns whose totals sum to 3736 ms: their mean is 467 ms. *)
Definition roundedTotals : list Z :=
  [808; 209; 769; 739; 268; 859; 42; 42]%Z.

End AppDouble.

(* ================================================================== *)
(** ** Completions, collaborators and the world *)
(* ================================================================== *)

(** A thrown error object: its [name] and its [message]. *)
Record exn : Type := mkExn { name : Js.jsstring; message : Js.jsstring }.

(** [new Error(m)]. *)
Definition Error (m : string) : exn := mkExn (Js.lit "Error") (Js.lit m).

(** Reading a property of [undefined]. *)
Definition TypeError (m : string) : exn := mkExn (Js.lit "TypeError") (Js.lit m).

(** How a call ends: it returns a value, or it throws (for an [async]
    function: its promise resolves, or it rejects). *)
Inductive completion (A : Type) : Type :=
  | Returns (a : A)
  | Throws (e : exn).
Arguments Returns {A} a.
Arguments Throws {A} e.

(** Opaque objects owned by a collaborator (a chat session, an audio
    context, a buffer source, a media stream) are named by a handle. *)
Definition Handle : Type := N.

Inductive JsVal : Type :=
  | VStr (s : Js.jsstring)
  | VNum (q : Qc).

(** A plain data object: its own properties, in order. *)
Definition JsObj : Type := list (Js.jsstring * JsVal).

(** The [apiResult] a requested call is answered with: a data object, or a
    member of [Object.prototype] that a lookup by key has found. *)
Inductive ToolResult : Type :=
  | Data (o : JsObj)
  | PrototypeMember (key : Js.jsstring).

(** A function call requested by the model.  [args] holds the string-valued
    arguments; every field may be missing. *)
Record FunctionCall : Type := mkCall
  { callId : option Js.jsstring;
    callName : option Js.jsstring;
    callArgs : option (list (Js.jsstring * Js.jsstring)) }.

(** [{ functionResponse: { id, name, response: { result } } }]. *)
Record FunctionResponse : Type := mkFunctionResponse
  { responseId : option Js.jsstring;
    responseName : option Js.jsstring;
    responseResult : ToolResult }.

(** What [chatSession.sendMessage] is given. *)
Inductive Payload : Type :=
  | UserMessage (message : Js.jsstring)
  | ToolParts (parts : list FunctionResponse).

(** What [chatSession.sendMessage] resolves to: [result.text] and
    [result.functionCalls], either of which may be [undefined]. *)
Record Response : Type := mkResponse
  { responseText : option Js.jsstring;
    functionCalls : option (list FunctionCall) }.

Record Blob : Type := mkBlob { blobBytes : list N; blobType : Js.jsstring }.

Definition blobSize (b : Blob) : N := N.of_nat (List.length (blobBytes b)).

(** The collaborators outside the repository's own logic, as operations on
    an abstract outside world [Remote]: the [@google/genai] client, the
    clocks, the helpers of [utils/audioUtils] (not part of the sources at
    hand), Web Audio and the media-capture API. *)
Record Collaborators (Remote : Type) : Type := mkCollaborators
  { (* ai.chats.create(...): builds the session object, no request is sent *)
    chatsCreate : Remote -> Remote * Handle;
    (* chatSession.sendMessage(...) *)
    sendMessage : Handle -> Payload -> Remote -> Remote * completion Response;
    (* ai.models.generateContent for speech, read through
       response.candidates?.[0]?.content?.parts?.[0]?.inlineData?.data *)
    ttsGenerateContent :
      Js.jsstring -> Js.jsstring -> Remote
      -> Remote * completion (option Js.jsstring);
    (* ai.models.generateContent for transcription, read through
       response.text *)
    sttGenerateContent :
      Js.jsstring -> Js.jsstring -> Remote
      -> Remote * completion (option Js.jsstring);
    atob : Js.jsstring -> completion Js.jsstring;
    dateNow : Remote -> Remote * Z;
    performanceNow : Remote -> Remote * Qc;
    blobToBase64 : Blob -> Remote -> Remote * completion Js.jsstring;
    decodeAudioData :
      list N -> Handle -> Remote -> Remote * completion Handle;
    newAudioContext : Remote -> Remote * completion Handle;
    contextSuspended : Handle -> Remote -> bool;
    contextResume : Handle -> Remote -> Remote * completion unit;
    (* ctx.createBufferSource(), source.buffer = ..., source.connect(...) *)
    createBufferSource :
      Handle -> Handle -> Remote -> Remote * completion Handle;
    sourceStart : Handle -> Remote -> Remote * completion unit;
    sourceStop : Handle -> Remote -> Remote * completion unit;
    (* navigator.mediaDevices.getUserMedia({ audio: true }) *)
    getUserMedia : Remote -> Remote * completion Handle;
    (* new MediaRecorder(stream) *)
    newMediaRecorder : Handle -> Remote -> Remote * completion Handle;
    recorderStart : Handle -> Remote -> Remote * completion unit;
    recorderStop : Handle -> Remote -> Remote * completion unit;
    (* stream.getTracks().forEach(track => track.stop()) *)
    stopTracks : Handle -> Remote -> Remote }.

Inductive Service : Type :=
  | ChatCreate | ChatSend | Synthesis | Transcription | Base64 | Decode
  | AudioContext | SourceStart | SourceStop | Microphone | Recorder | Tracks.

(** What a run leaves behind for an observer, oldest first. *)
Inductive Effect : Type :=
  | Invoke (s : Service)
  | ConsoleError (label : Js.jsstring)
  | ConsoleWarn (label : Js.jsstring)
  | StatusSet (s : LoadingState).

(** A pending [setTimeout] callback of the view. *)
Inductive Timer : Type :=
  | SetIdle (delay : Z)
      (* () => setStatus('idle') *)
  | SetIdleUnlessRecording (delay : Z) (captured : LoadingState)
      (* () => { if (status !== 'recording') setStatus('idle') }, with the
         [status] of the render that created the callback *).

(** Everything mutable: the outside world, the module variable of
    geminiService, the state of [App] and the state and refs of
    [VoiceBotView]. *)
Record World (Remote : Type) : Type := mkWorld
  { remote : Remote;
    trace : list Effect;
    chatSession : option Handle;
    metrics : AnalyticsMetrics;
    messages : list Message;
    status : LoadingState;
    errorMessage : option Js.jsstring;   (* the [error] state variable *)
    mediaRecorderRef : option Handle;
    chunksRef : list Blob;
    streamRef : option Handle;
    audioContextRef : option Handle;
    currentSourceRef : option Handle;
    timers : list Timer }.

Section Effects.

Variable Remote : Type.

(** A computation over the world that returns or throws. *)
Definition M (A : Type) : Type := World Remote -> World Remote * completion A.

Definition ret {A} (a : A) : M A := fun w => (w, Returns a).

Definition throw {A} (e : exn) : M A := fun w => (w, Throws e).

Definition bind {A B} (m : M A) (k : A -> M B) : M B :=
  fun w =>
    match m w with
    | (w', Returns a) => k a w'
    | (w', Throws e) => (w', Throws e)
    end.

(** [try { body } catch (e) { handler }]. *)
Definition tryCatch {A} (body : M A) (handler : exn -> M A) : M A :=
  fun w =>
    match body w with
    | (w', Returns a) => (w', Returns a)
    | (w', Throws e) => handler e w'
    end.

Definition liftCompletion {A} (c : completion A) : M A := fun w => (w, c).

Definition withRemote (f : Remote -> Remote) (w : World Remote) : World Remote :=
  mkWorld (f (remote w)) (trace w) (chatSession w) (metrics w)
    (messages w) (status w) (errorMessage w) (mediaRecorderRef w)
    (chunksRef w) (streamRef w) (audioContextRef w) (currentSourceRef w)
    (timers w).

Definition emitted (e : Effect) (w : World Remote) : World Remote :=
  mkWorld (remote w) (trace w ++ [e]) (chatSession w) (metrics w)
    (messages w) (status w) (errorMessage w) (mediaRecorderRef w)
    (chunksRef w) (streamRef w) (audioContextRef w) (currentSourceRef w)
    (timers w).

Definition emit (e : Effect) : M unit := fun w => (emitted e w, Returns tt).

(** A call of a collaborator that may throw, recorded in the trace. *)
Definition invoke {A} (s : Service)
    (f : Remote -> Remote * completion A) : M A :=
  fun w =>
    let w1 := emitted (Invoke s) w in
    let (r, c) := f (remote w1) in
    (withRemote (fun _ => r) w1, c).

(** A call of a collaborator that cannot throw, recorded in the trace. *)
Definition perform (s : Service) (f : Remote -> Remote) : M unit :=
  fun w => (withRemote f (emitted (Invoke s) w), Returns tt).

(** A reading of a collaborator that cannot throw (a clock). *)
Definition observe {A} (f : Remote -> Remote * A) : M A :=
  fun w => let (r, a) := f (remote w) in (withRemote (fun _ => r) w, Returns a).

Definition read {A} (f : World Remote -> A) : M A := fun w => (w, Returns (f w)).

Definition modify (f : World Remote -> World Remote) : M unit := fun w => (f w, Returns tt).

End Effects.

Declare Scope js_scope.
Delimit Scope js_scope with js.
Notation "x <- m ;; k" := (bind m (fun x => k))
  (at level 61, m at next level, right associativity) : js_scope.
Notation "m ;; k" := (bind m (fun _ => k))
  (at level 61, right associativity) : js_scope.

(** The statuses [setStatus] was called with, oldest first. *)
Definition statusHistory {Remote : Type} (w : World Remote)
  : list LoadingState :=
  List.flat_map
    (fun e => match e with StatusSet s => [s] | _ => [] end) (trace w).

(** The collaborators a run has called, oldest first. *)
Definition invoked {Remote : Type} (w : World Remote) : list Service :=
  List.flat_map
    (fun e => match e with Invoke s => [s] | _ => [] end) (trace w).

(** What the turn pipeline owns of the world: transcript, status, error
    text, analytics, pending timers, playback refs and the status history. *)
Definition pipelineView {Remote : Type} (w : World Remote) :=
  (messages w, status w, errorMessage w, metrics w, timers w,
   (currentSourceRef w, audioContextRef w), statusHistory w).

(* ================================================================== *)
(** ** services/geminiService.ts *)
(* ================================================================== *)

Module GeminiService.

Local Open Scope js_scope.

Definition MOCK_DATABASE_orders : list (Js.jsstring * JsObj) :=
  [ (Js.lit "ORD-123",
      [ (Js.lit "status", VStr (Js.lit "Shipped"));
        (Js.lit "delivery_date", VStr (Js.lit "2023-10-25")) ]);
    (Js.lit "ORD-456",
      [ (Js.lit "status", VStr (Js.lit "Processing"));
        (Js.lit "delivery_date", VStr (Js.lit "TBD")) ]);
    (Js.lit "ORD-789",
      [ (Js.lit "status", VStr (Js.lit "Delivered"));
        (Js.lit "delivery_date", VStr (Js.lit "2023-10-20")) ]) ].

Definition MOCK_DATABASE_accounts : list (Js.jsstring * JsObj) :=
  [ (Js.lit "user_main",
      [ (Js.lit "balance", VNum (Q2Qc (2501 # 2)));
        (Js.lit "currency", VStr (Js.lit "USD"));
        (Js.lit "plan", VStr (Js.lit "Premium")) ]) ].

(** [error.toString()] of an error object. *)
Definition exnToString (e : exn) : Js.jsstring :=
  match name e, message e with
  | [], m => m
  | n, [] => n
  | n, m => n ++ Js.lit ": " ++ m
  end.

(** The fallback of [getBotResponse] for an empty final text. *)
Definition rephraseReply : Js.jsstring :=
  Js.lit "I'm sorry, I didn't quite get that. Could you rephrase?".

(** The fallback of [getBotResponse] for a failed exchange. *)
Definition troubleReply : Js.jsstring :=
  Js.lit "I'm having a bit of trouble connecting to my systems right now. Please try again in a moment.".

Definition defaultVoice : Js.jsstring := Js.lit "Kore".

(** What [getBotResponse] resolves to: [{ text, toolUsed }]. *)
Record BotReply : Type := mkReply
  { replyText : Js.jsstring; toolUsed : bool }.

(** The body of the loop over the requested calls: the [apiResult] of one
    call.  Reading [args.orderId] throws when [args] is missing; a missing
    [orderId] reads as the key [undefined].  [MOCK_DATABASE.orders[id]]
    looks the key up on an object literal, so it also finds what the
    literal inherits; whatever it finds there is truthy and becomes the
    result. *)
Definition apiResult (call : FunctionCall) : completion ToolResult :=
  match callName call with
  | Some n =>
      if Js.eqb n (Js.lit "getOrderStatus") then
        match callArgs call with
        | None =>
            Throws (TypeError "Cannot read properties of undefined (reading 'orderId')")
        | Some args =>
            let key :=
              match Js.property (Js.lit "orderId") args with
              | Some k => k
              | None => Js.lit "undefined"
              end in
            match Js.get key MOCK_DATABASE_orders with
            | Js.Own order => Returns (Data order)
            | Js.Inherited member => Returns (PrototypeMember member)
            | Js.Missing =>
                Returns
                  (Data [ (Js.lit "status", VStr (Js.lit "Order not found.")) ])
            end
        end
      else if Js.eqb n (Js.lit "getAccountBalance") then
        match Js.property (Js.lit "user_main") MOCK_DATABASE_accounts with
        | Some account => Returns (Data account)
        | None => Returns (Data [])
        end
      else
        Returns (Data [ (Js.lit "error", VStr (Js.lit "Function not found")) ])
  | None =>
      Returns (Data [ (Js.lit "error", VStr (Js.lit "Function not found")) ])
  end.

(** [for (const call of calls) { ... parts.push(...) }]. *)
Fixpoint toolParts (calls : list FunctionCall)
  : completion (list FunctionResponse) :=
  match calls with
  | [] => Returns []
  | call :: rest =>
      match apiResult call with
      | Throws e => Throws e
      | Returns result =>
          match toolParts rest with
          | Throws e => Throws e
          | Returns parts =>
              Returns (mkFunctionResponse (callId call) (callName call) result
                         :: parts)
          end
      end
  end.

Section Service.

Variable Remote : Type.
Variable X : Collaborators Remote.

(** [transcribeAudio(base64Audio, mimeType)]. *)
Definition transcribeAudio (base64Audio mimeType : Js.jsstring)
  : M Remote Js.jsstring :=
  tryCatch
    (text <- invoke Transcription (sttGenerateContent X base64Audio mimeType) ;;
     match text with
     | None | Some [] => ret []
     | Some t => ret t
     end)
    (fun e =>
       emit (ConsoleError (Js.lit "Transcription error:")) ;;
       if Js.includes (exnToString e) (Js.lit "400")
       then throw (Error "Audio format not supported or file too short.")
       else throw (Error "Failed to process audio. Please try again.")).

(** [generateSpeech(text, voiceName)]; [null] is [None]. *)
Definition generateSpeech (text voiceName : Js.jsstring)
  : M Remote (option (list N)) :=
  tryCatch
    (if Js.falsy (Js.trim text) then ret None
     else
       base64Audio <- invoke Synthesis (ttsGenerateContent X text voiceName) ;;
       match base64Audio with
       | None | Some [] => throw (Error "Gemini returned no audio data.")
       | Some data =>
           binaryString <- liftCompletion (atob X data) ;;
           ret (Some (List.map (fun c => (c mod 256)%N) binaryString))
       end)
    (fun e =>
       emit (ConsoleError (Js.lit "TTS error:")) ;;
       throw (Error "Speech generation failed. Service might be busy.")).

(** [if (!chatSession) chatSession = ai.chats.create(...)]. *)
Definition ensureSession : M Remote Handle :=
  fun w =>
    match chatSession w with
    | Some session => (w, Returns session)
    | None =>
        let w1 := emitted (Invoke ChatCreate) w in
        let (r, session) := chatsCreate X (remote w1) in
        (mkWorld r (trace w1) (Some session) (metrics w1) (messages w1)
           (status w1) (errorMessage w1) (mediaRecorderRef w1) (chunksRef w1)
           (streamRef w1) (audioContextRef w1) (currentSourceRef w1)
           (timers w1),
         Returns session)
    end.

(** The first half of the [try] block of [getBotResponse]: the message is
    sent, requested calls are run and answered in one follow-up round.
    Yields the engine's final [result] and [toolUsed]. *)
Definition converse (session : Handle) (userText : Js.jsstring)
  : M Remote (Response * bool) :=
  result <- invoke ChatSend (sendMessage X session (UserMessage userText)) ;;
  match functionCalls result with
  | Some (call :: rest) =>
      parts <- liftCompletion (toolParts (call :: rest)) ;;
      result' <- invoke ChatSend (sendMessage X session (ToolParts parts)) ;;
      ret (result', true)
  | Some [] | None => ret (result, false)
  end.

(** The whole [try] block of [getBotResponse]. *)
Definition exchange (session : Handle) (userText : Js.jsstring)
  : M Remote BotReply :=
  final <- converse session userText ;;
  match responseText (fst final) with
  | None | Some [] => ret (mkReply rephraseReply false)
  | Some responseText => ret (mkReply responseText (snd final))
  end.

(** [getBotResponse(userText)]. *)
Definition getBotResponse (userText : Js.jsstring) : M Remote BotReply :=
  session <- ensureSession ;;
  tryCatch
    (exchange session userText)
    (fun e =>
       emit (ConsoleError (Js.lit "Bot logic error:")) ;;
       ret (mkReply troubleReply false)).

(** [resetChat()]. *)
Definition resetChat : M Remote unit :=
  modify (fun w =>
    mkWorld (remote w) (trace w) None (metrics w) (messages w) (status w)
      (errorMessage w) (mediaRecorderRef w) (chunksRef w) (streamRef w)
      (audioContextRef w) (currentSourceRef w) (timers w)).

End Service.

End GeminiService.

(* ================================================================== *)
(** ** components/VoiceBotView.tsx: the turn pipeline *)
(* ================================================================== *)

Module VoiceBotView.

Local Open Scope js_scope.

Section View.

Variable Remote : Type.
Variable X : Collaborators Remote.

(** *** State setters *)

Definition withStatus (s : LoadingState) (w : World Remote) : World Remote :=
  mkWorld (remote w) (trace w) (chatSession w) (metrics w) (messages w) s
    (errorMessage w) (mediaRecorderRef w) (chunksRef w) (streamRef w)
    (audioContextRef w) (currentSourceRef w) (timers w).

Definition withError (e : option Js.jsstring) (w : World Remote)
  : World Remote :=
  mkWorld (remote w) (trace w) (chatSession w) (metrics w) (messages w)
    (status w) e (mediaRecorderRef w) (chunksRef w) (streamRef w)
    (audioContextRef w) (currentSourceRef w) (timers w).

Definition withMessages (ms : list Message) (w : World Remote)
  : World Remote :=
  mkWorld (remote w) (trace w) (chatSession w) (metrics w) ms (status w)
    (errorMessage w) (mediaRecorderRef w) (chunksRef w) (streamRef w)
    (audioContextRef w) (currentSourceRef w) (timers w).

Definition withMetrics (m : AnalyticsMetrics) (w : World Remote)
  : World Remote :=
  mkWorld (remote w) (trace w) (chatSession w) m (messages w) (status w)
    (errorMessage w) (mediaRecorderRef w) (chunksRef w) (streamRef w)
    (audioContextRef w) (currentSourceRef w) (timers w).

Definition withRecorder (h : option Handle) (w : World Remote)
  : World Remote :=
  mkWorld (remote w) (trace w) (chatSession w) (metrics w) (messages w)
    (status w) (errorMessage w) h (chunksRef w) (streamRef w)
    (audioContextRef w) (currentSourceRef w) (timers w).

Definition withChunks (cs : list Blob) (w : World Remote) : World Remote :=
  mkWorld (remote w) (trace w) (chatSession w) (metrics w) (messages w)
    (status w) (errorMessage w) (mediaRecorderRef w) cs (streamRef w)
    (audioContextRef w) (currentSourceRef w) (timers w).

Definition withStream (h : option Handle) (w : World Remote) : World Remote :=
  mkWorld (remote w) (trace w) (chatSession w) (metrics w) (messages w)
    (status w) (errorMessage w) (mediaRecorderRef w) (chunksRef w) h
    (audioContextRef w) (currentSourceRef w) (timers w).

Definition withAudioContext (h : option Handle) (w : World Remote)
  : World Remote :=
  mkWorld (remote w) (trace w) (chatSession w) (metrics w) (messages w)
    (status w) (errorMessage w) (mediaRecorderRef w) (chunksRef w)
    (streamRef w) h (currentSourceRef w) (timers w).

Definition withCurrentSource (h : option Handle) (w : World Remote)
  : World Remote :=
  mkWorld (remote w) (trace w) (chatSession w) (metrics w) (messages w)
    (status w) (errorMessage w) (mediaRecorderRef w) (chunksRef w)
    (streamRef w) (audioContextRef w) h (timers w).

Definition withTimers (ts : list Timer) (w : World Remote) : World Remote :=
  mkWorld (remote w) (trace w) (chatSession w) (metrics w) (messages w)
    (status w) (errorMessage w) (mediaRecorderRef w) (chunksRef w)
    (streamRef w) (audioContextRef w) (currentSourceRef w) ts.

(** [setStatus(s)]; every call is recorded. *)
Definition setStatus (s : LoadingState) : M Remote unit :=
  emit (StatusSet s) ;; modify (withStatus s).

(** [setError(e)]. *)
Definition setError (e : option Js.jsstring) : M Remote unit :=
  modify (withError e).

(** [setMessages(prev => [...prev, m])]. *)
Definition appendMessage (m : Message) : M Remote unit :=
  modify (fun w => withMessages (messages w ++ [m]) w).

(** The [updateMetrics] prop: [App]'s fold. *)
Definition updateMetrics (p : Partial.t) : M Remote unit :=
  modify (fun w => withMetrics (App.updateMetrics (metrics w) p) w).

(** [setTimeout(callback, delay)]. *)
Definition setTimeout (t : Timer) : M Remote unit :=
  modify (fun w => withTimers (timers w ++ [t]) w).

(** The view as first rendered: the greeting, stamped with the clock. *)
Definition initialWorld (r : Remote) (now : Z) : World Remote :=
  mkWorld r [] None App.initialMetrics
    [ mkMessage (Js.lit "init") model
        (Js.lit "Hello! I'm Sonic. How can I help you today?") now None ]
    idle None None [] None None None [].

(** *** Handlers *)

(** [stopPlayback()]. *)
Definition stopPlayback : M Remote unit :=
  source <- read (@currentSourceRef Remote) ;;
  match source with
  | Some s =>
      tryCatch (invoke SourceStop (sourceStop X s)) (fun _ => ret tt)
  | None => ret tt
  end.

(** [source.onended]: [setStatus(prev => prev === 'playing' ? 'idle' : prev)]. *)
Definition onended : M Remote unit :=
  prev <- read (@status Remote) ;;
  setStatus (match prev with playing => idle | other => other end).

(** [playResponse(pcmData)]. *)
Definition playResponse (pcmData : list N) : M Remote unit :=
  tryCatch
    (existing <- read (@audioContextRef Remote) ;;
     ctx <-
       match existing with
       | Some c => ret c
       | None =>
           c <- invoke AudioContext (newAudioContext X) ;;
           modify (withAudioContext (Some c)) ;;
           ret c
       end ;;
     suspended <- read (fun w => contextSuspended X ctx (remote w)) ;;
     (if suspended : bool
      then invoke AudioContext (contextResume X ctx)
      else ret tt) ;;
     audioBuffer <- invoke Decode (decodeAudioData X pcmData ctx) ;;
     source <- invoke AudioContext (createBufferSource X ctx audioBuffer) ;;
     modify (withCurrentSource (Some source)) ;;
     invoke SourceStart (sourceStart X source))
    (fun _ =>
       setStatus idle ;;
       setError (Some (Js.lit "AUDIO ERR"))).

(** The [try] block of [processConversationTurn]: steps 2 to 5. *)
Definition conversationTurnBody (userText : Js.jsstring) (sttLatency : Qc)
  : M Remote unit :=
  setStatus thinking ;;
  llmStart <- observe (performanceNow X) ;;
  reply <- GeminiService.getBotResponse X userText ;;
  llmEnd <- observe (performanceNow X) ;;
  let llmTime := (llmEnd - llmStart)%Qc in
  setStatus synthesizing ;;
  ttsStart <- observe (performanceNow X) ;;
  audioData <-
    tryCatch
      (GeminiService.generateSpeech X (GeminiService.replyText reply)
         GeminiService.defaultVoice)
      (fun _ => emit (ConsoleWarn (Js.lit "TTS Failed")) ;; ret None) ;;
  ttsEnd <- observe (performanceNow X) ;;
  let ttsTime := (ttsEnd - ttsStart)%Qc in
  let totalTime := (sttLatency + llmTime + ttsTime)%Qc in
  updateMetrics
    (Partial.mk (Some 1%Qc) (Some totalTime)
       (Some (if GeminiService.toolUsed reply then 1%Qc else 0%Qc))
       (Some (mkLatency sttLatency llmTime ttsTime totalTime))) ;;
  match audioData with
  | Some pcmData => setStatus playing ;; playResponse pcmData
  | None => setStatus idle
  end ;;
  botId <- observe (dateNow X) ;;
  botStamp <- observe (dateNow X) ;;
  appendMessage
    (mkMessage (Js.toString (botId + 1)) model
       (GeminiService.replyText reply) botStamp
       (Some (GeminiService.toolUsed reply))).

(** [processConversationTurn(userText, sttLatency)]. *)
Definition processConversationTurn (userText : Js.jsstring) (sttLatency : Qc)
  : M Remote unit :=
  startTime <- observe (performanceNow X) ;;
  userId <- observe (dateNow X) ;;
  userStamp <- observe (dateNow X) ;;
  appendMessage (mkMessage (Js.toString userId) user userText userStamp None) ;;
  tryCatch
    (conversationTurnBody userText sttLatency)
    (fun _ =>
       emit (ConsoleError (Js.lit "Pipeline error:")) ;;
       setError (Some (Js.lit "SYSTEM ERR")) ;;
       setStatus error ;;
       setTimeout (SetIdle 4000)).

(** [new Blob(chunksRef.current, { type: 'audio/webm' })]. *)
Definition recordedBlob (chunks : list Blob) : Blob :=
  mkBlob (List.concat (List.map blobBytes chunks)) (Js.lit "audio/webm").

(** The [try] block of [processAudioInput]. *)
Definition audioInputBody : M Remote unit :=
  chunks <- read (@chunksRef Remote) ;;
  let blob := recordedBlob chunks in
  if (blobSize blob <? 100)%N then
    setError (Some (Js.lit "TOO SHORT")) ;;
    setStatus idle
  else
    base64 <- invoke Base64 (blobToBase64 X blob) ;;
    setStatus transcribing ;;
    sttStart <- observe (performanceNow X) ;;
    transcript <-
      tryCatch
        (GeminiService.transcribeAudio X base64
           (if Js.falsy (blobType blob) then Js.lit "audio/webm"
            else blobType blob))
        (fun _ => throw (Error "STT FAILED")) ;;
    sttEnd <- observe (performanceNow X) ;;
    let sttTime := (sttEnd - sttStart)%Qc in
    if Js.falsy (Js.trim transcript) || Js.eqb transcript (Js.lit "...")
    then
      setStatus idle ;;
      setError (Some (Js.lit "NO SPEECH"))
    else processConversationTurn transcript sttTime.

(** [processAudioInput()], the recorder's [onstop] handler.  [captured] is
    the [status] of the render whose [startRecording] installed it. *)
Definition processAudioInput (captured : LoadingState) : M Remote unit :=
  stream <- read (@streamRef Remote) ;;
  match stream with
  | Some s => perform Tracks (stopTracks X s)
  | None => ret tt
  end ;;
  tryCatch
    audioInputBody
    (fun _ =>
       emit (ConsoleError (Js.lit "Audio processing error:")) ;;
       setError (Some (Js.lit "SYSTEM ERR")) ;;
       setStatus error ;;
       setTimeout (SetIdleUnlessRecording 4000 captured)).

(** [handleSuggestionClick(text)]. *)
Definition handleSuggestionClick (text : Js.jsstring) : M Remote unit :=
  current <- read (@status Remote) ;;
  if LoadingState_eqb current idle
  then processConversationTurn text 0%Qc
  else ret tt.

(** [mediaRecorder.ondataavailable]. *)
Definition ondataavailable (data : Blob) : M Remote unit :=
  if (0 <? blobSize data)%N
  then modify (fun w => withChunks (chunksRef w ++ [data]) w)
  else ret tt.

(** [startRecording()]. *)
Definition startRecording : M Remote unit :=
  tryCatch
    (stopPlayback ;;
     setError None ;;
     stream <- invoke Microphone (getUserMedia X) ;;
     modify (withStream (Some stream)) ;;
     mediaRecorder <- invoke Recorder (newMediaRecorder X stream) ;;
     modify (withRecorder (Some mediaRecorder)) ;;
     modify (withChunks []) ;;
     invoke Recorder (recorderStart X mediaRecorder) ;;
     setStatus recording)
    (fun err =>
       emit (ConsoleError (Js.lit "Microphone error:")) ;;
       if Js.eqb (name err) (Js.lit "NotAllowedError")
          || Js.eqb (name err) (Js.lit "PermissionDeniedError")
       then setError (Some (Js.lit "PERM DENIED"))
       else if Js.eqb (name err) (Js.lit "NotFoundError")
       then setError (Some (Js.lit "NO MIC FOUND"))
       else setError (Some (Js.lit "MIC ERROR"))).

(** [stopRecording()]. *)
Definition stopRecording : M Remote unit :=
  recorder <- read (@mediaRecorderRef Remote) ;;
  current <- read (@status Remote) ;;
  match recorder with
  | Some r =>
      if LoadingState_eqb current recording
      then invoke Recorder (recorderStop X r)
      else ret tt
  | None => ret tt
  end.

(** A pending timer fires. *)
Definition fire (t : Timer) : M Remote unit :=
  match t with
  | SetIdle _ => setStatus idle
  | SetIdleUnlessRecording _ captured =>
      if LoadingState_eqb captured recording then ret tt else setStatus idle
  end.

End View.

End VoiceBotView.

(* ================================================================== *)
(** ** Components with a state of their own *)
(* ================================================================== *)

(** The two tool views keep their own React state beside the world.  A
    handler of such a component is a computation over the pair of the
    component's state and the world. *)
Section Component.

Variable Remote : Type.
Variable S : Type.

Definition Comp (A : Type) : Type :=
  S * World Remote -> (S * World Remote) * completion A.

Definition cret {A} (a : A) : Comp A := fun sw => (sw, Returns a).

Definition cthrow {A} (e : exn) : Comp A := fun sw => (sw, Throws e).

Definition cbind {A B} (m : Comp A) (k : A -> Comp B) : Comp B :=
  fun sw =>
    match m sw with
    | (sw', Returns a) => k a sw'
    | (sw', Throws e) => (sw', Throws e)
    end.

(** [try { body } catch (e) { handler }]. *)
Definition ctry {A} (body : Comp A) (handler : exn -> Comp A) : Comp A :=
  fun sw =>
    match body sw with
    | (sw', Returns a) => (sw', Returns a)
    | (sw', Throws e) => handler e sw'
    end.

(** [try { body } finally { cleanup }]: the cleanup always runs; the
    outcome is the body's unless the cleanup throws. *)
Definition cfinally {A} (body : Comp A) (cleanup : Comp unit) : Comp A :=
  fun sw =>
    match body sw with
    | (sw', c) =>
        match cleanup sw' with
        | (sw'', Returns _) => (sw'', c)
        | (sw'', Throws e) => (sw'', Throws e)
        end
    end.

(** A computation on the world alone, run from a component. *)
Definition outside {A} (m : M Remote A) : Comp A :=
  fun sw =>
    match m (snd sw) with
    | (w', c) => ((fst sw, w'), c)
    end.

Definition cread {A} (f : S -> A) : Comp A :=
  fun sw => (sw, Returns (f (fst sw))).

Definition cmodify (f : S -> S) : Comp unit :=
  fun sw => ((f (fst sw), snd sw), Returns tt).

End Component.

Arguments cret {Remote S A} a.
Arguments cthrow {Remote S A} e.
Arguments cbind {Remote S A B} m k.
Arguments ctry {Remote S A} body handler.
Arguments cfinally {Remote S A} body cleanup.
Arguments outside {Remote S A} m.
Arguments cread {Remote S A} f.
Arguments cmodify {Remote S} f.

Declare Scope comp_scope.
Delimit Scope comp_scope with comp.
Notation "x <- m ;; k" := (cbind m (fun x => k))
  (at level 61, m at next level, right associativity) : comp_scope.
Notation "m ;; k" := (cbind m (fun _ => k))
  (at level 61, right associativity) : comp_scope.

(* ================================================================== *)
(** ** components/TranscribeView.tsx *)
(* ================================================================== *)

Module TranscribeView.

Local Open Scope comp_scope.

Record State : Type := mkState
  { isRecording : bool;
    isProcessing : bool;
    transcription : option Js.jsstring;
    error : option Js.jsstring;
    mediaRecorderRef : option Handle;
    chunksRef : list Blob;
    streamRef : option Handle }.

(** The state at the first render. *)
Definition initialState : State :=
  mkState false false None None None [] None.

Definition withIsRecording (b : bool) (s : State) : State :=
  mkState b (isProcessing s) (transcription s) (error s)
    (mediaRecorderRef s) (chunksRef s) (streamRef s).

Definition withIsProcessing (b : bool) (s : State) : State :=
  mkState (isRecording s) b (transcription s) (error s)
    (mediaRecorderRef s) (chunksRef s) (streamRef s).

Definition withTranscription (t : option Js.jsstring) (s : State) : State :=
  mkState (isRecording s) (isProcessing s) t (error s)
    (mediaRecorderRef s) (chunksRef s) (streamRef s).

Definition withError (e : option Js.jsstring) (s : State) : State :=
  mkState (isRecording s) (isProcessing s) (transcription s) e
    (mediaRecorderRef s) (chunksRef s) (streamRef s).

Definition withRecorder (h : option Handle) (s : State) : State :=
  mkState (isRecording s) (isProcessing s) (transcription s) (error s)
    h (chunksRef s) (streamRef s).

Definition withChunks (cs : list Blob) (s : State) : State :=
  mkState (isRecording s) (isProcessing s) (transcription s) (error s)
    (mediaRecorderRef s) cs (streamRef s).

Definition withStream (h : option Handle) (s : State) : State :=
  mkState (isRecording s) (isProcessing s) (transcription s) (error s)
    (mediaRecorderRef s) (chunksRef s) h.

Section View.

Variable Remote : Type.
Variable X : Collaborators Remote.

(** [mediaRecorder.ondataavailable]. *)
Definition ondataavailable (data : Blob) : Comp Remote State unit :=
  if (0 <? blobSize data)%N
  then cmodify (fun s => withChunks (chunksRef s ++ [data]) s)
  else cret tt.

(** [startRecording()]. *)
Definition startRecording : Comp Remote State unit :=
  ctry
    (cmodify (withError None) ;;
     cmodify (withTranscription None) ;;
     stream <- outside (invoke Microphone (getUserMedia X)) ;;
     cmodify (withStream (Some stream)) ;;
     mediaRecorder <-
       outside (invoke Recorder (newMediaRecorder X stream)) ;;
     cmodify (withRecorder (Some mediaRecorder)) ;;
     cmodify (withChunks []) ;;
     outside (invoke Recorder (recorderStart X mediaRecorder)) ;;
     cmodify (withIsRecording true))
    (fun _ =>
       outside
         (emit (ConsoleError (Js.lit "Error accessing microphone:"))) ;;
       cmodify (withError (Some (Js.lit "MIC ERROR")))).

(** [stopRecording()]. *)
Definition stopRecording : Comp Remote State unit :=
  recorder <- cread mediaRecorderRef ;;
  recordingNow <- cread isRecording ;;
  match recorder with
  | Some r =>
      if recordingNow : bool then
        outside (invoke Recorder (recorderStop X r)) ;;
        cmodify (withIsRecording false)
      else cret tt
  | None => cret tt
  end.

(** [handleStop()], the recorder's [onstop] handler. *)
Definition handleStop : Comp Remote State unit :=
  cmodify (withIsProcessing true) ;;
  stream <- cread streamRef ;;
  match stream with
  | Some s => outside (perform Tracks (stopTracks X s))
  | None => cret tt
  end ;;
  cfinally
    (ctry
       (chunks <- cread chunksRef ;;
        let blob := VoiceBotView.recordedBlob chunks in
        if (blobSize blob <? 100)%N then cthrow (Error "Audio too short.")
        else
          base64 <- outside (invoke Base64 (blobToBase64 X blob)) ;;
          result <-
            outside
              (GeminiService.transcribeAudio X base64
                 (if Js.falsy (blobType blob) then Js.lit "audio/webm"
                  else blobType blob)) ;;
          if Js.falsy result
          then cmodify (withError (Some (Js.lit "No speech detected.")))
          else cmodify (withTranscription (Some result)))
       (fun _ =>
          cmodify (withError (Some (Js.lit "Transcription failed.")))))
    (cmodify (withIsProcessing false)).

End View.

End TranscribeView.

(* ================================================================== *)
(** ** components/TTSView.tsx *)
(* ================================================================== *)

Module TTSView.

Local Open Scope comp_scope.

Record State : Type := mkState
  { text : Js.jsstring;
    isLoading : bool;
    isPlaying : bool;
    error : option Js.jsstring;
    selectedVoice : Js.jsstring;
    audioContextRef : option Handle;
    sourceRef : option Handle }.

(** The state at the first render. *)
Definition initialState : State :=
  mkState [] false false None (Js.lit "Kore") None None.

(** The voices offered for selection. *)
Definition voices : list Js.jsstring :=
  [ Js.lit "Puck"; Js.lit "Charon"; Js.lit "Kore"; Js.lit "Fenrir";
    Js.lit "Zephyr" ].

Definition withText (t : Js.jsstring) (s : State) : State :=
  mkState t (isLoading s) (isPlaying s) (error s) (selectedVoice s)
    (audioContextRef s) (sourceRef s).

Definition withIsLoading (b : bool) (s : State) : State :=
  mkState (text s) b (isPlaying s) (error s) (selectedVoice s)
    (audioContextRef s) (sourceRef s).

Definition withIsPlaying (b : bool) (s : State) : State :=
  mkState (text s) (isLoading s) b (error s) (selectedVoice s)
    (audioContextRef s) (sourceRef s).

Definition withError (e : option Js.jsstring) (s : State) : State :=
  mkState (text s) (isLoading s) (isPlaying s) e (selectedVoice s)
    (audioContextRef s) (sourceRef s).

Definition withSelectedVoice (v : Js.jsstring) (s : State) : State :=
  mkState (text s) (isLoading s) (isPlaying s) (error s) v
    (audioContextRef s) (sourceRef s).

Definition withAudioContext (h : option Handle) (s : State) : State :=
  mkState (text s) (isLoading s) (isPlaying s) (error s) (selectedVoice s)
    h (sourceRef s).

Definition withSource (h : option Handle) (s : State) : State :=
  mkState (text s) (isLoading s) (isPlaying s) (error s) (selectedVoice s)
    (audioContextRef s) h.

Section View.

Variable Remote : Type.
Variable X : Collaborators Remote.

(** [stopAudio()]. *)
Definition stopAudio : Comp Remote State unit :=
  source <- cread sourceRef ;;
  match source with
  | Some s =>
      ctry (outside (invoke SourceStop (sourceStop X s)))
           (fun _ => cret tt) ;;
      cmodify (withSource None)
  | None => cret tt
  end ;;
  cmodify (withIsPlaying false).

(** [source.onended]: [setIsPlaying(false)]. *)
Definition onended : Comp Remote State unit :=
  cmodify (withIsPlaying false).

(** The [try] block of [handleGenerate]. *)
Definition generateAndPlay (t voice : Js.jsstring) : Comp Remote State unit :=
  pcmData <- outside (GeminiService.generateSpeech X t voice) ;;
  match pcmData with
  | None => cthrow (Error "No audio data received.")
  | Some pcm =>
      existing <- cread audioContextRef ;;
      ctx <-
        match existing with
        | Some c => cret c
        | None =>
            c <- outside (invoke AudioContext (newAudioContext X)) ;;
            cmodify (withAudioContext (Some c)) ;;
            cret c
        end ;;
      suspended <-
        outside (read (fun w => contextSuspended X ctx (remote w))) ;;
      (if suspended : bool
       then outside (invoke AudioContext (contextResume X ctx))
       else cret tt) ;;
      audioBuffer <- outside (invoke Decode (decodeAudioData X pcm ctx)) ;;
      source <-
        outside
          (invoke AudioContext (createBufferSource X ctx audioBuffer)) ;;
      cmodify (withSource (Some source)) ;;
      outside (invoke SourceStart (sourceStart X source)) ;;
      cmodify (withIsPlaying true)
  end.

(** [handleGenerate()]. *)
Definition handleGenerate : Comp Remote State unit :=
  t <- cread text ;;
  if Js.falsy (Js.trim t)
  then cmodify (withError (Some (Js.lit "Please enter some text.")))
  else
    stopAudio ;;
    cmodify (withIsLoading true) ;;
    cmodify (withError None) ;;
    voice <- cread selectedVoice ;;
    cfinally
      (ctry (generateAndPlay t voice)
         (fun _ =>
            cmodify
              (withError (Some (Js.lit "Speech generation failed.")))))
      (cmodify (withIsLoading false)).

End View.

End TTSView.

(* ================================================================== *)
(** ** Scripted collaborators, for concrete runs *)
(* ================================================================== *)

Module Scripted.

(** The outside world of a scripted run: the readings [Date.now()] will
    give, in order (0 once they run out). *)
Definition Outside : Type := list Z.

Definition nextDate (r : Outside) : Outside * Z :=
  match r with
  | [] => ([], 0%Z)
  | t :: rest => (rest, t)
  end.

(** [Chat.sendMessage] of the [@google/genai] client takes its content
    from [params.message].  The first call of [getBotResponse] passes
    [{ message: userText }]; the follow-up call passes the array of parts
    itself, which has no [message], and the client rejects it before any
    request is made.  A scripted engine is therefore only ever asked about
    user messages. *)
Definition clientSend (engine : Js.jsstring -> completion Response)
    (p : Payload) : completion Response :=
  match p with
  | UserMessage message => engine message
  | ToolParts _ => Throws (Error "ContentUnion is required")
  end.

(** Collaborators that answer from a script: [engine] answers every user
    message, [speech] every synthesis request, [transcript] every
    transcription request; [audio] tells whether Web Audio works.
    [performance.now()] stands still. *)
Definition collaborators
    (engine : Js.jsstring -> completion Response)
    (speech : completion (option Js.jsstring))
    (transcript : completion (option Js.jsstring))
    (audio : bool) : Collaborators Outside :=
  {| chatsCreate := fun r => (r, 1%N);
     sendMessage := fun _ p r => (r, clientSend engine p);
     ttsGenerateContent := fun _ _ r => (r, speech);
     sttGenerateContent := fun _ _ r => (r, transcript);
     atob := fun s => Returns s;
     dateNow := nextDate;
     performanceNow := fun r => (r, 0%Qc);
     blobToBase64 := fun b r => (r, Returns (blobBytes b));
     decodeAudioData := fun _ _ r =>
       (r, if audio then Returns 3%N
           else Throws (Error "Unable to decode audio data"));
     newAudioContext := fun r => (r, Returns 2%N);
     contextSuspended := fun _ _ => false;
     contextResume := fun _ r => (r, Returns tt);
     createBufferSource := fun _ _ r => (r, Returns 4%N);
     sourceStart := fun _ r => (r, Returns tt);
     sourceStop := fun _ r => (r, Returns tt);
     getUserMedia := fun r =>
       (r, if audio then Returns 5%N
           else Throws (mkExn (Js.lit "NotFoundError") []));
     newMediaRecorder := fun _ r => (r, Returns 6%N);
     recorderStart := fun _ r => (r, Returns tt);
     recorderStop := fun _ r => (r, Returns tt);
     stopTracks := fun _ r => r |}.

(** An engine whose transport is down. *)
Definition engineDown : Js.jsstring -> completion Response :=
  fun _ => Throws (Error "fetch failed").

(** An engine that answers every message with the same text. *)
Definition engineSays (t : string) : Js.jsstring -> completion Response :=
  fun _ => Returns (mkResponse (Some (Js.lit t)) None).

(** An engine that answers every message without text and without asking
    for a call (a filtered or empty candidate). *)
Definition engineSilent : Js.jsstring -> completion Response :=
  fun _ => Returns (mkResponse None None).

(** An engine that answers every message by asking for the account
    balance. *)
Definition engineAsksBalance : Js.jsstring -> completion Response :=
  fun _ =>
    Returns
      (mkResponse None
         (Some [ mkCall (Some (Js.lit "call-1"))
                   (Some (Js.lit "getAccountBalance")) (Some []) ])).

(** A synthesis service that is down. *)
Definition speechDown : completion (option Js.jsstring) :=
  Throws (Error "503").

(** A synthesis service that answers without audio data. *)
Definition speechEmpty : completion (option Js.jsstring) := Returns None.

Definition noTranscript : completion (option Js.jsstring) := Returns None.


(** The scripted runs used below. *)

(** Engine down, synthesis down, Web Audio working. *)
Definition offline : Collaborators Outside :=
  collaborators engineDown speechDown noTranscript true.

(** The engine answers, synthesis is down: turns end without audio. *)
Definition textOnly : Collaborators Outside :=
  collaborators (engineSays "Sure.") speechDown noTranscript true.

(** The engine answers without any text. *)
Definition speechless : Collaborators Outside :=
  collaborators engineSilent speechDown noTranscript true.

(** The engine asks for a tool. *)
Definition askingBalance : Collaborators Outside :=
  collaborators engineAsksBalance speechDown noTranscript true.

(** Synthesis answers without audio data. *)
Definition noAudio : Collaborators Outside :=
  collaborators (engineSays "Sure.") speechEmpty noTranscript true.

(** The freshly rendered view, with the given clock readings ahead. *)
Definition fresh (dates : list Z) : World Outside :=
  VoiceBotView.initialWorld dates 0.

(** The view while the error banner shows. *)
Definition errored : World Outside :=
  VoiceBotView.withStatus error (fresh []).

(** The view while a turn waits for the engine. *)
Definition reasoning : World Outside :=
  VoiceBotView.withStatus thinking (fresh []).

(** The view after a recording of [n] bytes in one chunk. *)
Definition recorded (n : nat) : World Outside :=
  VoiceBotView.withChunks [mkBlob (List.repeat 0%N n) (Js.lit "audio/webm")]
    (VoiceBotView.withStatus recording (fresh [])).

(** The transcription answers with the silence marker. *)
Definition silence : Collaborators Outside :=
  collaborators (engineSays "Sure.") speechDown
    (Returns (Some (Js.lit "..."))) true.

(** The transcription service is down. *)
Definition deaf : Collaborators Outside :=
  collaborators (engineSays "Sure.") speechDown (Throws (Error "503")) true.

(** No microphone: [getUserMedia] rejects with a NotFoundError. *)
Definition noMic : Collaborators Outside :=
  collaborators (engineSays "Sure.") speechDown noTranscript false.

(** The view with an audio context already created. *)
Definition withContext : World Outside :=
  VoiceBotView.withAudioContext (Some 2%N) (fresh []).

(** The text-to-speech tool with a text typed in. *)
Definition typed (t : string) : TTSView.State :=
  TTSView.withText (Js.lit t) TTSView.initialState.

End Scripted.

(* ================================================================== *)
(** ** Vocabulary of the properties *)
(* ================================================================== *)

(** The engine is unreachable for a message: sending it fails, whatever
    the session and the state of the outside world. *)
Definition engineUnreachable {Remote : Type} (X : Collaborators Remote)
    (userText : Js.jsstring) : Prop :=
  forall (session : Handle) (r : Remote),
    exists r' e, sendMessage X session (UserMessage userText) r = (r', Throws e).

(** The client takes the content of a message from [params.message]: a
    follow-up that is the bare array of parts is rejected, whatever the
    session and the state of the outside world. *)
Definition clientRequiresMessage {Remote : Type} (X : Collaborators Remote)
  : Prop :=
  forall (session : Handle) (parts : list FunctionResponse) (r : Remote),
    exists r' e, sendMessage X session (ToolParts parts) r = (r', Throws e).

(** The engine answers a message by asking for at least one function
    call. *)
Definition engineRequestsCall {Remote : Type} (X : Collaborators Remote)
    (userText : Js.jsstring) : Prop :=
  forall (session : Handle) (r : Remote),
    exists r' result call rest,
      sendMessage X session (UserMessage userText) r = (r', Returns result)
      /\ functionCalls result = Some (call :: rest).

(** A synthesis answer without audio data: the data field is missing or
    empty. *)
Definition noAudioData (c : completion (option Js.jsstring)) : Prop :=
  c = Returns None \/ c = Returns (Some []).

(** A final engine result without usable text. *)
Definition noText (result : Response) : Prop :=
  responseText result = None \/ responseText result = Some [].

(** The clarification text the specification quotes. *)
Definition quotedClarification : Js.jsstring :=
  Js.lit "I didn't quite catch that, could you rephrase?".

(** A requested call that asks for an order status without any [args]. *)
Definition lacksArguments (call : FunctionCall) : bool :=
  match callName call, callArgs call with
  | Some n, None => Js.eqb n (Js.lit "getOrderStatus")
  | _, _ => false
  end.

(** [{ error: "Function not found" }]. *)
Definition functionNotFound : JsObj :=
  [ (Js.lit "error", VStr (Js.lit "Function not found")) ].

(** [{ status: "Order not found." }]. *)
Definition orderNotFound : JsObj :=
  [ (Js.lit "status", VStr (Js.lit "Order not found.")) ].

(** The base64 helper answers, whatever the blob and the state of the
    outside world. *)
Definition base64Works {Remote : Type} (X : Collaborators Remote) : Prop :=
  forall (blob : Blob) (r : Remote),
    exists r' s, blobToBase64 X blob r = (r', Returns s).

(** The transcription service answers with [t] ([None]: no text). *)
Definition transcriptionGives {Remote : Type} (X : Collaborators Remote)
    (t : option Js.jsstring) : Prop :=
  forall (b m : Js.jsstring) (r : Remote),
    exists r', sttGenerateContent X b m r = (r', Returns t).

(** The transcription service fails. *)
Definition transcriptionFails {Remote : Type} (X : Collaborators Remote)
  : Prop :=
  forall (b m : Js.jsstring) (r : Remote),
    exists r' e, sttGenerateContent X b m r = (r', Throws e).

(** A transcription answer that holds no speech: no text, blank text or
    the marker of three dots. *)
Definition noSpeech (t : option Js.jsstring) : Prop :=
  match t with
  | None => True
  | Some s => Js.blank s = true \/ s = Js.lit "..."
  end.

(** [blob.type || 'audio/webm']. *)
Definition mimeOf (blob : Blob) : Js.jsstring :=
  if Js.falsy (blobType blob) then Js.lit "audio/webm" else blobType blob.

(** The collaborator touched when the microphone stream is released. *)
Definition released {Remote : Type} (w : World Remote) : list Service :=
  match streamRef w with Some _ => [Tracks] | None => [] end.

(** The world once [handleStop] of the transcription tool has released the
    microphone stream, if there is one. *)
Definition streamReleased {Remote : Type} (X : Collaborators Remote)
    (s : TranscribeView.State) (w : World Remote) : World Remote :=
  match TranscribeView.streamRef s with
  | Some stream => fst (perform Tracks (stopTracks X stream) w)
  | None => w
  end.

(** The transcription attempt of a recording: the base64 helper, then
    [transcribeAudio] with the blob's type. *)
Definition transcriptionAttempt {Remote : Type} (X : Collaborators Remote)
    (blob : Blob) : M Remote Js.jsstring :=
  bind (invoke Base64 (blobToBase64 X blob))
    (fun base64 => GeminiService.transcribeAudio X base64 (mimeOf blob)).

(** The microphone cannot be opened: [getUserMedia] rejects with [e]. *)
Definition microphoneRefuses {Remote : Type} (X : Collaborators Remote)
    (e : exn) : Prop :=
  forall r : Remote, exists r', getUserMedia X r = (r', Throws e).

(** The view after the recorder has delivered the given chunks, in order. *)
Definition dataEvents {Remote : Type} (datas : list Blob) (w : World Remote)
  : World Remote :=
  List.fold_left (fun w d => fst (VoiceBotView.ondataavailable d w)) datas w.

(** The number of bytes in a list of blobs. *)
Definition totalSize (datas : list Blob) : N :=
  List.fold_right N.add 0%N (List.map blobSize datas).

(* ================================================================== *)
(** ** Proof automation *)
(* ================================================================== *)

(** Case analysis on the innermost call whose outcome decides a branch. *)
Ltac simple_scrutinee c :=
  lazymatch c with
  | context [match _ with (_, _) => _ end] => fail
  | context [match _ with Returns _ => _ | Throws _ => _ end] => fail
  | context [match _ with Some _ => _ | None => _ end] => fail
  | context [match _ with [] => _ | _ :: _ => _ end] => fail
  | context [if _ then _ else _] => fail
  | _ => idtac
  end.

Ltac crush_call :=
  match goal with
  | |- context [match ?c with (_, _) => _ end] =>
      simple_scrutinee c; destruct c as [? ?] eqn:?
  | |- context [match ?c with Returns _ => _ | Throws _ => _ end] =>
      simple_scrutinee c; destruct c as [? | ?] eqn:?
  | |- context [match ?c with Some _ => _ | None => _ end] =>
      simple_scrutinee c; destruct c as [? |] eqn:?
  | |- context [match ?c with [] => _ | _ :: _ => _ end] =>
      simple_scrutinee c; destruct c as [| ? ?] eqn:?
  | |- context [if ?c then _ else _] =>
      simple_scrutinee c; destruct c eqn:?
  end.

Ltac crush_calls :=
  repeat (crush_call;
          cbn [fst snd remote emitted withRemote
               VoiceBotView.withAudioContext VoiceBotView.withCurrentSource]);
  repeat match goal with u : unit |- _ => destruct u end.

(** Inequalities between canonical rationals, read on the rationals. *)
Ltac to_Q :=
  unfold Qcle, Qclt, Qcminus, Qcplus, Qcmult, Qcopp, Q2Qc in *;
  cbn [this] in *; rewrite ?Qred_correct in *.

Ltac view_refl :=
  unfold pipelineView, statusHistory; cbn;
  rewrite ?flat_map_app; cbn; rewrite ?app_nil_r; auto.

Ltac unfold_view :=
  unfold VoiceBotView.startRecording, VoiceBotView.stopRecording,
    VoiceBotView.stopPlayback, VoiceBotView.playResponse,
    VoiceBotView.setStatus, VoiceBotView.setError,
    tryCatch, bind, invoke, liftCompletion, ret, throw, emit, read, modify.

Ltac unfold_comp :=
  unfold cbind, ctry, cfinally, outside, cread, cmodify, cret, cthrow,
    GeminiService.transcribeAudio, GeminiService.generateSpeech,
    tryCatch, bind, invoke, perform, liftCompletion, ret, throw, emit, read,
    modify.

Ltac crush_comp :=
  repeat (crush_call; cbn [fst snd remote emitted withRemote] in * );
  repeat match goal with u : unit |- _ => destruct u end.

(* ================================================================== *)
(** * Properties *)
(* ================================================================== *)

(** ** Strings *)

Module JsFacts.

Lemma trimStart_nil_iff (s : Js.jsstring) :
  Js.trimStart s = [] <-> Js.blank s = true.
Proof.
  unfold Js.blank.
  induction s as [| c s IH]; cbn [Js.trimStart forallb].
  - split; reflexivity.
  - destruct (Js.isWhiteSpace c); cbn [andb].
    + exact IH.
    + split; discriminate.
Qed.

Lemma blank_rev (s : Js.jsstring) : Js.blank (rev s) = Js.blank s.
Proof.
  unfold Js.blank.
  destruct (forallb Js.isWhiteSpace s) eqn:E.
  - apply forallb_forall. intros c Hc. apply in_rev in Hc.
    rewrite forallb_forall in E. exact (E c Hc).
  - destruct (forallb Js.isWhiteSpace (rev s)) eqn:E'; [| reflexivity].
    rewrite <- E. symmetry. apply forallb_forall. intros c Hc.
    rewrite forallb_forall in E'. apply E'. apply in_rev.
    rewrite rev_involutive. exact Hc.
Qed.

(** What [trimStart] keeps is blank only if it is empty. *)
Lemma blank_trimStart (s : Js.jsstring) :
  Js.blank (Js.trimStart s) = Js.blank s.
Proof.
  unfold Js.blank.
  induction s as [| c s IH]; cbn [Js.trimStart]; [reflexivity |].
  destruct (Js.isWhiteSpace c) eqn:E; cbn [forallb]; rewrite E; cbn [andb].
  - exact IH.
  - reflexivity.
Qed.

(** [text.trim()] is the empty string exactly for a text that is empty or
    made of white space only. *)
Lemma trim_nil_iff (s : Js.jsstring) : Js.trim s = [] <-> Js.blank s = true.
Proof.
  unfold Js.trim, Js.trimEnd.
  rewrite <- (blank_trimStart s), <- (blank_rev (Js.trimStart s)).
  rewrite <- trimStart_nil_iff.
  split; intro H.
  - apply (f_equal (@rev N)) in H. rewrite rev_involutive in H. exact H.
  - rewrite H. reflexivity.
Qed.

Lemma falsy_trim (s : Js.jsstring) : Js.falsy (Js.trim s) = Js.blank s.
Proof.
  destruct (Js.blank s) eqn:E.
  - apply trim_nil_iff in E. rewrite E. reflexivity.
  - destruct (Js.trim s) eqn:T; [| reflexivity].
    apply trim_nil_iff in T. congruence.
Qed.

End JsFacts.

(** ** Numbers *)

Module NumFacts.

Local Open Scope Qc_scope.

Lemma truthy_true (x : Qc) : Num.truthy x = true <-> x <> 0.
Proof.
  unfold Num.truthy, Qc_eq_bool.
  destruct (Qc_eq_dec x 0) as [E | E]; simpl; split; intro H;
    congruence || reflexivity || (exfalso; auto).
Qed.

Lemma orZero_id (x : Qc) : Num.orZero x = x.
Proof.
  unfold Num.orZero, Num.truthy, Qc_eq_bool.
  destruct (Qc_eq_dec x 0) as [E | E]; simpl; congruence.
Qed.

Lemma ofNat_S (n : nat) : Num.ofNat (S n) = Num.ofNat n + 1.
Proof.
  unfold Num.ofNat. apply Qc_is_canon. cbn [this Qcplus Q2Qc].
  rewrite !Qred_correct. rewrite Nat2Z.inj_succ. unfold Z.succ.
  rewrite inject_Z_plus. reflexivity.
Qed.

Lemma ofNat_S_nonzero (n : nat) : Num.ofNat n + 1 <> 0.
Proof.
  rewrite <- ofNat_S. unfold Num.ofNat. intro H.
  apply (f_equal this) in H. cbn [this Q2Qc] in H.
  apply Qred_eq_iff in H. unfold Qeq in H. cbn in H. lia.
Qed.

Lemma sum_app (l1 l2 : list Qc) : Num.sum (l1 ++ l2) = Num.sum l1 + Num.sum l2.
Proof.
  unfold Num.sum. induction l1 as [| x l1 IH]; cbn [app fold_right].
  - ring.
  - rewrite IH. ring.
Qed.

End NumFacts.

(** ** The analytics aggregator *)

Module AppFacts.

Import NumFacts.
Local Open Scope Qc_scope.

(** C7.  A fold with every field absent leaves the aggregator as it was:
    count, average, backend calls and last latency are all unchanged. *)
Theorem updateMetrics_empty (prev : AnalyticsMetrics) :
  App.updateMetrics prev Partial.empty = prev.
Proof.
  destruct prev as [q a b l]. unfold App.updateMetrics, Partial.empty.
  cbn [Partial.totalQueries Partial.avgResponseTime Partial.backendCalls
       Partial.lastQueryLatency totalQueries avgResponseTime backendCalls
       lastQueryLatency Num.orZeroOpt].
  rewrite orZero_id. f_equal; ring.
Qed.

(** C9, as the code has it.  A fold with [totalQueries = 1] and a total of
    exactly zero raises the count by one and leaves the average as it was.
    If the average was the mean of the totals seen before and was not zero,
    it is no longer the mean once the zero total is counted. *)
Theorem zero_latency_fold_skips_average
    (prev : AnalyticsMetrics) (p : Partial.t) :
  Partial.totalQueries p = Some 1 ->
  Partial.avgResponseTime p = Some 0 ->
  totalQueries (App.updateMetrics prev p) = totalQueries prev + 1
  /\ avgResponseTime (App.updateMetrics prev p) = avgResponseTime prev
  /\ forall seen : list Qc,
       (0 < List.length seen)%nat ->
       avgResponseTime prev = Num.mean seen ->
       avgResponseTime prev <> 0 ->
       avgResponseTime (App.updateMetrics prev p) <> Num.mean (seen ++ [0]).
Proof.
  intros Hq Ht.
  assert (Havg : avgResponseTime (App.updateMetrics prev p)
                 = avgResponseTime prev).
  { unfold App.updateMetrics. cbn [avgResponseTime]. rewrite Ht.
    reflexivity. }
  split; [| split].
  - unfold App.updateMetrics. cbn [totalQueries]. rewrite Hq.
    cbn [Num.orZeroOpt]. rewrite !orZero_id. reflexivity.
  - exact Havg.
  - intros seen Hlen Hmean Hnz. rewrite Havg, Hmean.
    unfold Num.mean. rewrite length_app, sum_app.
    cbn [List.length Num.sum fold_right].
    replace (List.length seen + 1)%nat with (S (List.length seen)) by lia.
    destruct (List.length seen) as [| k] eqn:Hk; [lia |].
    rewrite (ofNat_S (S k)).
    intro E. apply Hnz. rewrite Hmean. unfold Num.mean. rewrite Hk.
    set (n := Num.ofNat (S k)) in *.
    assert (Hn : n <> 0) by (unfold n; rewrite ofNat_S; apply ofNat_S_nonzero).
    assert (Hn1 : n + 1 <> 0) by (unfold n; apply ofNat_S_nonzero).
    assert (E' : Num.sum seen * (n + 1) = Num.sum seen * n).
    { transitivity (Num.sum seen / n * (n * (n + 1))); [field; exact Hn |].
      rewrite E. field. exact Hn1. }
    assert (Z0 : Num.sum seen = 0).
    { transitivity (Num.sum seen * (n + 1) - Num.sum seen * n); [ring |].
      rewrite E'. ring. }
    rewrite Z0. field. exact Hn.
Qed.

(** After one turn of 100 ms, a turn of 0 ms leaves the average at 100 ms
    although the mean of the two totals is 50 ms. *)
Lemma zero_latency_fold_skips_average_witness :
  totalQueries
    (App.updateMetrics (mkMetrics 1 (Q2Qc 100) 0 None) App.zeroLatencyFold)
  = 1 + 1
  /\ avgResponseTime
       (App.updateMetrics (mkMetrics 1 (Q2Qc 100) 0 None) App.zeroLatencyFold)
     = Q2Qc 100
  /\ avgResponseTime
       (App.updateMetrics (mkMetrics 1 (Q2Qc 100) 0 None) App.zeroLatencyFold)
     <> Num.mean ([Q2Qc 100] ++ [0]).
Proof.
  destruct (@zero_latency_fold_skips_average
              (mkMetrics 1 (Q2Qc 100) 0 None) App.zeroLatencyFold
              eq_refl eq_refl) as [Hc [Ha Hm]].
  split; [exact Hc | split; [exact Ha |]].
  apply Hm.
  - cbn. lia.
  - apply Qc_is_canon. reflexivity.
  - intro E. apply (f_equal this) in E. vm_compute in E. discriminate E.
Defined.

(** C9, as stated, fails on the very first fold: the average stays 0, and 0
    is the mean of the one total seen. *)
Lemma zero_latency_first_fold_keeps_mean :
  ~ (avgResponseTime (App.updateMetrics App.initialMetrics App.zeroLatencyFold)
     <> Num.mean ([] ++ [0])).
Proof.
  intro H. apply H. apply Qc_is_canon. reflexivity.
Qed.

End AppFacts.

(** ** Doubles *)

Module DoubleFacts.

Local Open Scope Qc_scope.

Lemma value_orZero (x : Double.number) (v : Qc) :
  Double.value x = Some v -> Double.value (Double.orZero x) = Some v.
Proof.
  destruct x; cbn; intro H; try discriminate H; exact H.
Qed.

Lemma orZero_truthy (x : Double.number) :
  Double.truthy x = true -> Double.orZero x = x.
Proof. unfold Double.orZero. intros ->. reflexivity. Qed.

Lemma positive_truthy (x : Double.number) :
  Double.isPositive x = true -> Double.truthy x = true.
Proof. destruct x as [| | | [|] m e]; cbn; congruence. Qed.

Lemma positive_value (x : Double.number) :
  Double.isPositive x = true ->
  exists v, Double.value x = Some v /\ 0 < v.
Proof.
  destruct x as [| | | [|] m e]; cbn; try discriminate. intros _.
  eexists. split; [reflexivity |].
  change (0 < Qred (inject_Z (Z.pos m) * (2 # 1) ^ e))%Q.
  rewrite Qred_correct.
  apply Qmult_lt_0_compat; [reflexivity | apply Qpower_0_lt; reflexivity].
Qed.

Lemma finite_value (x : Double.number) :
  Double.isFinite x = true -> exists v, Double.value x = Some v.
Proof. destruct x; cbn; try discriminate; eauto. Qed.

(** What an operation that did not round says about the values. *)
Lemma unrounded_sound (op : Qc -> Qc -> Qc) (x y r : Double.number)
    (a b : Qc) :
  Double.unrounded op x y r = true ->
  Double.value x = Some a -> Double.value y = Some b ->
  Double.value r = Some (op a b).
Proof.
  unfold Double.unrounded. intros H Hx Hy. rewrite Hx, Hy in H.
  destruct (Double.value r) as [c |]; [| discriminate H].
  apply Qc_eq_bool_correct in H. rewrite H. reflexivity.
Qed.

Lemma within_sound (u x v : Qc) :
  Double.within u x v = true -> (1 - u) * x <= v /\ v <= (1 + u) * x.
Proof.
  unfold Double.within. intro H. apply andb_true_iff in H.
  destruct H as [H1 H2]. apply Qle_bool_iff in H1, H2.
  split; [exact H1 | exact H2].
Qed.

(** What an operation within the relative error [u] says about the
    values. *)
Lemma rounded_sound (u : Qc) (op : Qc -> Qc -> Qc) (x y r : Double.number)
    (a b : Qc) :
  Double.rounded u op x y r = true ->
  Double.value x = Some a -> Double.value y = Some b ->
  exists c,
    Double.value r = Some c
    /\ (1 - u) * op a b <= c /\ c <= (1 + u) * op a b.
Proof.
  unfold Double.rounded. intros H Hx Hy. rewrite Hx, Hy in H.
  destruct (Double.value r) as [c |]; [| discriminate H].
  exists c. split; [reflexivity | apply within_sound; exact H].
Qed.

(** How the three rounded operations of one fold move an upper bound on
    average times count, and a lower bound. *)
Lemma upper_step (u hi E S t p s E' : Q) :
  (0 <= u -> 1 <= hi -> 0 <= S -> 0 <= t ->
   E <= hi * S ->
   p <= (1 + u) * E ->
   s <= (1 + u) * (p + t) ->
   E' <= (1 + u) * s ->
   E' <= ((1 + u) * ((1 + u) * ((1 + u) * hi))) * (S + t))%Q.
Proof.
  intros Hu Hhi HS Ht HE Hp Hs HE'.
  assert (A1 : ((1 + u) * E <= (1 + u) * (hi * S))%Q) by nra.
  assert (A2 : (1 <= (1 + u) * hi)%Q) by nra.
  assert (A3 : (t <= ((1 + u) * hi) * t)%Q) by nra.
  assert (A4 : (p + t <= ((1 + u) * hi) * (S + t))%Q) by nra.
  assert (A5 : ((1 + u) * (p + t)
                <= (1 + u) * (((1 + u) * hi) * (S + t)))%Q) by nra.
  assert (A6 : (s <= (1 + u) * (((1 + u) * hi) * (S + t)))%Q) by nra.
  assert (A7 : ((1 + u) * s
                <= (1 + u) * ((1 + u) * (((1 + u) * hi) * (S + t))))%Q)
    by nra.
  nra.
Qed.

Lemma lower_step (u lo E S t p s E' : Q) :
  (0 <= u -> u <= 1 -> 0 <= lo -> lo <= 1 -> 0 <= S -> 0 <= t ->
   lo * S <= E ->
   (1 - u) * E <= p ->
   (1 - u) * (p + t) <= s ->
   (1 - u) * s <= E' ->
   ((1 - u) * ((1 - u) * ((1 - u) * lo))) * (S + t) <= E')%Q.
Proof.
  intros Hu Hu1 Hlo Hlo1 HS Ht HE Hp Hs HE'.
  assert (A1 : ((1 - u) * (lo * S) <= (1 - u) * E)%Q) by nra.
  assert (A2 : ((1 - u) * lo <= 1)%Q) by nra.
  assert (A2' : (0 <= (1 - u) * lo)%Q) by nra.
  assert (A3 : (((1 - u) * lo) * t <= t)%Q) by nra.
  assert (A4 : (((1 - u) * lo) * (S + t) <= p + t)%Q) by nra.
  assert (A5 : ((1 - u) * (((1 - u) * lo) * (S + t))
                <= (1 - u) * (p + t))%Q) by nra.
  assert (A6 : ((1 - u) * (((1 - u) * lo) * (S + t)) <= s)%Q) by nra.
  assert (A7 : ((1 - u) * ((1 - u) * (((1 - u) * lo) * (S + t)))
                <= (1 - u) * s)%Q) by nra.
  nra.
Qed.

Lemma upper_step_canon (u hi E S t p s E' : Qc) :
  0 <= u -> 1 <= hi -> 0 <= S -> 0 <= t ->
  E <= hi * S ->
  p <= (1 + u) * E ->
  s <= (1 + u) * (p + t) ->
  E' <= (1 + u) * s ->
  E' <= ((1 + u) * ((1 + u) * ((1 + u) * hi))) * (S + t).
Proof.
  intros. to_Q. eapply upper_step; eassumption.
Qed.

Lemma lower_step_canon (u lo E S t p s E' : Qc) :
  0 <= u -> u <= 1 -> 0 <= lo -> lo <= 1 -> 0 <= S -> 0 <= t ->
  lo * S <= E ->
  (1 - u) * E <= p ->
  (1 - u) * (p + t) <= s ->
  (1 - u) * s <= E' ->
  ((1 - u) * ((1 - u) * ((1 - u) * lo))) * (S + t) <= E'.
Proof.
  intros. to_Q. eapply lower_step; eassumption.
Qed.

Lemma power_le_1 (x : Qc) (n : nat) : 0 <= x -> x <= 1 -> x ^ n <= 1.
Proof.
  intros H0 H1. induction n as [| n IH]; cbn [Qcpower].
  - apply Qcle_refl.
  - pose proof (Qcpower_pos x n H0) as Hp. to_Q. nra.
Qed.

Lemma power_ge_1 (x : Qc) (n : nat) : 1 <= x -> 1 <= x ^ n.
Proof.
  intros H1. induction n as [| n IH]; cbn [Qcpower].
  - apply Qcle_refl.
  - to_Q. nra.
Qed.

Lemma power_3S (x : Qc) (k : nat) :
  x ^ (3 * S k) = x * (x * (x * x ^ (3 * k))).
Proof.
  replace (3 * S k)%nat with (S (S (S (3 * k)))) by lia. reflexivity.
Qed.

(** [x || 0] and [x] add alike to one unless [x] is [NaN]. *)
Lemma add_orZero_one (x : Double.number) :
  x <> S754_nan ->
  Double.add (Double.orZero x) Double.one = Double.add x Double.one.
Proof.
  destruct x; intro H; try reflexivity. contradiction.
Qed.

End DoubleFacts.

(** ** The analytics aggregator on doubles *)

Module AppDoubleFacts.

Import NumFacts DoubleFacts.
Local Open Scope Qc_scope.

(** One fold none of whose operations rounds: the count grows by the
    queries and the average follows the running-mean rule on the reals. *)
Lemma exact_fold_step (prev : AppDouble.AnalyticsMetrics)
    (p : AppDouble.Partial.t) (q t : Double.number) (n a vq vt : Qc) :
  AppDouble.Partial.totalQueries p = Some q ->
  AppDouble.Partial.avgResponseTime p = Some t ->
  Double.truthy q = true ->
  Double.truthy t = true ->
  Double.value (AppDouble.totalQueries prev) = Some n ->
  Double.value (AppDouble.avgResponseTime prev) = Some a ->
  Double.value q = Some vq ->
  Double.value t = Some vt ->
  AppDouble.exactFold prev p = true ->
  Double.value (AppDouble.totalQueries (AppDouble.updateMetrics prev p))
  = Some (n + vq)
  /\ Double.value (AppDouble.avgResponseTime (AppDouble.updateMetrics prev p))
     = Some ((a * n + vt) / (n + vq)).
Proof.
  intros Hq Ht Tq Tt Hn Ha Vq Vt Hex.
  unfold AppDouble.exactFold, AppDouble.queriesOf, AppDouble.totalOf in Hex.
  rewrite Hq, Ht in Hex. cbn [Double.orZeroOpt] in Hex.
  rewrite (orZero_truthy q Tq) in Hex.
  apply andb_true_iff in Hex. destruct Hex as [Hex Hdiv].
  apply andb_true_iff in Hex. destruct Hex as [Hex Hsum].
  apply andb_true_iff in Hex. destruct Hex as [Hcount Hmul].
  pose proof (@unrounded_sound _ _ _ _ _ _ Hcount (@value_orZero _ _ Hn) Vq)
    as Ecount.
  pose proof (@unrounded_sound _ _ _ _ _ _ Hmul Ha Hn) as Emul.
  pose proof (@unrounded_sound _ _ _ _ _ _ Hsum Emul Vt) as Esum.
  pose proof (@unrounded_sound _ _ _ _ _ _ Hdiv Esum Ecount) as Ediv.
  unfold AppDouble.updateMetrics.
  cbn [AppDouble.totalQueries AppDouble.avgResponseTime].
  rewrite Hq, Ht. cbn [Double.orZeroOpt Double.truthyOpt].
  rewrite (orZero_truthy q Tq), Tq, Tt. cbn [andb].
  split; [exact Ecount | exact Ediv].
Qed.

Lemma unitPositive_parts (p : AppDouble.Partial.t) :
  AppDouble.unitPositive p ->
  exists t,
    AppDouble.Partial.totalQueries p = Some Double.one
    /\ AppDouble.Partial.avgResponseTime p = Some t
    /\ Double.isPositive t = true.
Proof.
  intros [Hq Hpos]. unfold AppDouble.totalOf in Hpos.
  destruct (AppDouble.Partial.avgResponseTime p) as [t |];
    [| discriminate Hpos].
  exists t. auto.
Qed.

Lemma unitPositive_weighted (p : AppDouble.Partial.t) :
  AppDouble.unitPositive p -> AppDouble.weighted p.
Proof.
  intro H. destruct (unitPositive_parts H) as [t [Hq [Ht Hpos]]].
  unfold AppDouble.weighted. rewrite Hq, Ht.
  split; [reflexivity |].
  destruct t as [| | | [|] m e]; try discriminate Hpos. split; reflexivity.
Qed.

(** The invariant behind the running average: as long as no operation
    rounds, the count grows by the queries folded in and average times
    count grows by the totals folded in. *)
Lemma exact_folds_invariant (folds : list AppDouble.Partial.t) :
  Forall AppDouble.weighted folds ->
  forall (start : AppDouble.AnalyticsMetrics) (n a : Qc),
    Double.value (AppDouble.totalQueries start) = Some n ->
    0 <= n ->
    Double.value (AppDouble.avgResponseTime start) = Some a ->
    AppDouble.exactFolds start folds = true ->
    exists n' a',
      Double.value (AppDouble.totalQueries (AppDouble.foldAll start folds))
      = Some n'
      /\ Double.value
           (AppDouble.avgResponseTime (AppDouble.foldAll start folds))
         = Some a'
      /\ n' = n + Num.sum (AppDouble.weights folds)
      /\ 0 <= n'
      /\ a' * n' = a * n + Num.sum (AppDouble.totals folds).
Proof.
  induction 1 as [| p folds Hp _ IH]; intros start n a Hn Hpos Ha Hex.
  - exists n, a. cbn. repeat split; auto; ring.
  - cbn [AppDouble.exactFolds] in Hex. apply andb_true_iff in Hex.
    destruct Hex as [Hstep Hrest].
    unfold AppDouble.weighted in Hp.
    destruct (AppDouble.Partial.totalQueries p) as [q |] eqn:Hq;
      [| contradiction].
    destruct (AppDouble.Partial.avgResponseTime p) as [t |] eqn:Ht;
      [| contradiction].
    destruct Hp as [Pq [Ft Tt]].
    destruct (positive_value q Pq) as [vq [Vq Hvq]].
    destruct (finite_value t Ft) as [vt Vt].
    destruct (@exact_fold_step start p q t n a vq vt Hq Ht
                (positive_truthy q Pq) Tt Hn Ha Vq Vt Hstep) as [Ecount Eavg].
    assert (Hsum : 0 <= n + vq).
    { apply Qcle_trans with (y := n); [exact Hpos |].
      rewrite <- (Qcplus_0_r n) at 1.
      apply Qcplus_le_compat; [apply Qcle_refl | apply Qclt_le_weak; exact Hvq]. }
    assert (Hnz : n + vq <> 0).
    { intro E.
      assert (L' : 0 < n + vq).
      { apply Qclt_le_trans with (y := vq); [exact Hvq |].
        rewrite <- (Qcplus_0_l vq) at 1.
        apply Qcplus_le_compat; [exact Hpos | apply Qcle_refl]. }
      rewrite E in L'. exact (Qclt_not_le _ _ L' (Qcle_refl 0)). }
    destruct (IH (AppDouble.updateMetrics start p) _ _ Ecount Hsum Eavg Hrest)
      as [n' [a' [En [Ea [Hn' [Hpos' Hprod]]]]]].
    exists n', a'.
    assert (Rq : Double.real (AppDouble.queriesOf p) = vq).
    { unfold AppDouble.queriesOf, Double.real. rewrite Hq.
      cbn [Double.orZeroOpt].
      rewrite (orZero_truthy q (positive_truthy q Pq)), Vq. reflexivity. }
    assert (Rt : Double.real (AppDouble.totalOf p) = vt).
    { unfold AppDouble.totalOf, Double.real. rewrite Ht, Vt. reflexivity. }
    cbn [AppDouble.foldAll fold_left AppDouble.weights AppDouble.totals map
         Num.sum fold_right].
    fold (AppDouble.foldAll (AppDouble.updateMetrics start p) folds).
    fold (AppDouble.weights folds). fold (AppDouble.totals folds).
    fold (Num.sum (AppDouble.weights folds)).
    fold (Num.sum (AppDouble.totals folds)).
    rewrite Rq, Rt.
    repeat split; [exact En | exact Ea | | exact Hpos' |].
    + rewrite Hn'. ring.
    + rewrite Hprod. field. exact Hnz.
Qed.

Lemma unit_weights (folds : list AppDouble.Partial.t) :
  Forall AppDouble.unitPositive folds ->
  Num.sum (AppDouble.weights folds) = Num.ofNat (List.length folds).
Proof.
  induction 1 as [| p folds [Hq _] _ IH].
  - apply Qc_is_canon. reflexivity.
  - cbn [AppDouble.weights map Num.sum fold_right List.length].
    fold (AppDouble.weights folds). fold (Num.sum (AppDouble.weights folds)).
    rewrite IH, ofNat_S. unfold AppDouble.queriesOf. rewrite Hq.
    replace (Double.real (Double.orZeroOpt (Some Double.one))) with 1
      by (apply Qc_is_canon; reflexivity).
    ring.
Qed.

Lemma value_one : Double.value Double.one = Some 1.
Proof.
  unfold Double.value, Double.one. f_equal. apply Qc_is_canon. reflexivity.
Qed.

Lemma ofNat_S_positive (k : nat) : 0 < Num.ofNat (S k).
Proof.
  unfold Num.ofNat, Qclt. cbn [this Q2Qc]. rewrite !Qred_correct.
  unfold Qlt. cbn [Qnum Qden inject_Z]. lia.
Qed.

Lemma unit_fold_rule (prev : AppDouble.AnalyticsMetrics)
    (p : AppDouble.Partial.t) :
  AppDouble.unitPositive p ->
  AppDouble.updateMetrics prev p
  = AppDouble.mkMetrics
      (Double.add (Double.orZero (AppDouble.totalQueries prev)) Double.one)
      (Double.div
         (Double.add
            (Double.mul (AppDouble.avgResponseTime prev)
               (AppDouble.totalQueries prev))
            (AppDouble.totalOf p))
         (Double.add (Double.orZero (AppDouble.totalQueries prev))
            Double.one))
      (AppDouble.backendCalls (AppDouble.updateMetrics prev p))
      (AppDouble.lastQueryLatency (AppDouble.updateMetrics prev p)).
Proof.
  intro H. destruct (unitPositive_parts H) as [t [Hq [Ht Hpos]]].
  unfold AppDouble.updateMetrics, AppDouble.totalOf.
  cbn [AppDouble.backendCalls AppDouble.lastQueryLatency].
  rewrite Hq, Ht. cbn [Double.orZeroOpt Double.truthyOpt].
  rewrite (positive_truthy t Hpos).
  replace (Double.truthy Double.one) with true by reflexivity.
  replace (Double.orZero Double.one) with Double.one by reflexivity.
  reflexivity.
Qed.

(** One fold of a turn whose operations are within [u]: the count is the
    next natural number, and the product, the sum and the new average
    times the new count are each within [u] of what they should be. *)
Lemma near_fold_step (u : Qc) (prev : AppDouble.AnalyticsMetrics)
    (p : AppDouble.Partial.t) (k : nat) (a : Qc) :
  AppDouble.unitPositive p ->
  Double.value (AppDouble.totalQueries prev) = Some (Num.ofNat k) ->
  Double.value (AppDouble.avgResponseTime prev) = Some a ->
  AppDouble.nearFold u prev p = true ->
  exists a' t product sum,
    Double.real (AppDouble.totalOf p) = t
    /\ 0 < t
    /\ Double.value (AppDouble.totalQueries (AppDouble.updateMetrics prev p))
       = Some (Num.ofNat (S k))
    /\ Double.value
         (AppDouble.avgResponseTime (AppDouble.updateMetrics prev p))
       = Some a'
    /\ (1 - u) * (a * Num.ofNat k) <= product
    /\ product <= (1 + u) * (a * Num.ofNat k)
    /\ (1 - u) * (product + t) <= sum
    /\ sum <= (1 + u) * (product + t)
    /\ (1 - u) * sum <= a' * Num.ofNat (S k)
    /\ a' * Num.ofNat (S k) <= (1 + u) * sum.
Proof.
  intros Hp Hn Ha Hnear.
  destruct (unitPositive_parts Hp) as [t [Hq [Ht Hpos]]].
  destruct (positive_value t Hpos) as [vt [Vt Hvt]].
  rewrite (unit_fold_rule prev Hp).
  cbn [AppDouble.totalQueries AppDouble.avgResponseTime].
  unfold AppDouble.nearFold, AppDouble.queriesOf in Hnear.
  rewrite Hq in Hnear. cbn [Double.orZeroOpt] in Hnear.
  replace (Double.orZero Double.one) with Double.one in Hnear
    by reflexivity.
  assert (Et : AppDouble.totalOf p = t)
    by (unfold AppDouble.totalOf; rewrite Ht; reflexivity).
  rewrite Et in *.
  apply andb_true_iff in Hnear. destruct Hnear as [Hnear Hdiv].
  apply andb_true_iff in Hnear. destruct Hnear as [Hnear Hsum].
  apply andb_true_iff in Hnear. destruct Hnear as [Hcount Hmul].
  pose proof (@unrounded_sound _ _ _ _ _ _ Hcount (@value_orZero _ _ Hn)
                value_one) as Ecount.
  rewrite <- ofNat_S in Ecount.
  destruct (@rounded_sound _ _ _ _ _ _ _ Hmul Ha Hn)
    as [product [Eprod [Lprod Uprod]]].
  destruct (@rounded_sound _ _ _ _ _ _ _ Hsum Eprod Vt)
    as [sum [Esum [Lsum Usum]]].
  destruct (@rounded_sound _ _ _ _ _ _ _ Hdiv Esum Ecount)
    as [a' [Ea' [La Ua]]].
  exists a', vt, product, sum.
  assert (Hpos' : 0 <= Num.ofNat (S k))
    by (apply Qclt_le_weak, ofNat_S_positive).
  assert (Hnz : Num.ofNat (S k) <> 0).
  { intro E. pose proof (ofNat_S_positive k) as L. rewrite E in L.
    exact (Qclt_not_le _ _ L (Qcle_refl 0)). }
  repeat split; try assumption.
  - unfold Double.real. rewrite Vt. reflexivity.
  - replace ((1 - u) * sum)
      with ((1 - u) * (sum / Num.ofNat (S k)) * Num.ofNat (S k))
      by (field; exact Hnz).
    apply Qcmult_le_compat_r; assumption.
  - replace ((1 + u) * sum)
      with ((1 + u) * (sum / Num.ofNat (S k)) * Num.ofNat (S k))
      by (field; exact Hnz).
    apply Qcmult_le_compat_r; assumption.
Qed.

(** The invariant behind the tolerance: after [k] folds, average times
    count lies between [(1 - u)^(3k)] and [(1 + u)^(3k)] times the sum of
    the totals. *)
Lemma near_folds_invariant (u : Qc) (folds : list AppDouble.Partial.t) :
  0 <= u -> u <= 1 ->
  Forall AppDouble.unitPositive folds ->
  forall (start : AppDouble.AnalyticsMetrics) (k : nat) (a total : Qc),
    Double.value (AppDouble.totalQueries start) = Some (Num.ofNat k) ->
    Double.value (AppDouble.avgResponseTime start) = Some a ->
    0 <= total ->
    (1 - u) ^ (3 * k) * total <= a * Num.ofNat k ->
    a * Num.ofNat k <= (1 + u) ^ (3 * k) * total ->
    AppDouble.nearFolds u start folds = true ->
    exists a',
      Double.value (AppDouble.avgResponseTime (AppDouble.foldAll start folds))
      = Some a'
      /\ (1 - u) ^ (3 * (k + List.length folds))
         * (total + Num.sum (AppDouble.totals folds))
         <= a' * Num.ofNat (k + List.length folds)
      /\ a' * Num.ofNat (k + List.length folds)
         <= (1 + u) ^ (3 * (k + List.length folds))
            * (total + Num.sum (AppDouble.totals folds)).
Proof.
  intros Hu0 Hu1 Hall.
  assert (HL0 : 0 <= 1 - u) by (to_Q; lra).
  assert (HL1 : 1 - u <= 1) by (to_Q; lra).
  assert (HU1 : 1 <= 1 + u) by (to_Q; lra).
  induction Hall as [| p folds Hp _ IH];
    intros start k a total Hn Ha Htotal Hlow Hupp Hnear.
  - exists a. cbn [AppDouble.foldAll fold_left List.length AppDouble.totals
                   map Num.sum fold_right].
    rewrite Nat.add_0_r, Qcplus_0_r. auto.
  - cbn [AppDouble.nearFolds] in Hnear. apply andb_true_iff in Hnear.
    destruct Hnear as [Hstep Hrest].
    destruct (@near_fold_step u start p k a Hp Hn Ha Hstep)
      as [a1 [t [product [sum [Rt [Ht [En [Ea [Lp [Up [Ls [Us [La Ua]]]]]]]]]]]]].
    assert (Ht0 : 0 <= t) by (apply Qclt_le_weak; exact Ht).
    assert (Hlow1 : (1 - u) ^ (3 * S k) * (total + t) <= a1 * Num.ofNat (S k)).
    { rewrite power_3S.
      apply (@lower_step_canon u ((1 - u) ^ (3 * k)) (a * Num.ofNat k) total t
               product sum (a1 * Num.ofNat (S k))); auto.
      - apply Qcpower_pos. exact HL0.
      - apply power_le_1; assumption. }
    assert (Hupp1 : a1 * Num.ofNat (S k) <= (1 + u) ^ (3 * S k) * (total + t)).
    { rewrite power_3S.
      apply (@upper_step_canon u ((1 + u) ^ (3 * k)) (a * Num.ofNat k) total t
               product sum (a1 * Num.ofNat (S k))); auto.
      apply power_ge_1. exact HU1. }
    assert (Htotal1 : 0 <= total + t).
    { rewrite <- (Qcplus_0_l 0). apply Qcplus_le_compat; assumption. }
    destruct (IH (AppDouble.updateMetrics start p) (S k) a1 (total + t)
                En Ea Htotal1 Hlow1 Hupp1 Hrest) as [a' [Ea' [L U]]].
    exists a'.
    cbn [AppDouble.foldAll fold_left List.length AppDouble.totals map
         Num.sum fold_right].
    fold (AppDouble.foldAll (AppDouble.updateMetrics start p) folds).
    fold (AppDouble.totals folds). fold (Num.sum (AppDouble.totals folds)).
    rewrite Rt, Nat.add_succ_r, Qcplus_assoc.
    split; [exact Ea' | split; [exact L | exact U]].
Qed.

(** C1, as the code has it.  Each fold that carries [totalQueries = 1] and
    a positive total applies the rule
    newAvg = (oldAvg * oldCount + newTotal) / (oldCount + 1) in double
    arithmetic (to any previous state whose count is not [NaN]).  From the
    initial metrics, after N such folds, N not zero, [avgResponseTime] is
    the arithmetic mean of the totals folded in up to rounding: when the
    counts are exact and the product, the sum and the quotient of every
    fold are within the relative error [u] of their exact values, the
    average lies between [(1 - u)^(3N)] and [(1 + u)^(3N)] times the mean;
    and when no operation rounds at all, the average is the mean. *)
Theorem running_average_is_mean_up_to_rounding
    (u : Qc) (folds : list AppDouble.Partial.t) :
  0 <= u -> u <= 1 ->
  Forall AppDouble.unitPositive folds ->
  (forall (prev : AppDouble.AnalyticsMetrics) (p : AppDouble.Partial.t),
     In p folds ->
     AppDouble.totalQueries prev <> S754_nan ->
     AppDouble.avgResponseTime (AppDouble.updateMetrics prev p)
     = Double.div
         (Double.add
            (Double.mul (AppDouble.avgResponseTime prev)
               (AppDouble.totalQueries prev))
            (AppDouble.totalOf p))
         (Double.add (AppDouble.totalQueries prev) Double.one))
  /\ ((0 < List.length folds)%nat ->
      AppDouble.nearFolds u AppDouble.initialMetrics folds = true ->
      exists average,
        Double.value
          (AppDouble.avgResponseTime
             (AppDouble.foldAll AppDouble.initialMetrics folds))
        = Some average
        /\ (1 - u) ^ (3 * List.length folds)
           * Num.mean (AppDouble.totals folds)
           <= average
        /\ average
           <= (1 + u) ^ (3 * List.length folds)
              * Num.mean (AppDouble.totals folds))
  /\ ((0 < List.length folds)%nat ->
      AppDouble.exactFolds AppDouble.initialMetrics folds = true ->
      Double.value
        (AppDouble.avgResponseTime
           (AppDouble.foldAll AppDouble.initialMetrics folds))
      = Some (Num.mean (AppDouble.totals folds))).
Proof.
  intros Hu0 Hu1 Hall. split; [| split].
  - intros prev p Hin Hnan.
    rewrite Forall_forall in Hall.
    rewrite (unit_fold_rule prev (Hall p Hin)).
    cbn [AppDouble.avgResponseTime].
    rewrite (add_orZero_one Hnan). reflexivity.
  - intros Hlen Hnear.
    destruct (@near_folds_invariant u folds Hu0 Hu1 Hall
                AppDouble.initialMetrics 0%nat 0 0)
      as [average [Ea [L U]]];
      try reflexivity; try apply Qcle_refl;
      try (rewrite Qcmult_0_r; apply Qcle_refl);
      try exact Hnear.
    exists average. split; [exact Ea |].
    cbn [Nat.add] in L, U. rewrite Qcplus_0_l in L, U.
    unfold Num.mean, AppDouble.totals. rewrite length_map.
    fold (AppDouble.totals folds).
    destruct (List.length folds) as [| n] eqn:Hn; [lia |].
    assert (Hnz : Num.ofNat (S n) <> 0).
    { intro E. pose proof (ofNat_S_positive n) as P. rewrite E in P.
      exact (Qclt_not_le _ _ P (Qcle_refl 0)). }
    split.
    + apply Qcmult_lt_0_le_reg_r with (z := Num.ofNat (S n));
        [apply ofNat_S_positive |].
      replace ((1 - u) ^ (3 * S n)
               * (Num.sum (AppDouble.totals folds) / Num.ofNat (S n))
               * Num.ofNat (S n))
        with ((1 - u) ^ (3 * S n) * Num.sum (AppDouble.totals folds))
        by (field; exact Hnz).
      exact L.
    + apply Qcmult_lt_0_le_reg_r with (z := Num.ofNat (S n));
        [apply ofNat_S_positive |].
      replace ((1 + u) ^ (3 * S n)
               * (Num.sum (AppDouble.totals folds) / Num.ofNat (S n))
               * Num.ofNat (S n))
        with ((1 + u) ^ (3 * S n) * Num.sum (AppDouble.totals folds))
        by (field; exact Hnz).
      exact U.
  - intros Hlen Hex.
    assert (Hw : Forall AppDouble.weighted folds).
    { apply Forall_impl with (2 := Hall). exact unitPositive_weighted. }
    destruct (@exact_folds_invariant folds Hw AppDouble.initialMetrics 0 0)
      as [n' [a' [_ [Ea [Hn' [_ Hprod]]]]]];
      [reflexivity | apply Qcle_refl | reflexivity | exact Hex |].
    rewrite Ea. f_equal.
    rewrite (unit_weights Hall) in Hn'.
    unfold Num.mean, AppDouble.totals. rewrite length_map.
    fold (AppDouble.totals folds).
    destruct (List.length folds) as [| k] eqn:Hk; [lia |].
    rewrite Hn' in Hprod.
    replace (0 * 0 + Num.sum (AppDouble.totals folds))
      with (Num.sum (AppDouble.totals folds)) in Hprod by ring.
    rewrite <- Hprod. rewrite Qcplus_0_l, ofNat_S.
    field. apply ofNat_S_nonzero.
Qed.

(** The eight turns whose average is rounded: every operation of their
    folds is within [2^-53], so the average is within [(1 +- 2^-53)^24] of
    the mean; the fold of the second of them follows the rule; and three
    turns of 100 ms, 200 ms and 600 ms, none of whose folds rounds,
    average to their mean. *)
Lemma running_average_is_mean_up_to_rounding_witness :
  AppDouble.avgResponseTime
    (AppDouble.updateMetrics AppDouble.initialMetrics (AppDouble.turn 209))
  = Double.div
      (Double.add
         (Double.mul (AppDouble.avgResponseTime AppDouble.initialMetrics)
            (AppDouble.totalQueries AppDouble.initialMetrics))
         (AppDouble.totalOf (AppDouble.turn 209)))
      (Double.add (AppDouble.totalQueries AppDouble.initialMetrics)
         Double.one)
  /\ (exists average,
        Double.value
          (AppDouble.avgResponseTime
             (AppDouble.foldAll AppDouble.initialMetrics
                (map AppDouble.turn AppDouble.roundedTotals)))
        = Some average
        /\ (1 - Double.unitRoundoff)
             ^ (3 * List.length (map AppDouble.turn AppDouble.roundedTotals))
           * Num.mean
               (AppDouble.totals (map AppDouble.turn AppDouble.roundedTotals))
           <= average
        /\ average
           <= (1 + Double.unitRoundoff)
                ^ (3 * List.length
                         (map AppDouble.turn AppDouble.roundedTotals))
              * Num.mean
                  (AppDouble.totals
                     (map AppDouble.turn AppDouble.roundedTotals)))
  /\ Double.value
       (AppDouble.avgResponseTime
          (AppDouble.foldAll AppDouble.initialMetrics
             (map AppDouble.turn [100; 200; 600]%Z)))
     = Some
         (Num.mean (AppDouble.totals (map AppDouble.turn [100; 200; 600]%Z))).
Proof.
  assert (Hu0 : 0 <= Double.unitRoundoff) by (vm_compute; discriminate).
  assert (Hu1 : Double.unitRoundoff <= 1) by (vm_compute; discriminate).
  assert (Hrounded : Forall AppDouble.unitPositive
                       (map AppDouble.turn AppDouble.roundedTotals))
    by (repeat constructor).
  assert (Hexact : Forall AppDouble.unitPositive
                     (map AppDouble.turn [100; 200; 600]%Z))
    by (repeat constructor).
  split; [| split].
  - apply (proj1 (running_average_is_mean_up_to_rounding Hu0 Hu1 Hrounded)).
    + cbn [map In AppDouble.roundedTotals]. right. left. reflexivity.
    + cbn. discriminate.
  - apply (proj1 (proj2 (running_average_is_mean_up_to_rounding
                           Hu0 Hu1 Hrounded))).
    + cbn [List.length map AppDouble.roundedTotals]. lia.
    + vm_compute. reflexivity.
  - apply (proj2 (proj2 (running_average_is_mean_up_to_rounding
                           Hu0 Hu1 Hexact))).
    + cbn [List.length map]. lia.
    + vm_compute. reflexivity.
Defined.

(** C1, as stated, fails on doubles.  Eight turns of 808, 209, 769, 739,
    268, 859, 42 and 42 ms have the mean 467 ms, and the running average
    they leave is 8215550882742271 * 2^-44 = 466.99999999999994. *)
Lemma rounded_average_is_not_mean :
  Forall AppDouble.unitPositive (map AppDouble.turn AppDouble.roundedTotals)
  /\ Num.mean (AppDouble.totals (map AppDouble.turn AppDouble.roundedTotals))
     = Q2Qc 467
  /\ AppDouble.avgResponseTime
       (AppDouble.foldAll AppDouble.initialMetrics
          (map AppDouble.turn AppDouble.roundedTotals))
     = S754_finite false 8215550882742271 (-44)
  /\ Double.value
       (AppDouble.avgResponseTime
          (AppDouble.foldAll AppDouble.initialMetrics
             (map AppDouble.turn AppDouble.roundedTotals)))
     <> Some
          (Num.mean
             (AppDouble.totals (map AppDouble.turn AppDouble.roundedTotals))).
Proof.
  split; [repeat constructor | split; [| split]].
  - apply Qc_is_canon. vm_compute. reflexivity.
  - vm_compute. reflexivity.
  - intro H.
    apply (f_equal (fun o => match o with Some v => this v | None => 0%Q end))
      in H.
    vm_compute in H. discriminate H.
Qed.

End AppDoubleFacts.

(** ** The adapter and the turn pipeline *)

Module PipelineFacts.

Section Facts.

Variable Remote : Type.
Variable X : Collaborators Remote.

(** *** Running a computation step by step *)

Lemma bind_Returns {A B} (m : M Remote A) (k : A -> M Remote B) w w' a :
  m w = (w', Returns a) -> bind m k w = k a w'.
Proof. intro H. unfold bind. rewrite H. reflexivity. Qed.

Lemma bind_Throws {A B} (m : M Remote A) (k : A -> M Remote B) w w' e :
  m w = (w', Throws e) -> bind m k w = (w', Throws e).
Proof. intro H. unfold bind. rewrite H. reflexivity. Qed.

Lemma tryCatch_Returns {A} (m : M Remote A) h w w' a :
  m w = (w', Returns a) -> tryCatch m h w = (w', Returns a).
Proof. intro H. unfold tryCatch. rewrite H. reflexivity. Qed.

Lemma tryCatch_Throws {A} (m : M Remote A) h w w' e :
  m w = (w', Throws e) -> tryCatch m h w = h e w'.
Proof. intro H. unfold tryCatch. rewrite H. reflexivity. Qed.

Lemma bind_observe {A B} (f : Remote -> Remote * A) (k : A -> M Remote B) w :
  bind (observe f) k w
  = k (snd (f (remote w))) (withRemote (fun _ => fst (f (remote w))) w).
Proof. unfold bind, observe. destruct (f (remote w)); reflexivity. Qed.

Lemma bind_modify {B} (g : World Remote -> World Remote)
    (k : unit -> M Remote B) w :
  bind (modify g) k w = k tt (g w).
Proof. reflexivity. Qed.

Lemma bind_read {A B} (f : World Remote -> A) (k : A -> M Remote B) w :
  bind (read f) k w = k (f w) w.
Proof. reflexivity. Qed.

Lemma bind_setStatus {B} (s : LoadingState) (k : unit -> M Remote B) w :
  bind (VoiceBotView.setStatus s) k w
  = k tt (VoiceBotView.withStatus s (emitted (StatusSet s) w)).
Proof. reflexivity. Qed.

(** *** How the steps change what the pipeline owns *)

Lemma view_fields (w : World Remote) ms st e m t refs h :
  pipelineView w = (ms, st, e, m, t, refs, h) ->
  messages w = ms /\ status w = st /\ errorMessage w = e /\ metrics w = m
  /\ timers w = t /\ statusHistory w = h.
Proof. unfold pipelineView. intro V. inversion V. repeat split. Qed.

Lemma view_withRemote (f : Remote -> Remote) (w : World Remote) :
  pipelineView (withRemote f w) = pipelineView w.
Proof. reflexivity. Qed.

Lemma view_setStatus (s : LoadingState) (w : World Remote)
    ms st e m t refs h :
  pipelineView w = (ms, st, e, m, t, refs, h) ->
  pipelineView (VoiceBotView.withStatus s (emitted (StatusSet s) w))
  = (ms, s, e, m, t, refs, h ++ [s]).
Proof.
  unfold pipelineView, statusHistory. cbn. rewrite flat_map_app. cbn.
  intro V. injection V as <- <- <- <- <- <- <-. reflexivity.
Qed.

Lemma view_withMetrics (m' : AnalyticsMetrics) (w : World Remote)
    ms st e m t refs h :
  pipelineView w = (ms, st, e, m, t, refs, h) ->
  pipelineView (VoiceBotView.withMetrics m' w) = (ms, st, e, m', t, refs, h).
Proof.
  unfold pipelineView, statusHistory. cbn.
  intro V. injection V as <- <- <- <- <- <- <-. reflexivity.
Qed.

Lemma view_withMessages (ms' : list Message) (w : World Remote)
    ms st e m t refs h :
  pipelineView w = (ms, st, e, m, t, refs, h) ->
  pipelineView (VoiceBotView.withMessages ms' w) = (ms', st, e, m, t, refs, h).
Proof.
  unfold pipelineView, statusHistory. cbn.
  intro V. injection V as <- <- <- <- <- <- <-. reflexivity.
Qed.

Lemma view_emitted_other (e : Effect) (w : World Remote) :
  match e with StatusSet _ => False | _ => True end ->
  pipelineView (emitted e w) = pipelineView w.
Proof.
  intro H. unfold pipelineView, statusHistory. cbn. rewrite flat_map_app.
  destruct e; try contradiction; cbn; rewrite app_nil_r; reflexivity.
Qed.

(** *** geminiService *)

Lemma ensureSession_returns (w : World Remote) :
  exists w1 session,
    GeminiService.ensureSession X w = (w1, Returns session)
    /\ pipelineView w1 = pipelineView w.
Proof.
  unfold GeminiService.ensureSession.
  destruct (chatSession w) as [s |] eqn:E.
  - exists w, s. split; reflexivity.
  - cbn. destruct (chatsCreate X (remote w)) as [r s].
    eexists _, s. split; [reflexivity | view_refl].
Qed.

(** [getBotResponse] is its [try] block when that returns, and the canned
    apology when it throws. *)
Lemma getBotResponse_cases (userText : Js.jsstring) (w : World Remote) :
  exists w1 session,
    GeminiService.ensureSession X w = (w1, Returns session)
    /\ match GeminiService.exchange X session userText w1 with
       | (w2, Returns reply) =>
           GeminiService.getBotResponse X userText w = (w2, Returns reply)
       | (w2, Throws _) =>
           GeminiService.getBotResponse X userText w
           = (emitted (ConsoleError (Js.lit "Bot logic error:")) w2,
              Returns (GeminiService.mkReply GeminiService.troubleReply false))
       end.
Proof.
  destruct (ensureSession_returns w) as [w1 [s [E _]]].
  exists w1, s. split; [exact E |].
  unfold GeminiService.getBotResponse. erewrite bind_Returns by exact E.
  destruct (GeminiService.exchange X s userText w1) as [w2 [reply | e]] eqn:Ex.
  - apply tryCatch_Returns. exact Ex.
  - erewrite tryCatch_Throws by exact Ex. reflexivity.
Qed.

Lemma getBotResponse_total (userText : Js.jsstring) (w : World Remote) :
  exists w' reply,
    GeminiService.getBotResponse X userText w = (w', Returns reply).
Proof.
  destruct (getBotResponse_cases userText w) as [w1 [s [_ H]]].
  destruct (GeminiService.exchange X s userText w1) as [w2 [reply | e]];
    eauto.
Qed.

(** A failed first request makes the [try] block throw. *)
Lemma exchange_first_send_throws session userText (w : World Remote) r e :
  sendMessage X session (UserMessage userText) (remote w) = (r, Throws e) ->
  GeminiService.exchange X session userText w
  = (withRemote (fun _ => r) (emitted (Invoke ChatSend) w), Throws e).
Proof.
  intro H.
  unfold GeminiService.exchange, GeminiService.converse, bind, invoke.
  cbn [remote emitted]. rewrite H. reflexivity.
Qed.

Lemma getBotResponse_unreachable (userText : Js.jsstring) (w : World Remote) :
  engineUnreachable X userText ->
  exists w',
    GeminiService.getBotResponse X userText w
    = (w', Returns (GeminiService.mkReply GeminiService.troubleReply false)).
Proof.
  intro Hdown.
  destruct (getBotResponse_cases userText w) as [w1 [s [_ H]]].
  destruct (Hdown s (remote w1)) as [r' [e Hsend]].
  rewrite (exchange_first_send_throws _ _ _ Hsend) in H. eauto.
Qed.

Lemma getBotResponse_view (userText : Js.jsstring) (w : World Remote) :
  pipelineView (fst (GeminiService.getBotResponse X userText w))
  = pipelineView w.
Proof.
  unfold GeminiService.getBotResponse, GeminiService.ensureSession,
    GeminiService.exchange, GeminiService.converse,
    tryCatch, bind, invoke, liftCompletion, ret, throw, emit.
  crush_calls; view_refl.
Qed.

Lemma generateSpeech_view (text voice : Js.jsstring) (w : World Remote) :
  pipelineView (fst (GeminiService.generateSpeech X text voice w))
  = pipelineView w.
Proof.
  unfold GeminiService.generateSpeech,
    tryCatch, bind, invoke, liftCompletion, ret, throw, emit.
  crush_calls; view_refl.
Qed.

(** [generateSpeech] as the turn calls it: a failure is absorbed. *)
Lemma guarded_speech (text : Js.jsstring) (w : World Remote) :
  exists w' audioData,
    tryCatch (GeminiService.generateSpeech X text GeminiService.defaultVoice)
      (fun _ =>
         bind (emit (ConsoleWarn (Js.lit "TTS Failed"))) (fun _ => ret None))
      w
    = (w', Returns audioData)
    /\ pipelineView w' = pipelineView w.
Proof.
  pose proof (generateSpeech_view text GeminiService.defaultVoice w) as V.
  destruct (GeminiService.generateSpeech X text GeminiService.defaultVoice w)
    as [w1 [audio | e]] eqn:E; cbn [fst] in V.
  - exists w1, audio. split; [apply tryCatch_Returns; exact E | exact V].
  - eexists _, None. split.
    + erewrite tryCatch_Throws by exact E. reflexivity.
    + rewrite view_emitted_other by exact I. exact V.
Qed.

(** C10.  [generateSpeech] returns [null] without calling the synthesis
    service when the text is empty or white space only, and only then: for
    any other text the service is called and the result is never [null];
    in particular an answer without audio data makes it throw. *)
Theorem generateSpeech_null_iff_blank
    (text voiceName : Js.jsstring) (w : World Remote) :
  (Js.blank text = true ->
     GeminiService.generateSpeech X text voiceName w = (w, Returns None))
  /\ (Js.blank text = false ->
        In Synthesis
           (invoked (fst (GeminiService.generateSpeech X text voiceName w)))
        /\ snd (GeminiService.generateSpeech X text voiceName w)
           <> Returns None
        /\ (noAudioData
              (snd (ttsGenerateContent X text voiceName (remote w))) ->
            snd (GeminiService.generateSpeech X text voiceName w)
            = Throws
                (Error "Speech generation failed. Service might be busy."))).
Proof.
  unfold GeminiService.generateSpeech, tryCatch.
  rewrite JsFacts.falsy_trim.
  split; intro Hb; rewrite Hb.
  - reflexivity.
  - unfold bind, invoke, liftCompletion, ret, throw, emit, noAudioData, invoked.
    cbn [remote emitted].
    destruct (ttsGenerateContent X text voiceName (remote w)) as [r c] eqn:E.
    cbn [snd].
    destruct c as [[[| u data] |] | e]; cbn;
      try (destruct (atob X (u :: data)) as [b | e']; cbn);
      (split; [rewrite ?flat_map_app, ?in_app_iff; cbn; auto 6 |]);
      (split; [discriminate |]);
      try reflexivity;
      intros [H | H]; discriminate H.
Qed.

(** C3, as the code has it.  When the engine's final result has no text
    (missing or empty), [getBotResponse] answers with its own clarification
    text and [toolUsed = false], whether or not a tool ran in the
    exchange. *)
Theorem empty_reply_gets_clarification
    (userText : Js.jsstring) (w w1 w2 : World Remote) (session : Handle)
    (result : Response) (toolRan : bool) :
  GeminiService.ensureSession X w = (w1, Returns session) ->
  GeminiService.converse X session userText w1
  = (w2, Returns (result, toolRan)) ->
  noText result ->
  GeminiService.getBotResponse X userText w
  = (w2, Returns (GeminiService.mkReply GeminiService.rephraseReply false)).
Proof.
  intros Hs Hc Ht.
  unfold GeminiService.getBotResponse. erewrite bind_Returns by exact Hs.
  apply tryCatch_Returns.
  unfold GeminiService.exchange. erewrite bind_Returns by exact Hc.
  cbn [fst snd].
  destruct Ht as [Ht | Ht]; rewrite Ht; reflexivity.
Qed.

(** *** VoiceBotView *)

(** [playResponse] never throws; it either leaves the pipeline as it found
    it (the source was started) or reports an audio error and sets the
    status to idle. *)
Lemma playResponse_spec (pcmData : list N) (w : World Remote)
    ms st e m t refs h :
  pipelineView w = (ms, st, e, m, t, refs, h) ->
  exists w' refs',
    VoiceBotView.playResponse X pcmData w = (w', Returns tt)
    /\ (pipelineView w' = (ms, st, e, m, t, refs', h)
        \/ pipelineView w'
           = (ms, idle, Some (Js.lit "AUDIO ERR"), m, t, refs', h ++ [idle])).
Proof.
  intro V. unfold pipelineView in V. injection V as <- <- <- <- <- _ <-.
  unfold VoiceBotView.playResponse, VoiceBotView.setStatus,
    VoiceBotView.setError,
    tryCatch, bind, invoke, liftCompletion, ret, throw, emit, read, modify.
  crush_calls.
  all: eexists _, _; split; [reflexivity |].
  all: view_refl.
Qed.

(** Step 5 of the turn: play the audio if there is any, else go idle. *)
Lemma playback_step (audioData : option (list N)) (w : World Remote)
    ms st e m t refs h :
  pipelineView w = (ms, st, e, m, t, refs, h) ->
  exists w' tail e' refs',
    match audioData with
    | Some pcmData =>
        bind (VoiceBotView.setStatus playing)
             (fun _ => VoiceBotView.playResponse X pcmData)
    | None => VoiceBotView.setStatus idle
    end w = (w', Returns tt)
    /\ pipelineView w' = (ms, last tail idle, e', m, t, refs', h ++ tail)
    /\ (tail = [idle] \/ tail = [playing] \/ tail = [playing; idle]).
Proof.
  intro V. destruct audioData as [pcmData |].
  - rewrite bind_setStatus.
    pose proof (view_setStatus playing V) as V1.
    destruct (playResponse_spec pcmData V1) as [w' [refs' [E [V' | V']]]].
    + exists w', [playing], e, refs'. repeat split; auto.
    + exists w', [playing; idle], (Some (Js.lit "AUDIO ERR")), refs'.
      rewrite <- app_assoc in V'. repeat split; auto.
  - eexists _, [idle], e, refs. split; [reflexivity |].
    split; [exact (view_setStatus idle V) | auto].
Qed.

(** The [try] block of a turn always runs to its end: the adapter is asked
    once, the status passes through thinking and synthesizing, the metrics
    are folded once and the assistant's message is appended. *)
Lemma turn_body (userText : Js.jsstring) (sttLatency : Qc) (w : World Remote) :
  exists w1 w2 reply,
    GeminiService.getBotResponse X userText w1 = (w2, Returns reply)
    /\ exists w' tail botId botStamp newMetrics,
         VoiceBotView.conversationTurnBody X userText sttLatency w
         = (w', Returns tt)
         /\ messages w'
            = messages w
              ++ [ mkMessage (Js.toString (botId + 1)) model
                     (GeminiService.replyText reply) botStamp
                     (Some (GeminiService.toolUsed reply)) ]
         /\ statusHistory w'
            = statusHistory w ++ thinking :: synthesizing :: tail
         /\ status w' = last tail idle
         /\ (tail = [idle] \/ tail = [playing] \/ tail = [playing; idle])
         /\ timers w' = timers w
         /\ metrics w' = App.updateMetrics (metrics w) newMetrics
         /\ Partial.totalQueries newMetrics = Some 1%Qc
         /\ Partial.backendCalls newMetrics
            = Some (if GeminiService.toolUsed reply then 1%Qc else 0%Qc).
Proof.
  unfold VoiceBotView.conversationTurnBody.
  rewrite bind_setStatus, bind_observe.
  pose proof (view_setStatus thinking (eq_refl (pipelineView w))) as V0.
  remember (VoiceBotView.withStatus thinking (emitted (StatusSet thinking) w))
    as wa eqn:Ea.
  clear Ea.
  remember (snd (performanceNow X (remote wa))) as llmStart eqn:El. clear El.
  match goal with
  | |- context [bind (GeminiService.getBotResponse X ?t) _ ?w0] =>
      destruct (getBotResponse_total t w0) as [w5 [reply E5]];
      pose proof (getBotResponse_view t w0) as V5; rewrite E5 in V5;
      cbn [fst] in V5; rewrite view_withRemote, V0 in V5;
      exists w0, w5, reply; split; [exact E5 |]
  end.
  erewrite bind_Returns by exact E5.
  rewrite bind_observe, bind_setStatus, bind_observe.
  remember (snd (performanceNow X (remote w5))) as llmEnd eqn:El. clear El.
  rewrite <- (view_withRemote (fun _ => fst (performanceNow X (remote w5))))
    in V5.
  pose proof (view_setStatus synthesizing V5) as V6.
  remember (VoiceBotView.withStatus synthesizing _) as wb eqn:Eb. clear Eb.
  remember (snd (performanceNow X (remote wb))) as ttsStart eqn:Et. clear Et.
  match goal with
  | |- context [bind (tryCatch _ _) _ ?w0] =>
      destruct (guarded_speech (GeminiService.replyText reply) w0)
        as [w7 [audioData [E7 V7]]];
      rewrite view_withRemote, V6 in V7
  end.
  erewrite bind_Returns by exact E7.
  rewrite bind_observe.
  remember (snd (performanceNow X (remote w7))) as ttsEnd eqn:Et. clear Et.
  unfold VoiceBotView.updateMetrics at 1. rewrite bind_modify.
  rewrite <- (view_withRemote (fun _ => fst (performanceNow X (remote w7))))
    in V7.
  match goal with
  | |- context [VoiceBotView.withMetrics ?m' ?w0] =>
      pose proof (view_withMetrics m' V7) as V8;
      remember (VoiceBotView.withMetrics m' w0) as w8 eqn:E8
  end.
  assert (Em : metrics
                 (withRemote (fun _ => fst (performanceNow X (remote w7))) w7)
               = metrics w) by (apply (view_fields V7)).
  rewrite Em in V8. clear E8 Em.
  destruct (playback_step audioData V8)
    as [w9 [tail [e9 [refs9 [E9 [V9 Htail]]]]]].
  erewrite bind_Returns by exact E9.
  rewrite !bind_observe.
  unfold VoiceBotView.appendMessage, modify.
  match goal with
  | |- context [VoiceBotView.withMessages ?ms' ?w0] =>
      assert (V10 : pipelineView w0 = pipelineView w9) by reflexivity;
      rewrite V9 in V10;
      pose proof (view_withMessages ms' V10) as V11;
      assert (Hms : messages w0 = messages w) by (apply (view_fields V10))
  end.
  destruct (view_fields V11) as [H1 [H2 [_ [H4 [H5 H7]]]]].
  eexists _, tail, _, _, _. split; [reflexivity |].
  rewrite H1, H2, H4, H5, H7, Hms, <- !app_assoc.
  repeat split; auto.
Qed.

(** Every turn completes: the user's message and then exactly one
    assistant message, carrying the adapter's reply, are appended; no
    recovery timer is armed. *)
Lemma turn_completes
    (userText : Js.jsstring) (sttLatency : Qc) (w : World Remote) :
  exists w1 w2 reply,
    GeminiService.getBotResponse X userText w1 = (w2, Returns reply)
    /\ exists w' tail userMsg botMsg,
         VoiceBotView.processConversationTurn X userText sttLatency w
         = (w', Returns tt)
         /\ messages w' = messages w ++ [userMsg; botMsg]
         /\ (role userMsg = user /\ text userMsg = userText)
         /\ (role botMsg = model
             /\ text botMsg = GeminiService.replyText reply
             /\ isToolUse botMsg = Some (GeminiService.toolUsed reply))
         /\ statusHistory w'
            = statusHistory w ++ thinking :: synthesizing :: tail
         /\ status w' = last tail idle
         /\ (tail = [idle] \/ tail = [playing] \/ tail = [playing; idle])
         /\ timers w' = timers w.
Proof.
  unfold VoiceBotView.processConversationTurn.
  rewrite !bind_observe.
  unfold VoiceBotView.appendMessage at 1. rewrite bind_modify.
  match goal with
  | |- context [tryCatch _ _ (VoiceBotView.withMessages ?ms' ?w0)] =>
      assert (V0 : pipelineView w0 = pipelineView w) by reflexivity;
      pose proof (view_withMessages ms' V0) as V1;
      assert (Hms : messages w0 = messages w) by reflexivity;
      destruct (turn_body userText sttLatency
                  (VoiceBotView.withMessages ms' w0))
        as (w1 & w2 & reply & Ebot & w' & tail & bid & bst & nm & Ebody & Hm
            & Hh & Hst & Htail & Ht & _)
  end.
  exists w1, w2, reply. split; [exact Ebot |].
  destruct (view_fields V1) as [F1 [_ [_ [_ [F5 F7]]]]].
  eexists w', tail, _, _. split.
  - apply tryCatch_Returns. exact Ebody.
  - rewrite Hm, Hh, Hst, Ht, F1, F5, F7, Hms, <- app_assoc.
    cbn [app role text isToolUse]. repeat split; auto.
Qed.

(** C2.  [getBotResponse] never throws: it always returns a reply.
    Whenever anything in its exchange with the engine fails, the reply is
    the canned apology with [toolUsed = false].  A turn whose engine is
    unreachable therefore completes: after the user's message exactly one
    assistant message, the apology, is appended, the status passes through
    thinking and synthesizing and ends at playing or idle, and no error
    recovery is scheduled. *)
Theorem adapter_never_fails
    (userText : Js.jsstring) (sttLatency : Qc) (w : World Remote) :
  (exists w' reply,
     GeminiService.getBotResponse X userText w = (w', Returns reply))
  /\ (forall w1 session w2 e,
        GeminiService.ensureSession X w = (w1, Returns session) ->
        GeminiService.exchange X session userText w1 = (w2, Throws e) ->
        exists w',
          GeminiService.getBotResponse X userText w
          = (w', Returns
                   (GeminiService.mkReply GeminiService.troubleReply false)))
  /\ (engineUnreachable X userText ->
      exists w' tail userMsg botMsg,
        VoiceBotView.processConversationTurn X userText sttLatency w
        = (w', Returns tt)
        /\ messages w' = messages w ++ [userMsg; botMsg]
        /\ role userMsg = user
        /\ role botMsg = model
        /\ text botMsg = GeminiService.troubleReply
        /\ isToolUse botMsg = Some false
        /\ statusHistory w'
           = statusHistory w ++ thinking :: synthesizing :: tail
        /\ (tail = [idle] \/ tail = [playing] \/ tail = [playing; idle])
        /\ status w' = last tail idle
        /\ timers w' = timers w).
Proof.
  split; [apply getBotResponse_total | split].
  - intros w1 session w2 e Hs Hx.
    destruct (getBotResponse_cases userText w) as [w1' [s' [Hs' H]]].
    rewrite Hs in Hs'. injection Hs' as <- <-.
    rewrite Hx in H. eauto.
  - intro Hdown.
    destruct (turn_completes userText sttLatency w)
      as (w1 & w2 & reply & Ebot & w' & tail & um & bm & E & Hm & (Hu & _)
          & (Hb1 & Hb2 & Hb3) & Hh & Hst & Htail & Ht).
    destruct (getBotResponse_unreachable w1 Hdown) as [w2' Ebot'].
    rewrite Ebot' in Ebot. injection Ebot as _ <-.
    exists w', tail, um, bm. repeat split; auto.
Qed.

(** C4.  While the status is not idle, a suggestion click does nothing:
    the world, and with it the status and the transcript, is unchanged and
    no turn is started. *)
Theorem suggestion_click_rejected (text : Js.jsstring) (w : World Remote) :
  status w <> idle ->
  VoiceBotView.handleSuggestionClick X text w = (w, Returns tt).
Proof.
  intro H. unfold VoiceBotView.handleSuggestionClick. rewrite bind_read.
  destruct (status w); try reflexivity. contradiction.
Qed.

(** C5.  When the recorded audio is shorter than 100 bytes,
    [processAudioInput] reports TOO SHORT, sets the status to idle and
    returns; the transcript is unchanged, and the calls made are exactly
    those made before plus the release of the microphone stream when there
    is one: neither the base64 helper nor the transcription service is
    called. *)
Theorem short_audio_rejected (captured : LoadingState) (w : World Remote) :
  (blobSize (VoiceBotView.recordedBlob (chunksRef w)) < 100)%N ->
  exists w',
    VoiceBotView.processAudioInput X captured w = (w', Returns tt)
    /\ errorMessage w' = Some (Js.lit "TOO SHORT")
    /\ status w' = idle
    /\ messages w' = messages w
    /\ invoked w' = invoked w ++ released w
    /\ statusHistory w' = statusHistory w ++ [idle]
    /\ timers w' = timers w
    /\ metrics w' = metrics w.
Proof.
  intro Hsmall. apply N.ltb_lt in Hsmall.
  unfold VoiceBotView.processAudioInput, VoiceBotView.audioInputBody.
  rewrite bind_read.
  destruct (streamRef w) as [s |] eqn:Es.
  - unfold bind at 1, perform. unfold tryCatch. rewrite bind_read.
    cbn [chunksRef withRemote emitted]. rewrite Hsmall.
    eexists. split; [reflexivity |].
    unfold invoked, statusHistory, released. rewrite Es. cbn.
    rewrite !flat_map_app. cbn.
    rewrite !app_nil_r. repeat split; auto.
  - unfold bind at 1, ret. unfold tryCatch. rewrite bind_read.
    rewrite Hsmall.
    eexists. split; [reflexivity |].
    unfold invoked, statusHistory, released. rewrite Es. cbn.
    rewrite !flat_map_app. cbn.
    rewrite !app_nil_r. repeat split; auto.
Qed.

(** The ended callback moves playing to idle and keeps any other status. *)
Lemma onended_status (w : World Remote) :
  status (fst (VoiceBotView.onended w))
  = match status w with playing => idle | other => other end.
Proof.
  unfold VoiceBotView.onended, VoiceBotView.setStatus, bind, read, emit,
    modify.
  cbn. destruct (status w); reflexivity.
Qed.

(** C6, as the code has it.  [stopPlayback] never throws and leaves
    everything the pipeline owns as it was; the status in particular is
    not changed and no status is set.  Without a current source it does
    nothing at all.  With a current source it makes exactly one call, which
    asks that source to stop, and whatever the source answers, an error
    included, is swallowed.  The status moves to idle only when the
    source's ended callback runs afterwards, and only from playing: any
    other status stays. *)
Theorem stopPlayback_keeps_status (w : World Remote) :
  exists w',
    VoiceBotView.stopPlayback X w = (w', Returns tt)
    /\ pipelineView w' = pipelineView w
    /\ match currentSourceRef w with
       | None => w' = w
       | Some source =>
           invoked w' = invoked w ++ [SourceStop]
           /\ remote w' = fst (sourceStop X source (remote w))
       end
    /\ status (fst (VoiceBotView.onended w'))
       = match status w with playing => idle | other => other end.
Proof.
  unfold VoiceBotView.stopPlayback. rewrite bind_read.
  destruct (currentSourceRef w) as [s |] eqn:Es.
  - unfold tryCatch, invoke, ret. cbn [remote emitted].
    destruct (sourceStop X s (remote w)) as [r [u | e]];
      try destruct u;
      (eexists; split; [reflexivity |]);
      (split; [view_refl |]);
      (split; [unfold invoked; cbn; rewrite flat_map_app;
               split; reflexivity |]);
      rewrite onended_status; reflexivity.
  - exists w. repeat split; try reflexivity. apply onended_status.
Qed.

End Facts.

(** *** Concrete runs *)

(** A blank text is answered with [null] and the world is untouched; the
    text "Sure." with a synthesis answer that has no audio data throws. *)
Lemma generateSpeech_null_iff_blank_witness :
  GeminiService.generateSpeech Scripted.noAudio (Js.lit "  ")
    GeminiService.defaultVoice (Scripted.fresh [])
  = (Scripted.fresh [], Returns None)
  /\ snd (GeminiService.generateSpeech Scripted.noAudio (Js.lit "Sure.")
            GeminiService.defaultVoice (Scripted.fresh []))
     = Throws (Error "Speech generation failed. Service might be busy.").
Proof.
  split.
  - apply (proj1 (@generateSpeech_null_iff_blank _ Scripted.noAudio
                    (Js.lit "  ") GeminiService.defaultVoice
                    (Scripted.fresh []))).
    reflexivity.
  - apply (proj2 (@generateSpeech_null_iff_blank _ Scripted.noAudio
                    (Js.lit "Sure.") GeminiService.defaultVoice
                    (Scripted.fresh []))).
    + reflexivity.
    + left. reflexivity.
Defined.

(** The engine answers the first message without text and without asking
    for a call: the reply is the clarification, with [toolUsed = false]. *)
Lemma empty_reply_gets_clarification_witness :
  exists w1 w2,
    GeminiService.converse Scripted.speechless 1%N (Js.lit "Balance?") w1
    = (w2, Returns (mkResponse None None, false))
    /\ GeminiService.getBotResponse Scripted.speechless
         (Js.lit "Balance?") (Scripted.fresh [])
       = (w2, Returns
                (GeminiService.mkReply GeminiService.rephraseReply false)).
Proof.
  eexists _, _. split.
  - reflexivity.
  - eapply (@empty_reply_gets_clarification _ Scripted.speechless
              (Js.lit "Balance?") (Scripted.fresh []) _ _ 1%N
              (mkResponse None None) false).
    + reflexivity.
    + reflexivity.
    + left. reflexivity.
Defined.

(** C3, as stated, fails: the engine's final result, here its only one, has
    no text, and the text returned is not the one the specification
    quotes. *)
Lemma clarification_text_differs :
  snd (sendMessage Scripted.speechless 1%N (UserMessage (Js.lit "Balance?"))
         (remote (Scripted.fresh [])))
  = Returns (mkResponse None None)
  /\ snd (GeminiService.getBotResponse Scripted.speechless
            (Js.lit "Balance?") (Scripted.fresh []))
     <> Returns (GeminiService.mkReply quotedClarification false).
Proof.
  split; [reflexivity |].
  vm_compute. intro H. discriminate H.
Qed.

Lemma offline_unreachable (userText : Js.jsstring) :
  engineUnreachable Scripted.offline userText.
Proof.
  intros session r. exists r, (Error "fetch failed"). reflexivity.
Qed.

(** With the engine down, the adapter answers with the apology, and a turn
    from the fresh view appends the user's message and the apology, and
    completes. *)
Lemma adapter_never_fails_witness :
  (exists w',
     GeminiService.getBotResponse Scripted.offline (Js.lit "Hello")
       (Scripted.fresh [1000; 1000; 1500; 1500]%Z)
     = (w', Returns (GeminiService.mkReply GeminiService.troubleReply false)))
  /\ exists w' tail userMsg botMsg,
       VoiceBotView.processConversationTurn Scripted.offline (Js.lit "Hello")
         0%Qc (Scripted.fresh [1000; 1000; 1500; 1500]%Z)
       = (w', Returns tt)
       /\ messages w'
          = messages (Scripted.fresh [1000; 1000; 1500; 1500]%Z)
            ++ [userMsg; botMsg]
       /\ role userMsg = user
       /\ role botMsg = model
       /\ text botMsg = GeminiService.troubleReply
       /\ isToolUse botMsg = Some false
       /\ statusHistory w'
          = statusHistory (Scripted.fresh [1000; 1000; 1500; 1500]%Z)
            ++ thinking :: synthesizing :: tail
       /\ (tail = [idle] \/ tail = [playing] \/ tail = [playing; idle])
       /\ status w' = last tail idle
       /\ timers w' = timers (Scripted.fresh [1000; 1000; 1500; 1500]%Z).
Proof.
  split.
  - eapply (proj1 (proj2 (@adapter_never_fails _ Scripted.offline
                            (Js.lit "Hello") 0%Qc
                            (Scripted.fresh [1000; 1000; 1500; 1500]%Z)))).
    + reflexivity.
    + reflexivity.
  - apply (proj2 (proj2 (@adapter_never_fails _ Scripted.offline
                           (Js.lit "Hello") 0%Qc
                           (Scripted.fresh [1000; 1000; 1500; 1500]%Z)))).
    apply offline_unreachable.
Defined.

(** A click while a turn waits for the engine changes nothing. *)
Lemma suggestion_click_rejected_witness :
  VoiceBotView.handleSuggestionClick Scripted.textOnly
    (Js.lit "Check my account balance") Scripted.reasoning
  = (Scripted.reasoning, Returns tt).
Proof.
  apply (@suggestion_click_rejected _ Scripted.textOnly
           (Js.lit "Check my account balance") Scripted.reasoning).
  simpl. discriminate.
Defined.

(** A recording of 50 bytes is rejected as too short. *)
Lemma short_audio_rejected_witness :
  exists w',
    VoiceBotView.processAudioInput Scripted.textOnly idle (Scripted.recorded 50)
    = (w', Returns tt)
    /\ errorMessage w' = Some (Js.lit "TOO SHORT")
    /\ status w' = idle
    /\ messages w' = messages (Scripted.recorded 50)
    /\ invoked w'
       = invoked (Scripted.recorded 50) ++ released (Scripted.recorded 50)
    /\ statusHistory w' = statusHistory (Scripted.recorded 50) ++ [idle]
    /\ timers w' = timers (Scripted.recorded 50)
    /\ metrics w' = metrics (Scripted.recorded 50).
Proof.
  apply (@short_audio_rejected _ Scripted.textOnly idle (Scripted.recorded 50)).
  vm_compute. reflexivity.
Defined.

(** C6, as stated, fails: stopping playback while the error banner shows
    leaves the status at error, also once the ended callback has run. *)
Lemma stopPlayback_does_not_force_idle :
  status (fst (VoiceBotView.stopPlayback Scripted.textOnly Scripted.errored))
  <> idle
  /\ status
       (fst (VoiceBotView.onended
               (fst (VoiceBotView.stopPlayback Scripted.textOnly
                       Scripted.errored))))
     <> idle.
Proof.
  split; vm_compute; discriminate.
Qed.

(** C8 at its failing input.  Two suggestion clicks with synthesis down:
    the first turn's reply is appended at 1500 ms and gets the id 1501; the
    second click comes at 1501 ms and its user message gets the same id. *)
Theorem message_ids_collide :
  let dates := [1000; 1000; 1500; 1500; 1501; 1501; 1600; 1600]%Z in
  let click := VoiceBotView.handleSuggestionClick Scripted.textOnly
                 (Js.lit "Check my account balance") in
  let after := fst (click (fst (click (Scripted.fresh dates)))) in
  List.map id (messages after)
  = [ Js.lit "init"; Js.lit "1000"; Js.lit "1501"; Js.lit "1501";
      Js.lit "1601" ]
  /\ ~ NoDup (List.map id (messages after)).
Proof.
  intros dates click after.
  assert (E : List.map id (messages after)
              = [ Js.lit "init"; Js.lit "1000"; Js.lit "1501"; Js.lit "1501";
                  Js.lit "1601" ]) by (vm_compute; reflexivity).
  split; [exact E |].
  rewrite E. intro H.
  inversion H as [| ? ? _ Hrest1]. inversion Hrest1 as [| ? ? _ Hrest2].
  inversion Hrest2 as [| ? ? Hnotin _]. apply Hnotin. left. reflexivity.
Qed.

End PipelineFacts.

(* ================================================================== *)
(** * Further properties of the code *)
(* ================================================================== *)

(** ** The analytics aggregator over many folds *)

Module AppCoverage.

Import NumFacts.
Local Open Scope Qc_scope.

(** X1.  Counts accumulate: after any sequence of folds, [totalQueries] is
    the starting count plus the sum of the query counts supplied (an
    absent count adds nothing), and likewise [backendCalls]. *)
Theorem counts_accumulate (start : AnalyticsMetrics) (folds : list Partial.t) :
  totalQueries (App.foldAll start folds)
  = totalQueries start
    + Num.sum (map (fun p => Num.orZeroOpt (Partial.totalQueries p)) folds)
  /\ backendCalls (App.foldAll start folds)
     = backendCalls start
       + Num.sum (map (fun p => Num.orZeroOpt (Partial.backendCalls p)) folds).
Proof.
  revert start. induction folds as [| p folds IH]; intro start.
  - cbn. split; ring.
  - cbn [App.foldAll fold_left map Num.sum fold_right].
    destruct (IH (App.updateMetrics start p)) as [H1 H2].
    unfold App.foldAll in H1, H2. rewrite H1, H2.
    unfold App.updateMetrics. cbn [totalQueries backendCalls].
    rewrite orZero_id. unfold Num.sum. split; ring.
Qed.

(** X2.  [lastQueryLatency] is the latest latency supplied: a fold that
    carries one, followed by folds that carry none, leaves it in place
    whatever came before. *)
Theorem latest_latency_wins
    (start : AnalyticsMetrics) (before after : list Partial.t)
    (p : Partial.t) (l : Latency) :
  Partial.lastQueryLatency p = Some l ->
  Forall (fun q => Partial.lastQueryLatency q = None) after ->
  lastQueryLatency (App.foldAll start (before ++ p :: after)) = Some l.
Proof.
  intros Hp Hafter. unfold App.foldAll. rewrite fold_left_app.
  cbn [fold_left].
  set (s := App.updateMetrics (fold_left App.updateMetrics before start) p).
  assert (Hs : lastQueryLatency s = Some l).
  { unfold s, App.updateMetrics. cbn [lastQueryLatency]. rewrite Hp.
    reflexivity. }
  clearbody s. revert s Hs.
  induction Hafter as [| q after Hq _ IH]; intros s Hs; cbn [fold_left].
  - exact Hs.
  - apply IH. unfold App.updateMetrics. cbn [lastQueryLatency]. rewrite Hq.
    exact Hs.
Qed.

(** A latency of 120 + 50 + 80 ms survives a later fold without latency. *)
Lemma latest_latency_wins_witness :
  lastQueryLatency
    (App.foldAll App.initialMetrics
       ([ Partial.empty ]
          ++ Partial.mk (Some 1) (Some (Q2Qc 250)) None
               (Some (mkLatency (Q2Qc 120) (Q2Qc 50) (Q2Qc 80) (Q2Qc 250)))
          :: [ Partial.mk (Some 1) (Some (Q2Qc 90)) None None ]))
  = Some (mkLatency (Q2Qc 120) (Q2Qc 50) (Q2Qc 80) (Q2Qc 250)).
Proof.
  apply (@latest_latency_wins App.initialMetrics [ Partial.empty ]
           [ Partial.mk (Some 1) (Some (Q2Qc 90)) None None ]).
  - reflexivity.
  - repeat constructor.
Defined.

(** X3.  On doubles, for folds that carry any positive number of queries
    and a finite nonzero total, from a state whose count is not negative:
    as long as no operation of the folds rounds, the count grows by the
    queries folded in and average times count grows by exactly the totals
    folded in.  The average is then the sum of the totals over the count,
    which is their mean only when every fold counts one query. *)
Theorem average_times_count (folds : list AppDouble.Partial.t) :
  Forall AppDouble.weighted folds ->
  forall (start : AppDouble.AnalyticsMetrics) (n a : Qc),
    Double.value (AppDouble.totalQueries start) = Some n ->
    0 <= n ->
    Double.value (AppDouble.avgResponseTime start) = Some a ->
    AppDouble.exactFolds start folds = true ->
    exists n' a',
      Double.value (AppDouble.totalQueries (AppDouble.foldAll start folds))
      = Some n'
      /\ Double.value
           (AppDouble.avgResponseTime (AppDouble.foldAll start folds))
         = Some a'
      /\ n' = n + Num.sum (AppDouble.weights folds)
      /\ 0 <= n'
      /\ a' * n' = a * n + Num.sum (AppDouble.totals folds).
Proof.
  exact (@AppDoubleFacts.exact_folds_invariant folds).
Qed.

(** One fold of two queries and 300 ms, then one of three queries and
    600 ms, from the initial state: the averages are 150 and 180. *)
Lemma average_times_count_witness :
  exists n' a',
    Double.value
      (AppDouble.totalQueries
         (AppDouble.foldAll AppDouble.initialMetrics
            [AppDouble.batch 2 300; AppDouble.batch 3 600]))
    = Some n'
    /\ Double.value
         (AppDouble.avgResponseTime
            (AppDouble.foldAll AppDouble.initialMetrics
               [AppDouble.batch 2 300; AppDouble.batch 3 600]))
       = Some a'
    /\ n' = 0 + Num.sum
                  (AppDouble.weights
                     [AppDouble.batch 2 300; AppDouble.batch 3 600])
    /\ 0 <= n'
    /\ a' * n'
       = 0 * 0
         + Num.sum
             (AppDouble.totals [AppDouble.batch 2 300; AppDouble.batch 3 600]).
Proof.
  apply (@average_times_count
           [AppDouble.batch 2 300; AppDouble.batch 3 600]).
  - repeat constructor.
  - reflexivity.
  - apply Qcle_refl.
  - reflexivity.
  - vm_compute. reflexivity.
Defined.

End AppCoverage.

(** ** The tool executor and the adapter's traffic *)

Module ServiceCoverage.

Import PipelineFacts.

Lemma eqb_true (a b : Js.jsstring) : Js.eqb a b = true <-> a = b.
Proof.
  unfold Js.eqb. destruct (list_eq_dec N.eq_dec a b); split; congruence.
Qed.

Lemma eqb_false (a b : Js.jsstring) : a <> b -> Js.eqb a b = false.
Proof.
  unfold Js.eqb. destruct (list_eq_dec N.eq_dec a b); congruence.
Qed.

Lemma property_missing {A} (key : Js.jsstring) (obj : list (Js.jsstring * A)) :
  ~ In key (map fst obj) -> Js.property key obj = None.
Proof.
  induction obj as [| [k v] obj IH]; cbn; intro H; [reflexivity |].
  rewrite eqb_false by (intro E; apply H; left; exact E).
  apply IH. intro Hin. apply H. right. exact Hin.
Qed.

Lemma existsb_eqb_false (key : Js.jsstring) (keys : list Js.jsstring) :
  ~ In key keys -> existsb (Js.eqb key) keys = false.
Proof.
  induction keys as [| k keys IH]; cbn; intro H; [reflexivity |].
  rewrite (@eqb_false key k) by (intro E; apply H; left; symmetry; exact E).
  apply IH. intro Hin. apply H. right. exact Hin.
Qed.

Lemma apiResult_throws_iff (call : FunctionCall) :
  (exists e, GeminiService.apiResult call = Throws e)
  <-> lacksArguments call = true.
Proof.
  unfold GeminiService.apiResult, lacksArguments.
  destruct (callName call) as [n |].
  - destruct (Js.eqb n (Js.lit "getOrderStatus")) eqn:E.
    + destruct (callArgs call) as [args |].
      * split; [| discriminate].
        intros [e H].
        destruct (Js.get _ GeminiService.MOCK_DATABASE_orders);
          discriminate H.
      * split; [reflexivity | eauto].
    + split.
      * intros [e H].
        destruct (Js.eqb n (Js.lit "getAccountBalance")); [| discriminate H].
        destruct (Js.property _ GeminiService.MOCK_DATABASE_accounts);
          discriminate H.
      * destruct (callArgs call); discriminate.
  - split; [intros [e H]; discriminate H | discriminate].
Qed.

(** X4.  Running the requested calls throws exactly when one of them asks
    for an order status without any arguments; every other list of calls,
    unknown names and unknown orders included, is answered. *)
Theorem toolParts_throws_iff (calls : list FunctionCall) :
  (exists e, GeminiService.toolParts calls = Throws e)
  <-> existsb lacksArguments calls = true.
Proof.
  induction calls as [| call rest IH]; cbn [GeminiService.toolParts existsb].
  - split; [intros [e H]; discriminate H | discriminate].
  - rewrite orb_true_iff, <- IH, <- apiResult_throws_iff.
    destruct (GeminiService.apiResult call) as [result | e].
    + destruct (GeminiService.toolParts rest) as [parts | e'].
      * split; [intros [e H]; discriminate H |].
        intros [[e H] | [e H]]; discriminate H.
      * split; eauto.
    + split; eauto.
Qed.

(** A balance request followed by an order request without arguments. *)
Lemma toolParts_throws_iff_witness :
  exists e,
    GeminiService.toolParts
      [ mkCall (Some (Js.lit "c1")) (Some (Js.lit "getAccountBalance")) None;
        mkCall (Some (Js.lit "c2")) (Some (Js.lit "getOrderStatus")) None ]
    = Throws e.
Proof.
  apply (proj2 (toolParts_throws_iff
    [ mkCall (Some (Js.lit "c1")) (Some (Js.lit "getAccountBalance")) None;
      mkCall (Some (Js.lit "c2")) (Some (Js.lit "getOrderStatus")) None ])).
  reflexivity.
Defined.

(** X5.  When the requested calls are answered, there is one function
    response per call, in the order of the calls, each carrying its call's
    id and name and that call's result. *)
Theorem toolParts_keyed
    (calls : list FunctionCall) (parts : list FunctionResponse) :
  GeminiService.toolParts calls = Returns parts ->
  map responseId parts = map callId calls
  /\ map responseName parts = map callName calls
  /\ Forall2
       (fun call part =>
          GeminiService.apiResult call = Returns (responseResult part))
       calls parts.
Proof.
  revert parts. induction calls as [| call rest IH]; intros parts H;
    cbn [GeminiService.toolParts] in H.
  - injection H as <-. repeat split; constructor.
  - destruct (GeminiService.apiResult call) as [result | e] eqn:Ea;
      [| discriminate H].
    destruct (GeminiService.toolParts rest) as [parts' | e];
      [| discriminate H].
    injection H as <-. destruct (IH parts' eq_refl) as [H1 [H2 H3]].
    cbn. rewrite H1, H2. repeat split. constructor; [exact Ea | exact H3].
Qed.

(** An unknown tool and the balance tool, answered in order. *)
Lemma toolParts_keyed_witness :
  map responseId
    [ mkFunctionResponse (Some (Js.lit "c1")) (Some (Js.lit "getWeather"))
        (Data functionNotFound);
      mkFunctionResponse None (Some (Js.lit "getAccountBalance"))
        (Data [ (Js.lit "balance", VNum (Q2Qc (2501 # 2)));
                (Js.lit "currency", VStr (Js.lit "USD"));
                (Js.lit "plan", VStr (Js.lit "Premium")) ]) ]
  = map callId
      [ mkCall (Some (Js.lit "c1")) (Some (Js.lit "getWeather")) None;
        mkCall None (Some (Js.lit "getAccountBalance")) None ].
Proof.
  refine (proj1 (@toolParts_keyed
    [ mkCall (Some (Js.lit "c1")) (Some (Js.lit "getWeather")) None;
      mkCall None (Some (Js.lit "getAccountBalance")) None ] _ _)).
  reflexivity.
Defined.

(** X6.  Lookups never fail for want of a match.  A call whose name is
    neither of the two tools gets the function-not-found object.  An order
    id that is in the table gets that order's record.  An order id that
    names something the table inherits from [Object.prototype], such as
    [constructor] or [toString], gets that inherited member.  Every other
    order id gets the order-not-found object. *)
Theorem lookup_misses_are_answers (call : FunctionCall) :
  (callName call <> Some (Js.lit "getOrderStatus") ->
   callName call <> Some (Js.lit "getAccountBalance") ->
   GeminiService.apiResult call = Returns (Data functionNotFound))
  /\ (forall args key order,
        callName call = Some (Js.lit "getOrderStatus") ->
        callArgs call = Some args ->
        Js.property (Js.lit "orderId") args = Some key ->
        In (key, order) GeminiService.MOCK_DATABASE_orders ->
        GeminiService.apiResult call = Returns (Data order))
  /\ (forall args key,
        callName call = Some (Js.lit "getOrderStatus") ->
        callArgs call = Some args ->
        Js.property (Js.lit "orderId") args = Some key ->
        In key Js.objectPrototypeKeys ->
        GeminiService.apiResult call = Returns (PrototypeMember key))
  /\ (forall args key,
        callName call = Some (Js.lit "getOrderStatus") ->
        callArgs call = Some args ->
        Js.property (Js.lit "orderId") args = Some key ->
        ~ In key (map fst GeminiService.MOCK_DATABASE_orders) ->
        ~ In key Js.objectPrototypeKeys ->
        GeminiService.apiResult call = Returns (Data orderNotFound)).
Proof.
  unfold GeminiService.apiResult. split; [| split; [| split]].
  - intros H1 H2. destruct (callName call) as [n |]; [| reflexivity].
    rewrite (@eqb_false n (Js.lit "getOrderStatus")) by congruence.
    rewrite (@eqb_false n (Js.lit "getAccountBalance")) by congruence.
    reflexivity.
  - intros args key order Hn Ha Hk Hin. rewrite Hn, Ha, Hk.
    destruct Hin as [H | [H | [H | []]]]; injection H as <- <-; reflexivity.
  - intros args key Hn Ha Hk Hin. rewrite Hn, Ha, Hk.
    cbn in Hin.
    repeat (destruct Hin as [<- | Hin]; [reflexivity |]).
    contradiction.
  - intros args key Hn Ha Hk Hown Hproto. rewrite Hn, Ha, Hk.
    unfold Js.get. rewrite property_missing by exact Hown.
    rewrite existsb_eqb_false by exact Hproto. reflexivity.
Qed.

(** An unknown tool name; an order id that is in the table; the order id
    [constructor]; and an order id found nowhere. *)
Lemma lookup_misses_are_answers_witness :
  GeminiService.apiResult
    (mkCall (Some (Js.lit "c1")) (Some (Js.lit "getWeather")) None)
  = Returns (Data functionNotFound)
  /\ GeminiService.apiResult
       (mkCall (Some (Js.lit "c2")) (Some (Js.lit "getOrderStatus"))
          (Some [ (Js.lit "orderId", Js.lit "ORD-456") ]))
     = Returns
         (Data [ (Js.lit "status", VStr (Js.lit "Processing"));
                 (Js.lit "delivery_date", VStr (Js.lit "TBD")) ])
  /\ GeminiService.apiResult
       (mkCall (Some (Js.lit "c3")) (Some (Js.lit "getOrderStatus"))
          (Some [ (Js.lit "orderId", Js.lit "constructor") ]))
     = Returns (PrototypeMember (Js.lit "constructor"))
  /\ GeminiService.apiResult
       (mkCall (Some (Js.lit "c4")) (Some (Js.lit "getOrderStatus"))
          (Some [ (Js.lit "orderId", Js.lit "ORD-000") ]))
     = Returns (Data orderNotFound).
Proof.
  split; [| split; [| split]].
  - apply (proj1 (lookup_misses_are_answers
             (mkCall (Some (Js.lit "c1")) (Some (Js.lit "getWeather"))
                None))); discriminate.
  - apply (proj1 (proj2 (lookup_misses_are_answers
             (mkCall (Some (Js.lit "c2")) (Some (Js.lit "getOrderStatus"))
                (Some [ (Js.lit "orderId", Js.lit "ORD-456") ]))))
           [ (Js.lit "orderId", Js.lit "ORD-456") ] (Js.lit "ORD-456"));
      try reflexivity.
    simpl. right. left. reflexivity.
  - apply (proj1 (proj2 (proj2 (lookup_misses_are_answers
             (mkCall (Some (Js.lit "c3")) (Some (Js.lit "getOrderStatus"))
                (Some [ (Js.lit "orderId", Js.lit "constructor") ])))))
           [ (Js.lit "orderId", Js.lit "constructor") ]
           (Js.lit "constructor"));
      try reflexivity.
    simpl. left. reflexivity.
  - apply (proj2 (proj2 (proj2 (lookup_misses_are_answers
             (mkCall (Some (Js.lit "c4")) (Some (Js.lit "getOrderStatus"))
                (Some [ (Js.lit "orderId", Js.lit "ORD-000") ])))))
           [ (Js.lit "orderId", Js.lit "ORD-000") ] (Js.lit "ORD-000"));
      try reflexivity.
    + simpl. intros [H | [H | [H | []]]]; discriminate H.
    + simpl. intro H.
      repeat (destruct H as [H | H]; [discriminate H |]).
      exact H.
Defined.

Section Adapter.

Variable Remote : Type.
Variable X : Collaborators Remote.

(** Everything one call of the adapter leaves behind. *)
Lemma getBotResponse_summary (userText : Js.jsstring) (w : World Remote) :
  exists w' reply sends,
    GeminiService.getBotResponse X userText w = (w', Returns reply)
    /\ invoked w'
       = invoked w
         ++ match chatSession w with None => [ChatCreate] | Some _ => [] end
         ++ sends
    /\ (sends = [ChatSend] \/ sends = [ChatSend; ChatSend])
    /\ (GeminiService.toolUsed reply = false \/ sends = [ChatSend; ChatSend])
    /\ GeminiService.replyText reply <> []
    /\ chatSession w'
       = Some match chatSession w with
              | Some s => s
              | None => snd (chatsCreate X (remote w))
              end.
Proof.
  unfold GeminiService.getBotResponse, GeminiService.ensureSession,
    GeminiService.exchange, GeminiService.converse,
    tryCatch, bind, invoke, liftCompletion, ret, throw, emit.
  cbn [remote emitted].
  destruct (chatSession w) as [s |] eqn:Es.
  - crush_calls.
    all: eexists _, _, _; split; [reflexivity |].
    all: split; [unfold invoked; cbn; rewrite !flat_map_app; cbn;
                 rewrite <- ?app_assoc; cbn; reflexivity |].
    all: split; [auto |].
    all: split; [cbn; auto |].
    all: split; [cbn; discriminate | cbn; rewrite ?Es; reflexivity].
  - destruct (chatsCreate X (remote w)) as [r0 s0] eqn:Ec.
    crush_calls.
    all: eexists _, _, _; split; [reflexivity |].
    all: split; [unfold invoked; cbn; rewrite !flat_map_app; cbn;
                 rewrite <- ?app_assoc; cbn; reflexivity |].
    all: split; [auto |].
    all: split; [cbn; auto |].
    all: split; [cbn; discriminate | reflexivity].
Qed.

Lemma reply_nonempty (userText : Js.jsstring) (w w' : World Remote) reply :
  GeminiService.getBotResponse X userText w = (w', Returns reply) ->
  GeminiService.replyText reply <> [].
Proof.
  intro E. destruct (getBotResponse_summary userText w)
    as (w2 & r2 & sends & E2 & _ & _ & _ & Hne & _).
  rewrite E in E2. injection E2 as _ <-. exact Hne.
Qed.

(** X7.  One call of [getBotResponse] sends one message to the engine, or
    two when a tool round follows, and never more; it creates a session
    only when there is none; and it reports [toolUsed] only after the
    follow-up was sent. *)
Theorem getBotResponse_traffic (userText : Js.jsstring) (w : World Remote) :
  exists w' reply sends,
    GeminiService.getBotResponse X userText w = (w', Returns reply)
    /\ invoked w'
       = invoked w
         ++ match chatSession w with None => [ChatCreate] | Some _ => [] end
         ++ sends
    /\ (sends = [ChatSend] \/ sends = [ChatSend; ChatSend])
    /\ (GeminiService.toolUsed reply = false \/ sends = [ChatSend; ChatSend]).
Proof.
  destruct (getBotResponse_summary userText w)
    as (w' & reply & sends & E & Hi & Hs & Ht & _).
  exists w', reply, sends. auto.
Qed.

(** X8.  The reply text of [getBotResponse] is never the empty string,
    whatever the engine answers and however the exchange fails. *)
Theorem reply_text_never_empty (userText : Js.jsstring) (w : World Remote) :
  exists w' reply,
    GeminiService.getBotResponse X userText w = (w', Returns reply)
    /\ GeminiService.replyText reply <> [].
Proof.
  destruct (getBotResponse_summary userText w)
    as (w' & reply & sends & E & _ & _ & _ & Hne & _).
  exists w', reply. auto.
Qed.

(** X9.  The chat session is created once: after any call there is a
    session, and the next call keeps that session and creates none. *)
Theorem session_created_once (first second : Js.jsstring) (w : World Remote) :
  exists w1 reply1 w2 reply2 session sends,
    GeminiService.getBotResponse X first w = (w1, Returns reply1)
    /\ GeminiService.getBotResponse X second w1 = (w2, Returns reply2)
    /\ chatSession w1 = Some session
    /\ chatSession w2 = Some session
    /\ invoked w2 = invoked w1 ++ sends
    /\ ~ In ChatCreate sends.
Proof.
  destruct (getBotResponse_summary first w)
    as (w1 & reply1 & sends1 & E1 & _ & _ & _ & _ & S1).
  destruct (getBotResponse_summary second w1)
    as (w2 & reply2 & sends2 & E2 & I2 & C2 & _ & _ & S2).
  rewrite S1 in S2, I2. cbn [app] in I2.
  eexists w1, reply1, w2, reply2, _, sends2.
  repeat split; eauto.
  destruct C2 as [-> | ->]; cbn; intuition discriminate.
Qed.

(** X10.  [resetChat] forgets the session and touches nothing else of the
    pipeline: the next call of [getBotResponse] creates a session again
    before it sends. *)
Theorem resetChat_starts_over (userText : Js.jsstring) (w : World Remote) :
  exists w0 w' reply sends,
    GeminiService.resetChat w = (w0, Returns tt)
    /\ pipelineView w0 = pipelineView w
    /\ GeminiService.getBotResponse X userText w0 = (w', Returns reply)
    /\ invoked w' = invoked w ++ ChatCreate :: sends
    /\ ~ In ChatCreate sends.
Proof.
  destruct (getBotResponse_summary userText (fst (GeminiService.resetChat w)))
    as (w' & reply & sends & E & I & C & _).
  eexists _, w', reply, sends. split; [reflexivity |]. split; [reflexivity |].
  split; [exact E |]. split; [exact I |].
  destruct C as [-> | ->]; cbn; intuition discriminate.
Qed.

(** X11.  [transcribeAudio] calls the transcription service exactly once.
    It returns the service's text, or the empty string when there is none;
    when the service fails it throws one of its own two errors: the format
    error when the failure's text mentions 400, the generic one
    otherwise. *)
Theorem transcribeAudio_outcomes (base64Audio mimeType : Js.jsstring)
    (w : World Remote) :
  exists w' c,
    GeminiService.transcribeAudio X base64Audio mimeType w = (w', c)
    /\ invoked w' = invoked w ++ [Transcription]
    /\ match snd (sttGenerateContent X base64Audio mimeType (remote w)) with
       | Returns (Some t) => c = Returns t
       | Returns None => c = Returns []
       | Throws e =>
           c = Throws
                 (if Js.includes (GeminiService.exnToString e) (Js.lit "400")
                  then Error "Audio format not supported or file too short."
                  else Error "Failed to process audio. Please try again.")
       end.
Proof.
  unfold GeminiService.transcribeAudio,
    tryCatch, bind, invoke, liftCompletion, ret, throw, emit.
  cbn [remote emitted].
  destruct (sttGenerateContent X base64Audio mimeType (remote w))
    as [r [[[| u t] |] | e]]; cbn [snd];
    try destruct (Js.includes (GeminiService.exnToString e) (Js.lit "400"));
    eexists _, _; (split; [reflexivity |]);
    (split; [unfold invoked; cbn; rewrite ?flat_map_app; cbn;
             rewrite ?app_nil_r; reflexivity | reflexivity]).
Qed.

(** X29.  With a client that takes a message's content from
    [params.message], no tool round ever completes: whenever the engine
    asks for a function call, the follow-up that carries the tool results
    is rejected, or running the calls has thrown before, and
    [getBotResponse] answers with the apology and [toolUsed = false],
    leaving everything the pipeline owns as it was. *)
Theorem tool_round_ends_in_apology (userText : Js.jsstring) (w : World Remote) :
  clientRequiresMessage X ->
  engineRequestsCall X userText ->
  exists w',
    GeminiService.getBotResponse X userText w
    = (w', Returns (GeminiService.mkReply GeminiService.troubleReply false))
    /\ pipelineView w' = pipelineView w.
Proof.
  intros Hclient Hengine.
  destruct (getBotResponse_cases X userText w) as [w1 [s [_ H]]].
  assert (Hthrows : exists w2 e,
            GeminiService.exchange X s userText w1 = (w2, Throws e)).
  { unfold GeminiService.exchange, GeminiService.converse.
    unfold bind at 1 2. unfold invoke at 1. cbn [remote emitted].
    destruct (Hengine s (remote w1)) as [r' [result [call [rest [Hs Hc]]]]].
    rewrite Hs, Hc.
    unfold bind, liftCompletion.
    destruct (GeminiService.toolParts (call :: rest)) as [parts | e];
      [| eauto].
    unfold invoke. cbn [remote emitted withRemote].
    destruct (Hclient s parts r') as [r'' [e Hp]]. rewrite Hp. eauto. }
  destruct Hthrows as [w2 [e Hx]]. rewrite Hx in H.
  eexists. split; [exact H |].
  rewrite <- (getBotResponse_view X userText w), H. reflexivity.
Qed.

End Adapter.

(** The scripted client rejects a bare array of parts. *)
Lemma scripted_client engine speech transcript audio :
  clientRequiresMessage (Scripted.collaborators engine speech transcript audio).
Proof.
  intros session parts r. exists r, (Error "ContentUnion is required").
  reflexivity.
Qed.

(** The engine asks for the account balance: the user hears the apology. *)
Lemma tool_round_ends_in_apology_witness :
  exists w',
    GeminiService.getBotResponse Scripted.askingBalance (Js.lit "Balance?")
      (Scripted.fresh [])
    = (w', Returns (GeminiService.mkReply GeminiService.troubleReply false))
    /\ pipelineView w' = pipelineView (Scripted.fresh []).
Proof.
  apply (@tool_round_ends_in_apology _ Scripted.askingBalance
           (Js.lit "Balance?") (Scripted.fresh [])).
  - apply scripted_client.
  - intros session r. eexists r, _, _, _. split; reflexivity.
Defined.

End ServiceCoverage.

(** ** The turn pipeline beyond the claims *)

Module VoiceBotCoverage.

Import PipelineFacts.

Section Pipeline.

Variable Remote : Type.
Variable X : Collaborators Remote.

(** Step 5 of the turn, with what it does to the error text. *)
Lemma playback_step_full (audioData : option (list N)) (w : World Remote)
    ms st e m t refs h :
  pipelineView w = (ms, st, e, m, t, refs, h) ->
  exists w' tail e' refs',
    match audioData with
    | Some pcmData =>
        bind (VoiceBotView.setStatus playing)
             (fun _ => VoiceBotView.playResponse X pcmData)
    | None => VoiceBotView.setStatus idle
    end w = (w', Returns tt)
    /\ pipelineView w' = (ms, last tail idle, e', m, t, refs', h ++ tail)
    /\ ((tail = [idle] /\ e' = e /\ audioData = None)
        \/ (tail = [playing] /\ e' = e /\ audioData <> None)
        \/ (tail = [playing; idle] /\ e' = Some (Js.lit "AUDIO ERR")
            /\ audioData <> None)).
Proof.
  intro V. destruct audioData as [pcmData |].
  - rewrite bind_setStatus.
    pose proof (view_setStatus playing V) as V1.
    destruct (playResponse_spec X pcmData V1) as [w' [refs' [E [V' | V']]]].
    + exists w', [playing], e, refs'. repeat split; auto.
      right. left. repeat split; discriminate.
    + exists w', [playing; idle], (Some (Js.lit "AUDIO ERR")), refs'.
      rewrite <- app_assoc in V'. repeat split; auto.
      right. right. repeat split; discriminate.
  - eexists _, [idle], e, refs. split; [reflexivity |].
    split; [exact (view_setStatus idle V) | auto].
Qed.

(** The [try] block of a turn, with the error text and the metrics it
    folds. *)
Lemma turn_body_full (userText : Js.jsstring) (sttLatency : Qc) (w : World Remote) :
  exists w1 w2 reply,
    GeminiService.getBotResponse X userText w1 = (w2, Returns reply)
    /\ exists w' tail botId botStamp llmTime ttsTime,
         VoiceBotView.conversationTurnBody X userText sttLatency w
         = (w', Returns tt)
         /\ messages w'
            = messages w
              ++ [ mkMessage (Js.toString (botId + 1)) model
                     (GeminiService.replyText reply) botStamp
                     (Some (GeminiService.toolUsed reply)) ]
         /\ statusHistory w'
            = statusHistory w ++ thinking :: synthesizing :: tail
         /\ status w' = last tail idle
         /\ ((tail = [idle] /\ errorMessage w' = errorMessage w)
             \/ (tail = [playing] /\ errorMessage w' = errorMessage w)
             \/ (tail = [playing; idle]
                 /\ errorMessage w' = Some (Js.lit "AUDIO ERR")))
         /\ timers w' = timers w
         /\ metrics w'
            = App.updateMetrics (metrics w)
                (Partial.mk (Some 1%Qc)
                   (Some (sttLatency + llmTime + ttsTime)%Qc)
                   (Some (if GeminiService.toolUsed reply
                          then 1%Qc else 0%Qc))
                   (Some (mkLatency sttLatency llmTime ttsTime
                            (sttLatency + llmTime + ttsTime)%Qc))).
Proof.
  unfold VoiceBotView.conversationTurnBody.
  rewrite bind_setStatus, bind_observe.
  pose proof (view_setStatus thinking (eq_refl (pipelineView w))) as V0.
  remember (VoiceBotView.withStatus thinking (emitted (StatusSet thinking) w))
    as wa eqn:Ea.
  clear Ea.
  remember (snd (performanceNow X (remote wa))) as llmStart eqn:El. clear El.
  match goal with
  | |- context [bind (GeminiService.getBotResponse X ?t) _ ?w0] =>
      destruct (getBotResponse_total X t w0) as [w5 [reply E5]];
      pose proof (getBotResponse_view X t w0) as V5; rewrite E5 in V5;
      cbn [fst] in V5; rewrite view_withRemote, V0 in V5;
      exists w0, w5, reply; split; [exact E5 |]
  end.
  erewrite bind_Returns by exact E5.
  rewrite bind_observe, bind_setStatus, bind_observe.
  remember (snd (performanceNow X (remote w5))) as llmEnd eqn:El. clear El.
  rewrite <- (view_withRemote (fun _ => fst (performanceNow X (remote w5))))
    in V5.
  pose proof (view_setStatus synthesizing V5) as V6.
  remember (VoiceBotView.withStatus synthesizing _) as wb eqn:Eb. clear Eb.
  remember (snd (performanceNow X (remote wb))) as ttsStart eqn:Et. clear Et.
  match goal with
  | |- context [bind (tryCatch _ _) _ ?w0] =>
      destruct (guarded_speech X (GeminiService.replyText reply) w0)
        as [w7 [audioData [E7 V7]]];
      rewrite view_withRemote, V6 in V7
  end.
  erewrite bind_Returns by exact E7.
  rewrite bind_observe.
  remember (snd (performanceNow X (remote w7))) as ttsEnd eqn:Et. clear Et.
  unfold VoiceBotView.updateMetrics at 1. rewrite bind_modify.
  rewrite <- (view_withRemote (fun _ => fst (performanceNow X (remote w7))))
    in V7.
  match goal with
  | |- context [VoiceBotView.withMetrics ?m' ?w0] =>
      pose proof (view_withMetrics m' V7) as V8;
      remember (VoiceBotView.withMetrics m' w0) as w8 eqn:E8
  end.
  assert (Em : metrics
                 (withRemote (fun _ => fst (performanceNow X (remote w7))) w7)
               = metrics w) by (apply (view_fields V7)).
  rewrite Em in V8. clear E8 Em.
  destruct (playback_step_full audioData V8)
    as [w9 [tail [e9 [refs9 [E9 [V9 Htail]]]]]].
  erewrite bind_Returns by exact E9.
  rewrite !bind_observe.
  unfold VoiceBotView.appendMessage, modify.
  match goal with
  | |- context [VoiceBotView.withMessages ?ms' ?w0] =>
      assert (V10 : pipelineView w0 = pipelineView w9) by reflexivity;
      rewrite V9 in V10;
      pose proof (view_withMessages ms' V10) as V11;
      assert (Hms : messages w0 = messages w) by (apply (view_fields V10))
  end.
  destruct (view_fields V11) as [H1 [H2 [H3 [H4 [H5 H7]]]]].
  eexists _, tail, _, _, (llmEnd - llmStart)%Qc, (ttsEnd - ttsStart)%Qc.
  split; [reflexivity |].
  rewrite H1, H2, H3, H4, H5, H7, Hms, <- !app_assoc.
  repeat split; auto.
  destruct Htail as [[-> [-> _]] | [[-> [-> _]] | [-> [-> _]]]]; auto.
Qed.


(** The whole turn. *)
Lemma turn_full (userText : Js.jsstring) (sttLatency : Qc) (w : World Remote) :
  exists w' tail userId userStamp botId botStamp reply llmTime ttsTime,
    VoiceBotView.processConversationTurn X userText sttLatency w
    = (w', Returns tt)
    /\ messages w'
       = messages w
         ++ [ mkMessage (Js.toString userId) user userText userStamp None;
              mkMessage (Js.toString (botId + 1)) model
                (GeminiService.replyText reply) botStamp
                (Some (GeminiService.toolUsed reply)) ]
    /\ GeminiService.replyText reply <> []
    /\ statusHistory w' = statusHistory w ++ thinking :: synthesizing :: tail
    /\ status w' = last tail idle
    /\ ((tail = [idle] /\ errorMessage w' = errorMessage w)
        \/ (tail = [playing] /\ errorMessage w' = errorMessage w)
        \/ (tail = [playing; idle]
            /\ errorMessage w' = Some (Js.lit "AUDIO ERR")))
    /\ timers w' = timers w
    /\ metrics w'
       = App.updateMetrics (metrics w)
           (Partial.mk (Some 1%Qc)
              (Some (sttLatency + llmTime + ttsTime)%Qc)
              (Some (if GeminiService.toolUsed reply then 1%Qc else 0%Qc))
              (Some (mkLatency sttLatency llmTime ttsTime
                       (sttLatency + llmTime + ttsTime)%Qc))).
Proof.
  unfold VoiceBotView.processConversationTurn.
  rewrite !bind_observe.
  unfold VoiceBotView.appendMessage at 1. rewrite bind_modify.
  match goal with
  | |- context [tryCatch _ _ (VoiceBotView.withMessages ?ms' ?w0)] =>
      assert (V0 : pipelineView w0 = pipelineView w) by reflexivity;
      pose proof (view_withMessages ms' V0) as V1;
      assert (Hms : messages w0 = messages w) by reflexivity;
      destruct (turn_body_full userText sttLatency
                  (VoiceBotView.withMessages ms' w0))
        as (w1 & w2 & reply & Ebot & w' & tail & bid & bst & llmT & ttsT
            & Ebody & Hm & Hh & Hst & Htail & Ht & Hmet)
  end.
  destruct (view_fields V1) as [F1 [_ [F3 [F4 [F5 F7]]]]].
  eexists w', tail, _, _, bid, bst, reply, llmT, ttsT. split.
  - apply tryCatch_Returns. exact Ebody.
  - rewrite Hm, Hh, Hst, Ht, Hmet, F1, F4, F5, F7, Hms, <- app_assoc.
    cbn [app]. repeat split; auto.
    eapply ServiceCoverage.reply_nonempty. exact Ebot.
Qed.


Local Open Scope Qc_scope.

(** X12.  Every turn completes, whatever the collaborators do: the user's
    message and then exactly one assistant message with a non-empty text
    are appended, the status passes through thinking and synthesizing and
    ends at playing or idle, never at error, no recovery timer is armed,
    and the error text is left alone unless playback failed. *)
Theorem turn_always_completes
    (userText : Js.jsstring) (sttLatency : Qc) (w : World Remote) :
  exists w' tail userMsg botMsg,
    VoiceBotView.processConversationTurn X userText sttLatency w
    = (w', Returns tt)
    /\ messages w' = messages w ++ [userMsg; botMsg]
    /\ (role userMsg = user /\ text userMsg = userText
        /\ isToolUse userMsg = None)
    /\ (role botMsg = model /\ text botMsg <> [])
    /\ statusHistory w' = statusHistory w ++ thinking :: synthesizing :: tail
    /\ ~ In error (thinking :: synthesizing :: tail)
    /\ status w' = last tail idle
    /\ (status w' = idle \/ status w' = playing)
    /\ timers w' = timers w
    /\ (errorMessage w' = errorMessage w
        \/ (errorMessage w' = Some (Js.lit "AUDIO ERR") /\ status w' = idle)).
Proof.
  destruct (turn_full userText sttLatency w)
    as (w' & tail & uid & ust & bid & bst & reply & llmT & ttsT
        & E & Hm & Hne & Hh & Hst & Htail & Ht & _).
  eexists w', tail, _, _. split; [exact E |].
  split; [exact Hm |]. cbn [role text isToolUse].
  repeat split; auto.
  - destruct Htail as [[-> _] | [[-> _] | [-> _]]]; cbn; intuition discriminate.
  - rewrite Hst. destruct Htail as [[-> _] | [[-> _] | [-> _]]]; cbn; auto.
  - rewrite Hst. destruct Htail as [[-> He] | [[-> He] | [-> He]]]; cbn; auto.
Qed.


Lemma transcribeAudio_view (b m : Js.jsstring) (w : World Remote) :
  pipelineView (fst (GeminiService.transcribeAudio X b m w)) = pipelineView w.
Proof.
  unfold GeminiService.transcribeAudio,
    tryCatch, bind, invoke, liftCompletion, ret, throw, emit.
  crush_calls; view_refl.
Qed.

Lemma bind_invoke {A B} (s : Service) (f : Remote -> Remote * completion A)
    (k : A -> M Remote B) (w : World Remote) :
  bind (invoke s f) k w
  = match f (remote w) with
    | (r, Returns a) => k a (withRemote (fun _ => r) (emitted (Invoke s) w))
    | (r, Throws e) => (withRemote (fun _ => r) (emitted (Invoke s) w), Throws e)
    end.
Proof.
  unfold bind, invoke. cbn [remote emitted].
  destruct (f (remote w)) as [r [a | e]]; reflexivity.
Qed.

(** The [try] block of [processAudioInput] for a recording long enough,
    by what the collaborators answer. *)
Lemma audioInputBody_run (w : World Remote) :
  (blobSize (VoiceBotView.recordedBlob (chunksRef w)) <? 100)%N = false ->
  let blob := VoiceBotView.recordedBlob (chunksRef w) in
  match blobToBase64 X blob (remote w) with
  | (r1, Throws e) =>
      VoiceBotView.audioInputBody X w
      = (withRemote (fun _ => r1) (emitted (Invoke Base64) w), Throws e)
  | (r1, Returns base64) =>
      let w1 :=
        withRemote (fun _ => fst (performanceNow X r1))
          (VoiceBotView.withStatus transcribing
             (emitted (StatusSet transcribing)
                (withRemote (fun _ => r1) (emitted (Invoke Base64) w)))) in
      match GeminiService.transcribeAudio X base64 (mimeOf blob) w1 with
      | (w2, Throws _) =>
          VoiceBotView.audioInputBody X w = (w2, Throws (Error "STT FAILED"))
      | (w2, Returns transcript) =>
          let w3 :=
            withRemote (fun _ => fst (performanceNow X (remote w2))) w2 in
          VoiceBotView.audioInputBody X w
          = if Js.falsy (Js.trim transcript)
               || Js.eqb transcript (Js.lit "...")
            then (VoiceBotView.withError (Some (Js.lit "NO SPEECH"))
                    (VoiceBotView.withStatus idle
                       (emitted (StatusSet idle) w3)),
                  Returns tt)
            else VoiceBotView.processConversationTurn X transcript
                   (snd (performanceNow X (remote w2))
                    - snd (performanceNow X r1))%Qc w3
      end
  end.
Proof.
  intros Hbig. cbv zeta. unfold VoiceBotView.audioInputBody.
  rewrite bind_read. cbv zeta. rewrite Hbig. rewrite bind_invoke.
  destruct (blobToBase64 X (VoiceBotView.recordedBlob (chunksRef w))
              (remote w)) as [r1 [base64 | e]];
    [| reflexivity].
  rewrite bind_setStatus, bind_observe. cbn [remote withRemote VoiceBotView.withStatus emitted].
  fold (mimeOf (VoiceBotView.recordedBlob (chunksRef w))).
  match goal with
  | |- match ?T with _ => _ end =>
      destruct T as [w2 [transcript | e]] eqn:ET
  end.
  - erewrite bind_Returns; [| apply tryCatch_Returns; exact ET].
    rewrite bind_observe.
    destruct (Js.falsy (Js.trim transcript) || Js.eqb transcript (Js.lit "..."));
      reflexivity.
  - erewrite bind_Throws; [reflexivity |].
    erewrite tryCatch_Throws by exact ET. reflexivity.
Qed.


Lemma processAudioInput_run (captured : LoadingState) (w : World Remote) :
  exists w0,
    VoiceBotView.processAudioInput X captured w
    = tryCatch (VoiceBotView.audioInputBody X)
        (fun _ =>
           bind (emit (ConsoleError (Js.lit "Audio processing error:")))
             (fun _ =>
                bind (VoiceBotView.setError (Some (Js.lit "SYSTEM ERR")))
                  (fun _ =>
                     bind (VoiceBotView.setStatus error)
                       (fun _ =>
                          VoiceBotView.setTimeout
                            (SetIdleUnlessRecording 4000 captured)))))
        w0
    /\ pipelineView w0 = pipelineView w
    /\ chunksRef w0 = chunksRef w
    /\ invoked w0 = invoked w ++ released w.
Proof.
  unfold VoiceBotView.processAudioInput, released. rewrite bind_read.
  destruct (streamRef w) as [s |].
  - eexists. split; [reflexivity |]. repeat split.
    + view_refl.
    + unfold invoked. cbn. rewrite flat_map_app. reflexivity.
  - exists w. split; [reflexivity |]. repeat split. rewrite app_nil_r. reflexivity.
Qed.

Lemma transcribeAudio_gives (t : option Js.jsstring) (b m : Js.jsstring)
    (w : World Remote) :
  transcriptionGives X t ->
  exists w',
    GeminiService.transcribeAudio X b m w
    = (w', Returns match t with Some s => s | None => [] end)
    /\ pipelineView w' = pipelineView w
    /\ invoked w' = invoked w ++ [Transcription].
Proof.
  intro H. destruct (H b m (remote w)) as [r' E].
  unfold GeminiService.transcribeAudio, tryCatch, bind, invoke, ret.
  cbn [remote emitted]. rewrite E.
  destruct t as [[| c s] |]; (eexists; split; [reflexivity |]; split;
    [view_refl | unfold invoked; cbn; rewrite flat_map_app; reflexivity]).
Qed.

Lemma transcribeAudio_fails (b m : Js.jsstring) (w : World Remote) :
  transcriptionFails X ->
  exists w' e,
    GeminiService.transcribeAudio X b m w = (w', Throws e)
    /\ pipelineView w' = pipelineView w.
Proof.
  intro H. destruct (H b m (remote w)) as [r' [e E]].
  unfold GeminiService.transcribeAudio, tryCatch, bind, invoke, ret, emit, throw.
  cbn [remote emitted]. rewrite E.
  destruct (Js.includes (GeminiService.exnToString e) (Js.lit "400"));
    eexists _, _; (split; [reflexivity | view_refl]).
Qed.

Lemma noSpeech_test (t : option Js.jsstring) :
  noSpeech t ->
  Js.falsy (Js.trim match t with Some s => s | None => [] end)
  || Js.eqb match t with Some s => s | None => [] end (Js.lit "...") = true.
Proof.
  destruct t as [s |]; cbn [noSpeech]; [| reflexivity].
  intros [H | ->].
  - rewrite JsFacts.falsy_trim, H. reflexivity.
  - apply orb_true_r.
Qed.

(** X14.  When the recording is long enough, the base64 helper answers and
    the transcription holds no speech (no text, blank text or the marker
    of three dots), [processAudioInput] ends at idle with NO SPEECH: the
    transcript, the analytics and the timers are untouched, and beyond the
    released stream only the base64 helper and the transcription service
    are called, so neither the engine nor the speech synthesis is. *)
Theorem no_speech_detected
    (captured : LoadingState) (w : World Remote) (t : option Js.jsstring) :
  (100 <= blobSize (VoiceBotView.recordedBlob (chunksRef w)))%N ->
  base64Works X ->
  transcriptionGives X t ->
  noSpeech t ->
  exists w',
    VoiceBotView.processAudioInput X captured w = (w', Returns tt)
    /\ status w' = idle
    /\ errorMessage w' = Some (Js.lit "NO SPEECH")
    /\ messages w' = messages w
    /\ metrics w' = metrics w
    /\ timers w' = timers w
    /\ invoked w' = invoked w ++ released w ++ [Base64; Transcription].
Proof.
  intros Hbig Hb Ht Hn. apply N.ltb_ge in Hbig.
  destruct (processAudioInput_run captured w) as (w0 & -> & V0 & Hc & Hi).
  rewrite <- Hc in Hbig.
  pose proof (audioInputBody_run w0 Hbig) as R. cbv zeta in R.
  destruct (Hb (VoiceBotView.recordedBlob (chunksRef w0)) (remote w0))
    as (r1 & base64 & E1).
  rewrite E1 in R.
  match type of R with
  | context [GeminiService.transcribeAudio X ?b ?m ?w1] =>
      destruct (transcribeAudio_gives b m w1 Ht) as (w2 & E2 & V2 & I2)
  end.
  rewrite E2 in R. rewrite (noSpeech_test _ Hn) in R.
  eexists. split; [apply tryCatch_Returns; exact R |].
  rewrite view_withRemote in V2.
  pose proof (view_setStatus transcribing
                (eq_refl (pipelineView (withRemote (fun _ => r1)
                                          (emitted (Invoke Base64) w0))))) as V1.
  rewrite V1 in V2. destruct (view_fields V2) as (F1 & _ & _ & F4 & F5 & _).
  cbn [status errorMessage messages metrics timers
       VoiceBotView.withError VoiceBotView.withStatus emitted withRemote].
  rewrite F1, F4, F5.
  assert (M0 : messages w0 = messages w /\ metrics w0 = metrics w
               /\ timers w0 = timers w).
  { unfold pipelineView in V0. inversion V0. repeat split. }
  cbn [messages metrics timers withRemote emitted].
  destruct M0 as (-> & -> & ->).
  repeat split.
  unfold invoked in *. cbn [trace VoiceBotView.withError VoiceBotView.withStatus emitted withRemote] in *.
  rewrite flat_map_app. cbn. rewrite app_nil_r, I2. cbn.
  rewrite !flat_map_app. cbn. rewrite app_nil_r, Hi, <- !app_assoc. reflexivity.
Qed.


(** What the [catch] block of [processAudioInput] leaves. *)
Lemma audio_failure_handled (captured : LoadingState) (w : World Remote) :
  exists w',
    bind (emit (ConsoleError (Js.lit "Audio processing error:")))
      (fun _ =>
         bind (VoiceBotView.setError (Some (Js.lit "SYSTEM ERR")))
           (fun _ =>
              bind (VoiceBotView.setStatus error)
                (fun _ =>
                   VoiceBotView.setTimeout
                     (SetIdleUnlessRecording 4000 captured)))) w
    = (w', Returns tt)
    /\ status w' = error
    /\ errorMessage w' = Some (Js.lit "SYSTEM ERR")
    /\ messages w' = messages w
    /\ metrics w' = metrics w
    /\ timers w' = timers w ++ [SetIdleUnlessRecording 4000 captured].
Proof.
  eexists. split; [reflexivity |]. repeat split.
Qed.

(** X15.  When the transcription service fails, [processAudioInput] ends in
    the error state with SYSTEM ERR, appends nothing, folds nothing and
    arms one recovery timer of 4000 ms.  When that timer fires the status
    returns to idle, unless the status captured when the recording was
    started was recording, in which case it stays at error. *)
Theorem transcription_failure_recovers
    (captured : LoadingState) (w : World Remote) :
  (100 <= blobSize (VoiceBotView.recordedBlob (chunksRef w)))%N ->
  base64Works X ->
  transcriptionFails X ->
  exists w',
    VoiceBotView.processAudioInput X captured w = (w', Returns tt)
    /\ status w' = error
    /\ errorMessage w' = Some (Js.lit "SYSTEM ERR")
    /\ messages w' = messages w
    /\ metrics w' = metrics w
    /\ timers w' = timers w ++ [SetIdleUnlessRecording 4000 captured]
    /\ status (fst (VoiceBotView.fire
                      (SetIdleUnlessRecording 4000 captured) w'))
       = match captured with recording => error | _ => idle end.
Proof.
  intros Hbig Hb Hf. apply N.ltb_ge in Hbig.
  destruct (processAudioInput_run captured w) as (w0 & -> & V0 & Hc & Hi).
  rewrite <- Hc in Hbig.
  pose proof (audioInputBody_run w0 Hbig) as R. cbv zeta in R.
  destruct (Hb (VoiceBotView.recordedBlob (chunksRef w0)) (remote w0))
    as (r1 & base64 & E1).
  rewrite E1 in R.
  match type of R with
  | context [GeminiService.transcribeAudio X ?b ?m ?w1] =>
      destruct (transcribeAudio_fails b m w1 Hf) as (w2 & e & E2 & V2)
  end.
  rewrite E2 in R.
  erewrite tryCatch_Throws by exact R.
  destruct (audio_failure_handled captured w2)
    as (w' & E & Hs & He & Hm & Hme & Ht).
  exists w'. split; [exact E |].
  rewrite view_withRemote in V2.
  pose proof (view_setStatus transcribing
                (eq_refl (pipelineView (withRemote (fun _ => r1)
                                          (emitted (Invoke Base64) w0))))) as V1.
  rewrite V1 in V2. destruct (view_fields V2) as (F1 & _ & _ & F4 & F5 & _).
  assert (M0 : messages w0 = messages w /\ metrics w0 = metrics w
               /\ timers w0 = timers w).
  { unfold pipelineView in V0. inversion V0. repeat split. }
  destruct M0 as (M1 & M2 & M3).
  rewrite Hs, He, Hm, Hme, Ht, F1, F4, F5.
  cbn [messages metrics timers withRemote emitted].
  rewrite M1, M2, M3. repeat split.
  unfold VoiceBotView.fire.
  destruct captured; cbn; try exact Hs; reflexivity.
Qed.

(** X16.  [processAudioInput] never throws.  It leaves the transcript as
    it was or appends exactly a user message followed by an assistant
    message; and it either leaves the timers alone or, having failed, arms
    one recovery timer with the status at error, SYSTEM ERR shown and the
    transcript unchanged. *)
Theorem processAudioInput_never_throws
    (captured : LoadingState) (w : World Remote) :
  exists w',
    VoiceBotView.processAudioInput X captured w = (w', Returns tt)
    /\ (messages w' = messages w
        \/ exists userMsg botMsg,
             messages w' = messages w ++ [userMsg; botMsg]
             /\ role userMsg = user /\ role botMsg = model)
    /\ (timers w' = timers w
        \/ (timers w' = timers w ++ [SetIdleUnlessRecording 4000 captured]
            /\ status w' = error
            /\ errorMessage w' = Some (Js.lit "SYSTEM ERR")
            /\ messages w' = messages w)).
Proof.
  destruct (processAudioInput_run captured w) as (w0 & -> & V0 & Hc & Hi).
  assert (M0 : messages w0 = messages w /\ timers w0 = timers w).
  { unfold pipelineView in V0. inversion V0. split; reflexivity. }
  destruct M0 as (M1 & M3).
  destruct (blobSize (VoiceBotView.recordedBlob (chunksRef w0)) <? 100)%N
    eqn:Hsize.
  - unfold tryCatch, VoiceBotView.audioInputBody. rewrite bind_read.
    cbv zeta. rewrite Hsize.
    eexists. split; [reflexivity |]. cbn [messages timers VoiceBotView.withStatus VoiceBotView.withError emitted].
    split; left; assumption.
  - pose proof (audioInputBody_run w0 Hsize) as R. cbv zeta in R.
    destruct (blobToBase64 X (VoiceBotView.recordedBlob (chunksRef w0))
                (remote w0)) as [r1 [base64 | e]].
    + match type of R with
      | context [GeminiService.transcribeAudio X ?b ?m ?w1] =>
          pose proof (transcribeAudio_view b m w1) as V2;
          destruct (GeminiService.transcribeAudio X b m w1)
            as [w2 [transcript | e]]
      end; cbn [fst] in V2; rewrite view_withRemote in V2;
      pose proof (view_setStatus transcribing
                    (eq_refl (pipelineView (withRemote (fun _ => r1)
                                (emitted (Invoke Base64) w0))))) as V1;
      rewrite V1 in V2; destruct (view_fields V2) as (F1 & _ & _ & _ & F5 & _);
      cbn [messages timers withRemote emitted] in F1, F5.
      * destruct (Js.falsy (Js.trim transcript)
                  || Js.eqb transcript (Js.lit "...")).
        -- eexists. split; [apply tryCatch_Returns; exact R |].
           cbn [messages timers VoiceBotView.withStatus
                  VoiceBotView.withError emitted withRemote].
           rewrite F1, F5, M1, M3. split; left; reflexivity.
        -- match type of R with
           | _ = VoiceBotView.processConversationTurn X ?t ?l ?w3 =>
               destruct (turn_full t l w3)
                 as (w' & tail & uid & ust & bid & bst & reply & llmT & ttsT
                     & E & Hm & _ & _ & _ & _ & Ht & _)
           end.
           rewrite E in R.
           exists w'. split; [apply tryCatch_Returns; exact R |].
           rewrite Hm, Ht.
           cbn [messages timers withRemote]. rewrite F1, F5, M1, M3.
           split; [right | left; reflexivity].
           eexists _, _. repeat split.
      * erewrite tryCatch_Throws by exact R.
        destruct (audio_failure_handled captured w2)
          as (w' & E & Hs & He & Hm & _ & Ht).
        exists w'. split; [exact E |].
        rewrite Hs, He, Hm, Ht, F1, F5, M1, M3.
        split; [left; reflexivity | right; repeat split].
    + erewrite tryCatch_Throws by exact R.
      match goal with
      | |- context [_ ?w2 = (_, Returns tt)] =>
          destruct (audio_failure_handled captured w2)
            as (w' & E & Hs & He & Hm & _ & Ht)
      end.
      exists w'. split; [exact E |].
      rewrite Hs, He, Hm, Ht.
      cbn [messages timers withRemote emitted]. rewrite M1, M3.
      split; [left; reflexivity | right; repeat split].
Qed.


(** X17.  [startRecording] never throws.  Either the recording runs:
    status recording, error text cleared, no chunks yet, stream and
    recorder kept; or it did not start: the status is what it was and the
    error text is one of PERM DENIED, NO MIC FOUND and MIC ERROR.  The
    transcript and the timers are untouched either way. *)
Theorem startRecording_outcomes (w : World Remote) :
  exists w',
    VoiceBotView.startRecording X w = (w', Returns tt)
    /\ messages w' = messages w
    /\ timers w' = timers w
    /\ ((status w' = recording /\ errorMessage w' = None
         /\ chunksRef w' = []
         /\ streamRef w' <> None /\ mediaRecorderRef w' <> None)
        \/ (status w' = status w
            /\ exists code,
                 errorMessage w' = Some code
                 /\ In code [ Js.lit "PERM DENIED"; Js.lit "NO MIC FOUND";
                              Js.lit "MIC ERROR" ])).
Proof.
  unfold_view. crush_calls.
  all: eexists; split; [reflexivity |]; split; [reflexivity |];
       split; [reflexivity |].
  all: first
    [ left; repeat split; discriminate
    | right; split; [reflexivity |]; eexists; split; [reflexivity |];
      cbn [In]; auto 6 ].
Qed.

(** X18.  When the microphone cannot be opened, [startRecording] keeps the
    status, the stream and the recorder as they were and classifies the
    failure by the error's name: NotAllowedError and PermissionDeniedError
    give PERM DENIED, NotFoundError gives NO MIC FOUND, anything else
    MIC ERROR. *)
Theorem microphone_refusal_classified (w : World Remote) (e : exn) :
  microphoneRefuses X e ->
  exists w',
    VoiceBotView.startRecording X w = (w', Returns tt)
    /\ status w' = status w
    /\ streamRef w' = streamRef w
    /\ mediaRecorderRef w' = mediaRecorderRef w
    /\ errorMessage w'
       = Some (if Js.eqb (name e) (Js.lit "NotAllowedError")
                  || Js.eqb (name e) (Js.lit "PermissionDeniedError")
               then Js.lit "PERM DENIED"
               else if Js.eqb (name e) (Js.lit "NotFoundError")
               then Js.lit "NO MIC FOUND"
               else Js.lit "MIC ERROR").
Proof.
  intro H. unfold_view. cbn [remote emitted].
  destruct (currentSourceRef w) as [s |].
  - destruct (sourceStop X s (remote w)) as [r [u | e0]];
      cbn [remote emitted withRemote VoiceBotView.withError];
      match goal with
      | |- context [getUserMedia X ?r0] =>
          destruct (H r0) as [r' E]; rewrite E
      end;
      destruct (Js.eqb (name e) (Js.lit "NotAllowedError")
                || Js.eqb (name e) (Js.lit "PermissionDeniedError"));
      try destruct (Js.eqb (name e) (Js.lit "NotFoundError"));
      eexists; repeat split.
  - cbn [remote emitted withRemote VoiceBotView.withError].
    destruct (H (remote w)) as [r' E]. rewrite E.
    destruct (Js.eqb (name e) (Js.lit "NotAllowedError")
              || Js.eqb (name e) (Js.lit "PermissionDeniedError"));
      try destruct (Js.eqb (name e) (Js.lit "NotFoundError"));
      eexists; repeat split.
Qed.

(** X19.  [stopRecording] does nothing unless the status is recording and
    there is a recorder: otherwise the world is unchanged and the recorder
    is not asked to stop. *)
Theorem stopRecording_only_while_recording (w : World Remote) :
  status w <> recording \/ mediaRecorderRef w = None ->
  VoiceBotView.stopRecording X w = (w, Returns tt).
Proof.
  intro H. unfold VoiceBotView.stopRecording. rewrite !bind_read.
  destruct (mediaRecorderRef w) as [r |]; [| reflexivity].
  destruct H as [H | H]; [| discriminate H].
  destruct (status w); try reflexivity. contradiction.
Qed.

(** X20.  [playResponse] never throws and keeps an audio context that
    already exists.  Either the source was started, as the last thing it
    did: status and error text are as before and the current source is
    set; or something failed: the status is idle and the error text is
    AUDIO ERR.  The transcript is untouched. *)
Theorem playResponse_outcomes (pcmData : list N) (w : World Remote) :
  exists w',
    VoiceBotView.playResponse X pcmData w = (w', Returns tt)
    /\ messages w' = messages w
    /\ match audioContextRef w with
       | Some ctx => audioContextRef w' = Some ctx
       | None => True
       end
    /\ ((status w' = status w /\ errorMessage w' = errorMessage w
         /\ currentSourceRef w' <> None
         /\ exists before, invoked w' = before ++ [SourceStart])
        \/ (status w' = idle
            /\ errorMessage w' = Some (Js.lit "AUDIO ERR"))).
Proof.
  unfold_view. crush_calls.
  all: eexists; split; [reflexivity |]; split; [reflexivity |].
  all: split; [cbn; first [exact I | assumption | reflexivity] |].
  all: first
    [ right; split; reflexivity
    | left; split; [reflexivity |]; split; [reflexivity |];
      split; [discriminate |];
      unfold invoked; cbn; rewrite !flat_map_app; cbn; eexists; reflexivity ].
Qed.

End Pipeline.

Section Chunks.

Variable Remote : Type.

(** X21.  The recorder's chunks accumulate: after any sequence of data
    events the stored chunks are the earlier ones followed by the
    delivered ones that are not empty, in order; the blob built from them
    has as many bytes as the earlier chunks and everything delivered
    together; nothing else of the pipeline changes. *)
Theorem recorded_size_is_total (datas : list Blob) (w : World Remote) :
  chunksRef (dataEvents datas w)
  = chunksRef w ++ filter (fun d => (0 <? blobSize d)%N) datas
  /\ blobSize (VoiceBotView.recordedBlob (chunksRef (dataEvents datas w)))
     = (blobSize (VoiceBotView.recordedBlob (chunksRef w))
        + totalSize datas)%N
  /\ pipelineView (dataEvents datas w) = pipelineView w.
Proof.
  revert w. induction datas as [| d datas IH]; intro w.
  - cbn. rewrite N.add_0_r, app_nil_r. auto.
  - cbn [dataEvents fold_left totalSize map fold_right filter].
    fold (dataEvents datas (fst (VoiceBotView.ondataavailable d w))).
    destruct (IH (fst (VoiceBotView.ondataavailable d w))) as (I0 & I1 & I3).
    fold (totalSize datas).
    unfold VoiceBotView.ondataavailable in *.
    destruct (0 <? blobSize d)%N eqn:Hd.
    + cbn [fst modify chunksRef VoiceBotView.withChunks] in *.
      rewrite I1, I3, I0, <- app_assoc. repeat split.
      unfold blobSize, VoiceBotView.recordedBlob. cbn [blobBytes].
      rewrite map_app, concat_app, length_app. cbn. rewrite app_nil_r. lia.
    + cbn [fst ret] in *. rewrite I1, I3, I0.
      apply N.ltb_ge in Hd. assert (blobSize d = 0%N) by lia.
      repeat split. lia.
Qed.

End Chunks.

(** *** Concrete runs *)

Lemma scripted_base64 engine speech transcript audio :
  base64Works (Scripted.collaborators engine speech transcript audio).
Proof. intros blob r. eexists _, _. reflexivity. Qed.

Lemma scripted_transcription engine speech t audio :
  transcriptionGives
    (Scripted.collaborators engine speech (Returns t) audio) t.
Proof. intros b m r. eexists. reflexivity. Qed.

Lemma scripted_transcription_fails engine speech e audio :
  transcriptionFails (Scripted.collaborators engine speech (Throws e) audio).
Proof. intros b m r. eexists _, _. reflexivity. Qed.

Lemma noMic_refuses :
  microphoneRefuses Scripted.noMic (mkExn (Js.lit "NotFoundError") []).
Proof. intro r. eexists. reflexivity. Qed.

(** A recording of 200 bytes that transcribes to three dots. *)
Lemma no_speech_detected_witness :
  exists w',
    VoiceBotView.processAudioInput Scripted.silence idle (Scripted.recorded 200)
    = (w', Returns tt)
    /\ status w' = idle
    /\ errorMessage w' = Some (Js.lit "NO SPEECH")
    /\ messages w' = messages (Scripted.recorded 200)
    /\ metrics w' = metrics (Scripted.recorded 200)
    /\ timers w' = timers (Scripted.recorded 200)
    /\ invoked w'
       = invoked (Scripted.recorded 200) ++ released (Scripted.recorded 200)
         ++ [Base64; Transcription].
Proof.
  apply (@no_speech_detected _ Scripted.silence idle (Scripted.recorded 200)
           (Some (Js.lit "..."))).
  - vm_compute. discriminate.
  - apply scripted_base64.
  - apply scripted_transcription.
  - right. reflexivity.
Defined.

(** A recording of 200 bytes with the transcription service down. *)
Lemma transcription_failure_recovers_witness :
  exists w',
    VoiceBotView.processAudioInput Scripted.deaf idle (Scripted.recorded 200)
    = (w', Returns tt)
    /\ status w' = error
    /\ errorMessage w' = Some (Js.lit "SYSTEM ERR")
    /\ messages w' = messages (Scripted.recorded 200)
    /\ metrics w' = metrics (Scripted.recorded 200)
    /\ timers w'
       = timers (Scripted.recorded 200) ++ [SetIdleUnlessRecording 4000 idle]
    /\ status (fst (VoiceBotView.fire (SetIdleUnlessRecording 4000 idle) w'))
       = idle.
Proof.
  apply (@transcription_failure_recovers _ Scripted.deaf idle
           (Scripted.recorded 200)).
  - vm_compute. discriminate.
  - apply scripted_base64.
  - apply scripted_transcription_fails.
Defined.

(** Without a microphone the error shown is NO MIC FOUND. *)
Lemma microphone_refusal_classified_witness :
  exists w',
    VoiceBotView.startRecording Scripted.noMic (Scripted.fresh [])
    = (w', Returns tt)
    /\ status w' = idle
    /\ streamRef w' = None
    /\ mediaRecorderRef w' = None
    /\ errorMessage w' = Some (Js.lit "NO MIC FOUND").
Proof.
  apply (@microphone_refusal_classified _ Scripted.noMic (Scripted.fresh [])
           (mkExn (Js.lit "NotFoundError") [])).
  apply noMic_refuses.
Defined.

(** Stopping while idle changes nothing. *)
Lemma stopRecording_only_while_recording_witness :
  VoiceBotView.stopRecording Scripted.textOnly (Scripted.fresh [])
  = (Scripted.fresh [], Returns tt).
Proof.
  apply (@stopRecording_only_while_recording _ Scripted.textOnly
           (Scripted.fresh [])).
  left. simpl. discriminate.
Defined.

End VoiceBotCoverage.

(** ** The transcription tool and the speech tool *)

Module ToolViewFacts.

Import PipelineFacts.

Section Views.

Variable Remote : Type.
Variable X : Collaborators Remote.

(** X22.  [handleStop] of the transcription tool never throws and always
    ends with [isProcessing] false and [isRecording] as it was.  Exactly
    one of three things has happened, decided by the recording and by the
    transcription attempt.  A recording of at least 100 bytes whose attempt
    returns a non-empty text: that text is stored and the error text is
    left alone.  Such a recording whose attempt returns the empty text: the
    error text is "No speech detected.".  A shorter recording, for which
    nothing is attempted, or an attempt that throws: the error text is
    "Transcription failed.".  In the last two cases the stored
    transcription is what it was. *)
Theorem handleStop_outcomes (s : TranscribeView.State) (w : World Remote) :
  exists s' w',
    TranscribeView.handleStop X (s, w) = ((s', w'), Returns tt)
    /\ TranscribeView.isProcessing s' = false
    /\ TranscribeView.isRecording s' = TranscribeView.isRecording s
    /\ if (blobSize (VoiceBotView.recordedBlob (TranscribeView.chunksRef s))
           <? 100)%N
       then
         w' = streamReleased X s w
         /\ TranscribeView.error s' = Some (Js.lit "Transcription failed.")
         /\ TranscribeView.transcription s' = TranscribeView.transcription s
       else
         match
           transcriptionAttempt X
             (VoiceBotView.recordedBlob (TranscribeView.chunksRef s))
             (streamReleased X s w)
         with
         | (w1, Returns []) =>
             w' = w1
             /\ TranscribeView.error s' = Some (Js.lit "No speech detected.")
             /\ TranscribeView.transcription s'
                = TranscribeView.transcription s
         | (w1, Returns result) =>
             w' = w1
             /\ TranscribeView.transcription s' = Some result
             /\ TranscribeView.error s' = TranscribeView.error s
         | (w1, Throws _) =>
             w' = w1
             /\ TranscribeView.error s' = Some (Js.lit "Transcription failed.")
             /\ TranscribeView.transcription s'
                = TranscribeView.transcription s
         end.
Proof.
  unfold TranscribeView.handleStop, transcriptionAttempt, streamReleased,
    mimeOf.
  unfold_comp. cbn [fst snd].
  cbn [TranscribeView.streamRef TranscribeView.chunksRef
       TranscribeView.withIsProcessing].
  destruct (TranscribeView.streamRef s) as [h |];
    cbn [fst snd TranscribeView.chunksRef TranscribeView.withIsProcessing];
    set (blob := VoiceBotView.recordedBlob (TranscribeView.chunksRef s));
    destruct (blobSize blob <? 100)%N; cbn [fst snd remote emitted withRemote].
  all: crush_comp.
  all: try match goal with
           | H : Js.falsy [] = false |- _ => discriminate H
           | H : Js.falsy (_ :: _) = true |- _ => discriminate H
           end.
  all: eexists _, _; split; [reflexivity |]; cbn; repeat split.
Qed.

(** X23.  In the transcription tool a recording shorter than 100 bytes
    ends as "Transcription failed.": the stored transcription is kept,
    [isProcessing] is false again, and beyond the released stream no
    collaborator is called. *)
Theorem handleStop_short_audio (s : TranscribeView.State) (w : World Remote) :
  (blobSize (VoiceBotView.recordedBlob (TranscribeView.chunksRef s)) < 100)%N ->
  exists s' w',
    TranscribeView.handleStop X (s, w) = ((s', w'), Returns tt)
    /\ TranscribeView.error s' = Some (Js.lit "Transcription failed.")
    /\ TranscribeView.transcription s' = TranscribeView.transcription s
    /\ TranscribeView.isProcessing s' = false
    /\ invoked w'
       = invoked w
         ++ match TranscribeView.streamRef s with
            | Some _ => [Tracks]
            | None => []
            end.
Proof.
  intro Hsmall. apply N.ltb_lt in Hsmall.
  unfold TranscribeView.handleStop. unfold_comp. cbn [fst snd].
  cbn [TranscribeView.streamRef TranscribeView.withIsProcessing].
  destruct (TranscribeView.streamRef s) as [h |];
    cbn [fst snd TranscribeView.chunksRef TranscribeView.withIsProcessing];
    rewrite Hsmall; cbn;
    eexists _, _; (split; [reflexivity |]); repeat split;
    unfold invoked; cbn; rewrite ?flat_map_app, ?app_nil_r; reflexivity.
Qed.

(** X24.  [startRecording] of the transcription tool never throws and
    always clears the stored transcription.  Either the recording runs:
    [isRecording] true, no error text, no chunks yet, stream and recorder
    kept; or anything failed: [isRecording] is what it was and the error
    text is MIC ERROR. *)
Theorem transcribe_startRecording_outcomes
    (s : TranscribeView.State) (w : World Remote) :
  exists s' w',
    TranscribeView.startRecording X (s, w) = ((s', w'), Returns tt)
    /\ TranscribeView.transcription s' = None
    /\ ((TranscribeView.isRecording s' = true
         /\ TranscribeView.error s' = None
         /\ TranscribeView.chunksRef s' = []
         /\ TranscribeView.streamRef s' <> None
         /\ TranscribeView.mediaRecorderRef s' <> None)
        \/ (TranscribeView.isRecording s' = TranscribeView.isRecording s
            /\ TranscribeView.error s' = Some (Js.lit "MIC ERROR"))).
Proof.
  unfold TranscribeView.startRecording. unfold_comp. cbn [fst snd].
  crush_comp.
  all: eexists _, _; split; [reflexivity |]; split; [reflexivity |].
  all: cbn.
  all: first
    [ left; repeat split; discriminate
    | right; split; reflexivity ].
Qed.

(** X25.  [stopRecording] of the transcription tool does nothing unless
    it is recording and has a recorder: state and world are unchanged. *)
Theorem transcribe_stopRecording_guard
    (s : TranscribeView.State) (w : World Remote) :
  TranscribeView.isRecording s = false
  \/ TranscribeView.mediaRecorderRef s = None ->
  TranscribeView.stopRecording X (s, w) = ((s, w), Returns tt).
Proof.
  intro H. unfold TranscribeView.stopRecording. unfold_comp. cbn [fst snd].
  destruct (TranscribeView.mediaRecorderRef s) as [r |]; [| reflexivity].
  destruct H as [-> | H]; [reflexivity | discriminate H].
Qed.

(** X26.  [stopAudio] of the speech tool never throws, whatever the source
    does when asked to stop; afterwards there is no current source and
    [isPlaying] is false; and it is idempotent: a second call changes
    neither the state nor the world. *)
Theorem stopAudio_idempotent (s : TTSView.State) (w : World Remote) :
  exists s1 w1,
    TTSView.stopAudio X (s, w) = ((s1, w1), Returns tt)
    /\ TTSView.sourceRef s1 = None
    /\ TTSView.isPlaying s1 = false
    /\ TTSView.stopAudio X (s1, w1) = ((s1, w1), Returns tt).
Proof.
  unfold TTSView.stopAudio. unfold_comp. cbn [fst snd].
  crush_comp.
  all: eexists _, _; split; [reflexivity |]; cbn; rewrite ?Heqo;
       repeat split.
Qed.

(** X27.  [handleGenerate] with an empty or white-space-only text only
    sets the error text "Please enter some text.": nothing is stopped, no
    collaborator is called, the world is unchanged. *)
Theorem handleGenerate_blank (s : TTSView.State) (w : World Remote) :
  Js.blank (TTSView.text s) = true ->
  TTSView.handleGenerate X (s, w)
  = ((TTSView.withError (Some (Js.lit "Please enter some text.")) s, w),
     Returns tt).
Proof.
  intro H. unfold TTSView.handleGenerate. unfold cbind at 1, cread.
  cbn [fst]. rewrite JsFacts.falsy_trim, H. reflexivity.
Qed.

(** X28.  [handleGenerate] with any other text never throws and always
    ends with [isLoading] false and the text unchanged.  Either the audio
    plays: [isPlaying] true, no error text, a current source, started as
    the last thing done; or anything failed: [isPlaying] false and the
    error text "Speech generation failed.". *)
Theorem handleGenerate_outcomes (s : TTSView.State) (w : World Remote) :
  Js.blank (TTSView.text s) = false ->
  exists s' w',
    TTSView.handleGenerate X (s, w) = ((s', w'), Returns tt)
    /\ TTSView.isLoading s' = false
    /\ TTSView.text s' = TTSView.text s
    /\ ((TTSView.isPlaying s' = true /\ TTSView.error s' = None
         /\ TTSView.sourceRef s' <> None
         /\ exists before, invoked w' = before ++ [SourceStart])
        \/ (TTSView.isPlaying s' = false
            /\ TTSView.error s' = Some (Js.lit "Speech generation failed."))).
Proof.
  intro H. unfold TTSView.handleGenerate, TTSView.stopAudio,
    TTSView.generateAndPlay.
  unfold_comp. cbn [fst snd]. rewrite !JsFacts.falsy_trim, H.
  crush_comp.
  all: eexists _, _; split; [reflexivity |]; split; [reflexivity |];
       split; [reflexivity |].
  all: cbn.
  all: first
    [ right; split; reflexivity
    | left; split; [reflexivity |]; split; [reflexivity |];
      split; [discriminate |];
      unfold invoked; cbn; rewrite !flat_map_app; cbn; eexists; reflexivity ].
Qed.

End Views.

(** *** Concrete runs *)

(** Stopping the transcription tool right after its first render: the
    recording is empty. *)
Lemma handleStop_short_audio_witness :
  exists s' w',
    TranscribeView.handleStop Scripted.textOnly
      (TranscribeView.initialState, Scripted.fresh [])
    = ((s', w'), Returns tt)
    /\ TranscribeView.error s' = Some (Js.lit "Transcription failed.")
    /\ TranscribeView.transcription s' = None
    /\ TranscribeView.isProcessing s' = false
    /\ invoked w' = invoked (Scripted.fresh []) ++ [].
Proof.
  apply (@handleStop_short_audio _ Scripted.textOnly
           TranscribeView.initialState (Scripted.fresh [])).
  vm_compute. reflexivity.
Defined.

(** Stopping the transcription tool while it is not recording. *)
Lemma transcribe_stopRecording_guard_witness :
  TranscribeView.stopRecording Scripted.textOnly
    (TranscribeView.initialState, Scripted.fresh [])
  = ((TranscribeView.initialState, Scripted.fresh []), Returns tt).
Proof.
  apply (@transcribe_stopRecording_guard _ Scripted.textOnly
           TranscribeView.initialState (Scripted.fresh [])).
  left. reflexivity.
Defined.

(** Generating from two spaces of text. *)
Lemma handleGenerate_blank_witness :
  TTSView.handleGenerate Scripted.noAudio
    (Scripted.typed "  ", Scripted.fresh [])
  = ((TTSView.withError (Some (Js.lit "Please enter some text."))
        (Scripted.typed "  "),
      Scripted.fresh []),
     Returns tt).
Proof.
  apply (@handleGenerate_blank _ Scripted.noAudio (Scripted.typed "  ")
           (Scripted.fresh [])).
  reflexivity.
Defined.

(** Generating from "Hi" with a synthesis answer that has no audio. *)
Lemma handleGenerate_outcomes_witness :
  exists s' w',
    TTSView.handleGenerate Scripted.noAudio
      (Scripted.typed "Hi", Scripted.fresh [])
    = ((s', w'), Returns tt)
    /\ TTSView.isLoading s' = false
    /\ TTSView.text s' = TTSView.text (Scripted.typed "Hi")
    /\ ((TTSView.isPlaying s' = true /\ TTSView.error s' = None
         /\ TTSView.sourceRef s' <> None
         /\ exists before, invoked w' = before ++ [SourceStart])
        \/ (TTSView.isPlaying s' = false
            /\ TTSView.error s' = Some (Js.lit "Speech generation failed."))).
Proof.
  apply (@handleGenerate_outcomes _ Scripted.noAudio (Scripted.typed "Hi")
           (Scripted.fresh [])).
  reflexivity.
Defined.

End ToolViewFacts.
